(** * Pocket ledger: the bank-statement normalizer and the aggregation views

    A shallow embedding of the data transformations of

    - [src/components/dashboard/BankStatementImport.tsx] ([parseExcelFile]),
    - [src/components/dashboard/ExcelExport.tsx] ([ExpenseChart]'s
      [loadExpenseData] and [FALLBACK_COLORS]),
    - [src/components/dashboard/MonthlyTrends.tsx] ([loadMonthlyData]),

    of the handlers around them: the import card of
    BankStatementImport.tsx ([handleFileChange], [parseFile],
    [importTransactions]), [exportTransactions] of ExcelExport.tsx, what
    [ExpenseChart] renders, [loadDashboardData] of the dashboard and the
    form of the transaction dialog,

    together with the parts of the JavaScript runtime they call
    ([parseFloat], [Number.prototype.toString], [Math.abs], [||], [&&],
    [new Date(v).toISOString()], [Array.prototype.sort], [Map]).

    JavaScript numbers are IEEE 754 binary64 values: they are modelled by
    Rocq's primitive [float]s, which are exactly that format.  Strings are
    modelled by their UTF-8 bytes. *)

From Stdlib Require Import ZArith Lia List Bool Ascii String.
From Stdlib Require Import Sorting.Sorted Sorting.Permutation.
From Stdlib Require Import Floats.
From stdpp Require Import gmap strings list fin_maps.

Local Open Scope string_scope.
Local Open Scope Z_scope.

(** ** JavaScript numbers *)

Module JSNumber.

(** The value [neg] m * 10^e10, rounded to the nearest binary64 (ties to
    even): the Number value of a decimal literal.  For a negative decimal
    exponent the quotient is taken with enough extra bits below the
    53 kept ones, and a sticky bit records a non-zero remainder. *)
Definition of_decimal (neg : bool) (m : Z) (e10 : Z) : float :=
  let sf :=
    if m =? 0 then S754_zero false
    else if 0 <=? e10 then binary_normalize prec emax (m * 10 ^ e10) 0 false
    else
      let d := 10 ^ (- e10) in
      let s := Z.max 0 (64 + Z.log2 d - Z.log2 m) in
      let (q, r) := Z.div_eucl (Z.shiftl m s) d in
      binary_normalize prec emax (2 * q + (if r =? 0 then 0 else 1)) (- s - 1) false in
  let x := SF2Prim sf in
  if neg then (- x)%float else x.

(** [x > 0] as JavaScript evaluates it (false on NaN). *)
Definition gt0 (x : float) : bool := (0 <? x)%float.

(** The exact value of a finite number, scaled by 2^1074: every finite
    binary64 is an integer multiple of 2^-1074. *)
Definition scaled (x : float) : option Z :=
  match Prim2SF x with
  | S754_zero _ => Some 0
  | S754_finite s m e =>
      let v := Z.pos m * 2 ^ (e + 1074) in Some (if s then - v else v)
  | _ => None
  end.

(** [ToIntegerOrInfinity] on a finite number: truncation toward zero. *)
Definition trunc (x : float) : option Z :=
  match Prim2SF x with
  | S754_zero _ => Some 0
  | S754_finite s m e =>
      let v := if 0 <=? e then Z.pos m * 2 ^ e else Z.pos m / 2 ^ (- e) in
      Some (if s then - v else v)
  | _ => None
  end.

End JSNumber.

(** ** Strings: character classes and [parseFloat] *)

Module JSString.

Definition code (c : ascii) : Z := Z.of_nat (nat_of_ascii c).

(** [\d] of a regular expression without the unicode flag: [0-9]. *)
Definition is_digit (c : ascii) : bool := (48 <=? code c) && (code c <=? 57).

Definition digit_val (c : ascii) : Z := code c - 48.

(** [s.replace(/[^\d.-]/g, '')]: keep digits, [.] and [-] only. *)
Definition keeps (c : ascii) : bool :=
  is_digit c || (code c =? 46) || (code c =? 45).

Fixpoint strip_non_numeric (s : string) : string :=
  match s with
  | EmptyString => EmptyString
  | String c r =>
      if keeps c then String c (strip_non_numeric r) else strip_non_numeric r
  end.

(** [DecimalDigits]: the longest run of digits at the head of [s], as
    (its value continuing [acc], how many digits, the rest). *)
Fixpoint scan_digits (s : string) (acc : Z) (n : Z) : Z * Z * string :=
  match s with
  | String c r =>
      if is_digit c then scan_digits r (10 * acc + digit_val c) (n + 1)
      else (acc, n, s)
  | EmptyString => (acc, n, s)
  end.

(** [ExponentPart_opt]: [e] or [E], an optional sign, at least one digit;
    0 when the part is absent or incomplete. *)
Definition scan_exponent (s : string) : Z :=
  match s with
  | String c r =>
      if (code c =? 101) || (code c =? 69) then
        match r with
        | String sg r' =>
            if code sg =? 43 then
              let '(v, n, _) := scan_digits r' 0 0 in if n =? 0 then 0 else v
            else if code sg =? 45 then
              let '(v, n, _) := scan_digits r' 0 0 in if n =? 0 then 0 else - v
            else
              let '(v, n, _) := scan_digits r 0 0 in if n =? 0 then 0 else v
        | EmptyString => 0
        end
      else 0
  | EmptyString => 0
  end.

(** The longest prefix of [s] that is a [StrUnsignedDecimalLiteral], as
    its Number value with sign [neg]; NaN when there is none. *)
Definition unsigned_literal (neg : bool) (s : string) : float :=
  if String.prefix "Infinity" s then
    (if neg then neg_infinity else infinity)
  else
    let '(ip, n1, r1) := scan_digits s 0 0 in
    match r1 with
    | String c r2 =>
        if code c =? 46 then
          let '(m, n, r3) := scan_digits r2 ip n1 in
          if n =? 0 then nan
          else JSNumber.of_decimal neg m (scan_exponent r3 - (n - n1))
        else
          if n1 =? 0 then nan
          else JSNumber.of_decimal neg ip (scan_exponent r1)
    | EmptyString =>
        if n1 =? 0 then nan else JSNumber.of_decimal neg ip 0
    end.

(** The string of the bytes [l]. *)
Definition bytes (l : list Z) : string :=
  string_of_list_ascii (map (fun z => ascii_of_nat (Z.to_nat z)) l).

(** The white space and line terminators that [parseFloat] skips at the
    start (TAB, LF, VT, FF, CR, SP, U+00A0, U+1680, U+2000..U+200A, U+2028,
    U+2029, U+202F, U+205F, U+3000, U+FEFF), as UTF-8 byte sequences. *)
Definition white_space : list string :=
  map bytes
    [ [9]; [10]; [11]; [12]; [13]; [32]; [194; 160]; [225; 154; 128];
      [226; 128; 128]; [226; 128; 129]; [226; 128; 130]; [226; 128; 131];
      [226; 128; 132]; [226; 128; 133]; [226; 128; 134]; [226; 128; 135];
      [226; 128; 136]; [226; 128; 137]; [226; 128; 138]; [226; 128; 168];
      [226; 128; 169]; [226; 128; 175]; [226; 129; 159]; [227; 128; 128];
      [239; 187; 191] ].

Fixpoint drop_prefix (p s : string) : option string :=
  match p, s with
  | EmptyString, _ => Some s
  | String a p', String b s' =>
      if Ascii.eqb a b then drop_prefix p' s' else None
  | String _ _, EmptyString => None
  end.

Fixpoint drop_first_of (ps : list string) (s : string) : option string :=
  match ps with
  | [] => None
  | p :: ps' =>
      match drop_prefix p s with
      | Some r => Some r
      | None => drop_first_of ps' s
      end
  end.

Fixpoint trim_start_fuel (fuel : nat) (s : string) : string :=
  match fuel with
  | O => s
  | S f =>
      match drop_first_of white_space s with
      | Some r => trim_start_fuel f r
      | None => s
      end
  end.

Definition trim_start (s : string) : string :=
  trim_start_fuel (String.length s) s.

(** [parseFloat(s)]. *)
Definition parseFloat (s : string) : float :=
  match trim_start s with
  | String c r =>
      if code c =? 43 then unsigned_literal false r
      else if code c =? 45 then unsigned_literal true r
      else unsigned_literal false (String c r)
  | EmptyString => nan
  end.

End JSString.

Import JSString.

(** ** [Number.prototype.toString] (radix 10) *)

Module JSNumberToString.

Fixpoint dec_fuel (fuel : nat) (n : Z) (acc : string) : string :=
  match fuel with
  | O => acc
  | S f =>
      let acc' := String (ascii_of_nat (Z.to_nat (48 + n mod 10))) acc in
      if n / 10 =? 0 then acc' else dec_fuel f (n / 10) acc'
  end.

(** The decimal digits of a natural number. *)
Definition dec (n : Z) : string := dec_fuel (S (Z.to_nat (Z.log2 n))) n "".

Fixpoint zeros (n : nat) : string :=
  match n with O => "" | S n' => String "0" (zeros n') end.

(** Is 10^E <= num / den ? *)
Definition pow10_le (E num den : Z) : bool :=
  if 0 <=? E then 10 ^ E * den <=? num else den <=? num * 10 ^ (- E).

(** The largest [E] in [lo, lo + fuel] with 10^E <= num / den. *)
Fixpoint log10_floor (fuel : nat) (lo num den : Z) : Z :=
  match fuel with
  | O => lo
  | S f =>
      if pow10_le (lo + Z.of_nat fuel) num den then lo + Z.of_nat fuel
      else log10_floor f lo num den
  end.

(** floor (num / den / 10^p) *)
Definition scale_floor (num den p : Z) : Z :=
  if 0 <=? p then num / (den * 10 ^ p) else (num * 10 ^ (- p)) / den.

(** compare (num / den) with c * 10^p *)
Definition cmp_scaled (num den c p : Z) : comparison :=
  if 0 <=? p then num ?= c * 10 ^ p * den else num * 10 ^ (- p) ?= c * den.

(** For [k] digits: the integer [s] with [k] digits (or 10^k) such that
    [s * 10^(E - k + 1)] is the Number [x], the closest to [x]'s exact
    value [num / den] when two fit, the even one on a tie. *)
Definition candidate (x : float) (num den E k : Z) : option Z :=
  let p := E - k + 1 in
  let lo := scale_floor num den p in
  let hi := lo + 1 in
  let ok c := (JSNumber.of_decimal false c p =? x)%float in
  match ok lo, ok hi with
  | false, false => None
  | true, false => Some lo
  | false, true => Some hi
  | true, true =>
      match cmp_scaled (2 * num) den (lo + hi) p with
      | Lt => Some lo
      | Gt => Some hi
      | Eq => Some (if Z.even lo then lo else hi)
      end
  end.

Fixpoint shortest (x : float) (num den E : Z) (ks : list Z) : Z * Z * Z :=
  match ks with
  | [] => (0, 0, 0)
  | k :: ks' =>
      match candidate x num den E k with
      | Some s => if s =? 10 ^ k then (10 ^ (k - 1), k, E + 2) else (s, k, E + 1)
      | None => shortest x num den E ks'
      end
  end.

Definition split_at (n : Z) (s : string) : string * string :=
  (String.substring 0 (Z.to_nat n) s,
   String.substring (Z.to_nat n) (String.length s - Z.to_nat n) s).

(** The digits of a positive finite number [m * 2^e]. *)
Definition positive_to_string (x : float) (m : positive) (e : Z) : string :=
  let num := if 0 <=? e then Z.pos m * 2 ^ e else Z.pos m in
  let den := if 0 <=? e then 1 else 2 ^ (- e) in
  let E := log10_floor 640 (-330) num den in
  let '(s, k, n) := shortest x num den E (map Z.of_nat (seq 1 17)) in
  let ds := dec s in
  if (k <=? n) && (n <=? 21) then ds ++ zeros (Z.to_nat (n - k))
  else if (0 <? n) && (n <=? 21) then
    let (a, b) := split_at n ds in a ++ "." ++ b
  else if (-6 <? n) && (n <=? 0) then "0." ++ zeros (Z.to_nat (- n)) ++ ds
  else
    let ex := n - 1 in
    let tail := "e" ++ (if ex <? 0 then "-" else "+") ++ dec (Z.abs ex) in
    if k =? 1 then ds ++ tail
    else let (a, b) := split_at 1 ds in a ++ "." ++ b ++ tail.

(** [x.toString()] for a number [x]. *)
Definition toString (x : float) : string :=
  match Prim2SF x with
  | S754_nan => "NaN"
  | S754_zero _ => "0"
  | S754_infinity s => if s then "-Infinity" else "Infinity"
  | S754_finite s m e =>
      (if s then "-" else "") ++ positive_to_string (abs x) m e
  end.

End JSNumberToString.

(** ** Dates: [new Date(v)], [toISOString], the proleptic Gregorian calendar *)

Module JSDate.

Definition msPerDay : Z := 86400000.

(** Days since 1970-01-01 of the civil date [y]-[m]-[d] (month 1..12). *)
Definition days_from_civil (y m d : Z) : Z :=
  let y' := if m <=? 2 then y - 1 else y in
  let era := y' / 400 in
  let yoe := y' - era * 400 in
  let doy := (153 * (if 2 <? m then m - 3 else m + 9) + 2) / 5 + d - 1 in
  let doe := yoe * 365 + yoe / 4 - yoe / 100 + doy in
  era * 146097 + doe - 719468.

(** The civil date (year, month 1..12, day) of a day number. *)
Definition civil_from_days (z : Z) : Z * Z * Z :=
  let z' := z + 719468 in
  let era := z' / 146097 in
  let doe := z' - era * 146097 in
  let yoe := (doe - doe / 1460 + doe / 36524 - doe / 146096) / 365 in
  let doy := doe - (365 * yoe + yoe / 4 - yoe / 100) in
  let mp := (5 * doy + 2) / 153 in
  let d := doy - (153 * mp + 2) / 5 + 1 in
  let m := if mp <? 10 then mp + 3 else mp - 9 in
  ((if m <=? 2 then yoe + era * 400 + 1 else yoe + era * 400), m, d).

(** [n] in decimal, left-padded with zeros to [width] digits. *)
Definition pad (width : nat) (n : Z) : string :=
  let ds := JSNumberToString.dec n in
  JSNumberToString.zeros (width - String.length ds) ++ ds.

(** The date part of [toISOString()]: YYYY-MM-DD, the year with a sign and
    six digits outside 0..9999. *)
Definition iso_date (day : Z) : string :=
  let '(y, m, d) := civil_from_days day in
  let ys :=
    if (0 <=? y) && (y <=? 9999) then pad 4 y
    else (if y <? 0 then "-" else "+") ++ pad 6 (Z.abs y) in
  ys ++ "-" ++ pad 2 m ++ "-" ++ pad 2 d.

(** [TimeClip]: a time value is an integer of at most 8.64e15 ms in
    magnitude, or NaN ([None]). *)
Definition timeClip (x : float) : option Z :=
  match JSNumber.trunc x with
  | Some t => if Z.abs t <=? 8640000000000000 then Some t else None
  | None => None
  end.

(** [d.toISOString().split('T')[0]] for a date of time value [tv]; [None]
    when the date is invalid, where [toISOString] throws a RangeError. *)
Definition toISOString_date (tv : option Z) : option string :=
  match tv with
  | Some t => Some (iso_date (t / msPerDay))
  | None => None
  end.

End JSDate.

(** ** The statement normalizer: [parseExcelFile] of BankStatementImport.tsx *)

(** A cell of a row of [XLSX.utils.sheet_to_json] (raw values, no
    [cellDates]): a string, a number or a boolean. *)
Inductive Cell : Type :=
  | CStr (s : string)
  | CNum (x : float)
  | CBool (b : bool).

(** The value of a property access [row.key]: a cell, or [undefined]. *)
Definition JSValue : Type := option Cell.

Inductive TxType : Type := Income | Expense.

(** [interface ParsedTransaction]. *)
Record ParsedTransaction : Type := {
  date : string;
  description : string;
  amount : float;
  type : TxType
}.

(** What [XLSX.read] made of the uploaded bytes: it throws, or there is a
    first sheet whose rows [sheet_to_json] lists. *)
Inductive Workbook : Type :=
  | Unreadable
  | FirstSheet (jsonData : list (gmap string Cell)).

Inductive Error : Type :=
  | XlsxError      (* thrown by the decoder *)
  | RangeError.    (* "Invalid time value", thrown by toISOString *)

(** How the promise of [parseExcelFile] settles. *)
Inductive Settled : Type :=
  | Resolved (transactions : list ParsedTransaction)
  | Rejected (error : Error).

(** What the [forEach] callback does with one row. *)
Inductive RowOutcome : Type :=
  | Skip
  | Push (t : ParsedTransaction)
  | Throw (error : Error).

Module Normalizer.

(** ToBoolean. *)
Definition truthy (v : JSValue) : bool :=
  match v with
  | None => false
  | Some (CStr s) => negb (String.eqb s "")
  | Some (CNum x) => negb (is_zero x || is_nan x)
  | Some (CBool b) => b
  end.

(** [a || b]. *)
Definition orElse (a b : JSValue) : JSValue := if truthy a then a else b.

Infix "|||" := orElse (at level 50, left associativity).

(** The value [v] inside [if (v) { ... }]. *)
Definition asTruthy (v : JSValue) : option Cell :=
  if truthy v then v else None.

(** [v.toString()]. *)
Definition toString (c : Cell) : string :=
  match c with
  | CStr s => s
  | CNum x => JSNumberToString.toString x
  | CBool b => if b then "true" else "false"
  end.

Definition dateValue (row : gmap string Cell) : JSValue :=
  row !! "Date" ||| row !! "date" ||| row !! "DATE"
    ||| row !! "Transaction Date" ||| row !! "transaction_date".

Definition descValue (row : gmap string Cell) : JSValue :=
  row !! "Description" ||| row !! "description" ||| row !! "DESCRIPTION"
    ||| row !! "Narration" ||| row !! "narration".

Definition amountValue (row : gmap string Cell) : JSValue :=
  row !! "Amount" ||| row !! "amount" ||| row !! "AMOUNT".

Definition debitValue (row : gmap string Cell) : JSValue :=
  row !! "Debit" ||| row !! "debit" ||| row !! "DEBIT".

Definition creditValue (row : gmap string Cell) : JSValue :=
  row !! "Credit" ||| row !! "credit" ||| row !! "CREDIT".

(** [v && parseFloat(v.toString()) > 0], with the number the branch
    then assigns to [amount]. *)
Definition positiveValue (v : JSValue) : option float :=
  match asTruthy v with
  | Some c =>
      if JSNumber.gt0 (parseFloat (toString c))
      then Some (parseFloat (toString c)) else None
  | None => None
  end.

(** The variables [amount] and [type] after the if-chain of lines 60-74. *)
Definition amountAndType (row : gmap string Cell) : float * TxType :=
  match asTruthy (amountValue row) with
  | Some a =>
      (abs (parseFloat (strip_non_numeric (toString a))),
       if JSNumber.gt0 (parseFloat (toString a)) then Income else Expense)
  | None =>
      if truthy (debitValue row ||| creditValue row) then
        match positiveValue (debitValue row) with
        | Some x => (x, Expense)
        | None =>
            match positiveValue (creditValue row) with
            | Some x => (x, Income)
            | None => (0%float, Expense)
            end
        end
      else (0%float, Expense)
  end.

Section Engine.

(** [Date.parse] on a string: the time value, or [None] for NaN.  Outside
    the ISO format the result is left to the JavaScript engine, so it is a
    parameter of the model. *)
Variable Date_parse : string -> option Z.

(** The time value of [new Date(v)]. *)
Definition newDate (v : Cell) : option Z :=
  match v with
  | CStr s => Date_parse s
  | CNum x => JSDate.timeClip x
  | CBool b => Some (if b then 1 else 0)
  end.

(** The body of the [forEach] callback (lines 51-85). *)
Definition normalizeRow (row : gmap string Cell) : RowOutcome :=
  match asTruthy (dateValue row), asTruthy (descValue row) with
  | Some dv, Some desc =>
      let '(amount, type) := amountAndType row in
      if JSNumber.gt0 amount then
        match JSDate.toISOString_date (newDate dv) with
        | Some d =>
            Push {| date := d; description := toString desc;
                    amount := amount; type := type |}
        | None => Throw RangeError
        end
      else Skip
  | _, _ => Skip
  end.

(** [jsonData.forEach(...)] pushing onto [transactions], inside the
    [try]: the first exception abandons the loop. *)
Fixpoint forEach (jsonData : list (gmap string Cell))
    (transactions : list ParsedTransaction) : Settled :=
  match jsonData with
  | [] => Resolved transactions
  | row :: rest =>
      match normalizeRow row with
      | Skip => forEach rest transactions
      | Push t => forEach rest (transactions ++ [t])
      | Throw e => Rejected e
      end
  end.

(** [parseExcelFile] (lines 38-94), from the decoded workbook on. *)
Definition parseExcelFile (workbook : Workbook) : Settled :=
  match workbook with
  | Unreadable => Rejected XlsxError
  | FirstSheet jsonData => forEach jsonData []
  end.

End Engine.

End Normalizer.

(** ** The store: rows of [transactions] joined with [categories] *)

Module Store.

(** The joined [categories (name, color)] of a transaction. *)
Record Category : Type := { name : string; color : string }.

(** A row of [public.transactions] as the client receives it: [amount]
    (DECIMAL(15,2)) arrives as a JSON number, [date] (DATE) is kept as
    its day number since 1970-01-01, [categories] is null without a
    category. *)
Record Transaction : Type := {
  user_id : string;
  type : TxType;
  amount : float;
  date : Z;
  categories : option Category
}.

Definition TxType_eqb (a b : TxType) : bool :=
  match a, b with
  | Income, Income | Expense, Expense => true
  | _, _ => false
  end.

(** [.eq('user_id', user).gte('date', firstDay).lte('date', lastDay)],
    the bounds being the days whose ISO dates the client sends. *)
Definition inWindow (user : string) (firstDay lastDay : Z)
    (t : Transaction) : bool :=
  String.eqb (user_id t) user && (firstDay <=? date t) && (date t <=? lastDay).

Definition selectWindow (table : list Transaction) (user : string)
    (firstDay lastDay : Z) : list Transaction :=
  List.filter (inWindow user firstDay lastDay) table.

(** The same query with [.eq('type', 'expense')]. *)
Definition selectExpenses (table : list Transaction) (user : string)
    (firstDay lastDay : Z) : list Transaction :=
  List.filter
    (fun t => String.eqb (user_id t) user && TxType_eqb (type t) Expense
              && (firstDay <=? date t) && (date t <=? lastDay))
    table.

End Store.

(** ** The clock: [new Date()], [new Date(y, m, d)] in local time *)

Module Clock.

(** [getFullYear()] and [getMonth()] of [new Date(y, m, 1)] (MakeDay:
    month overflow carries into the year; a year 0..99 means 1900 + y). *)
Definition firstOfMonth (y m : Z) : Z * Z :=
  let y' := if (0 <=? y) && (y <=? 99) then 1900 + y else y in
  (y' + m / 12, m mod 12).

(** The local day number of [new Date(y, m, d)]. *)
Definition localDay (y m d : Z) : Z :=
  let '(ym, mn) := firstOfMonth y m in
  JSDate.days_from_civil ym (mn + 1) 1 + d - 1.

Section Zone.

(** Minutes by which local time is ahead of UTC at local midnight of a
    day (the opposite of [getTimezoneOffset()]). *)
Variable tzOffset : Z -> Z.

(** The UTC day of local midnight of [day]: what
    [d.toISOString().split('T')[0]] names for a local-midnight date. *)
Definition utcDay (day : Z) : Z := (day * 1440 - tzOffset day) / 1440.

(** [new Date(y, m, d).toISOString().split('T')[0]], as a day number. *)
Definition isoDay (y m d : Z) : Z := utcDay (localDay y m d).

End Zone.

End Clock.

(** ** The expense breakdown: [loadExpenseData] of ExpenseChart *)

(** [interface ExpenseData]. *)
Record ExpenseData : Type := {
  name : string;
  value : float;
  color : string
}.

Module ExpenseChart.

Definition FALLBACK_COLORS : list string :=
  [ "#8884d8"; "#82ca9d"; "#ffc658"; "#ff7300"; "#8dd1e1"; "#d084d0";
    "#87d068" ].

(** [s || d] on strings: the empty string is falsy. *)
Definition strOr (s d : string) : string :=
  if String.eqb s "" then d else s.

(** [transaction.categories?.name || 'Uncategorized'] *)
Definition categoryName (t : Store.Transaction) : string :=
  match Store.categories t with
  | Some c => strOr (Store.name c) "Uncategorized"
  | None => "Uncategorized"
  end.

(** [transaction.categories?.color || '#6b7280'] *)
Definition categoryColor (t : Store.Transaction) : string :=
  match Store.categories t with
  | Some c => strOr (Store.color c) "#6b7280"
  | None => "#6b7280"
  end.

(** A [Map<string, {amount, color}>]: its entries in insertion order. *)
Definition CategoryMap : Type := list (string * (float * string)).

Definition has (m : CategoryMap) (k : string) : bool :=
  existsb (fun e => String.eqb (fst e) k) m.

(** [m.get(k)!.amount += amount]: the entry is updated where it stands. *)
Fixpoint addAmount (m : CategoryMap) (k : string) (a : float) : CategoryMap :=
  match m with
  | [] => []
  | (k', (amt, col)) :: rest =>
      if String.eqb k' k then (k', ((amt + a)%float, col)) :: rest
      else (k', (amt, col)) :: addAmount rest k a
  end.

(** The body of [data.forEach] (lines 289-299). *)
Definition addTransaction (m : CategoryMap) (t : Store.Transaction)
    : CategoryMap :=
  let categoryName := categoryName t in
  let categoryColor := categoryColor t in
  let amount := Store.amount t in
  if has m categoryName then addAmount m categoryName amount
  else (m ++ [(categoryName, (amount, categoryColor))])%list.

Definition groupByCategory (data : list Store.Transaction) : CategoryMap :=
  fold_left addTransaction data [].

(** [.map(([name, data], index) => ...)] (lines 303-307), from [index]. *)
Fixpoint toChart (index : nat) (entries : CategoryMap) : list ExpenseData :=
  match entries with
  | [] => []
  | (n, (amt, col)) :: rest =>
      {| name := n; value := amt;
         color := strOr col
                    (nth (index mod length FALLBACK_COLORS) FALLBACK_COLORS "") |}
      :: toChart (S index) rest
  end.

(** The comparator [(a, b) => b.value - a.value]. *)
Definition compareFn (a b : ExpenseData) : float := (value b - value a)%float.

(** [Array.prototype.sort(compareFn)], which is stable: an element moves
    behind another only when the comparator is positive (NaN counts as 0).
    With a consistent comparator every stable sort gives this result. *)
Fixpoint insert (x : ExpenseData) (l : list ExpenseData) : list ExpenseData :=
  match l with
  | [] => [x]
  | y :: l' =>
      if JSNumber.gt0 (compareFn x y) then y :: insert x l' else x :: y :: l'
  end.

Fixpoint sort (l : list ExpenseData) : list ExpenseData :=
  match l with
  | [] => []
  | x :: l' => insert x (sort l')
  end.

(** [chartData] (lines 302-308) from the fetched [data]. *)
Definition chartData (data : list Store.Transaction) : list ExpenseData :=
  sort (toChart 0 (groupByCategory data)).

Section Loaded.

Variable tzOffset : Z -> Z.
(** The store's table, and the local year and month of [new Date()]. *)
Variable table : list Store.Transaction.
Variables (nowYear nowMonth : Z).

(** [loadExpenseData] (lines 261-316): the value given to
    [setExpenseData], or [None] without a user. *)
Definition loadExpenseData (user : option string) : option (list ExpenseData) :=
  match user with
  | None => None
  | Some uid =>
      let firstDay := Clock.isoDay tzOffset nowYear nowMonth 1 in
      let lastDay := Clock.isoDay tzOffset nowYear (nowMonth + 1) 0 in
      Some (chartData (Store.selectExpenses table uid firstDay lastDay))
  end.

End Loaded.

End ExpenseChart.

(** ** The monthly series: [loadMonthlyData] of MonthlyTrends *)

(** [interface MonthlyData]. *)
Record MonthlyData : Type := {
  month : string;
  income : float;
  expenses : float;
  net : float
}.

Module MonthlyTrends.

Definition monthNames : list string :=
  [ "Jan"; "Feb"; "Mar"; "Apr"; "May"; "Jun";
    "Jul"; "Aug"; "Sep"; "Oct"; "Nov"; "Dec" ].

(** [date.toLocaleDateString('en-US', { month: 'short', year: '2-digit' })]
    for a date in year [y], month [m] (0-based): "Jan 24". *)
Definition monthLabel (y m : Z) : string :=
  nth (Z.to_nat m) monthNames "" ++ " " ++ JSDate.pad 2 (Z.abs y mod 100).

(** An element of [months]: the label and the two ISO dates (as days). *)
Record Bucket : Type := {
  label : string;
  firstDay : Z;
  lastDay : Z
}.

(** [data.filter(t => t.type === k).reduce((sum, t) => sum + Number(t.amount), 0)] *)
Definition total (k : TxType) (data : list Store.Transaction) : float :=
  fold_left (fun sum t => (sum + Store.amount t)%float)
    (List.filter (fun t => Store.TxType_eqb (Store.type t) k) data) 0%float.

Section Loaded.

Variable tzOffset : Z -> Z.
Variable table : list Store.Transaction.
Variables (nowYear nowMonth : Z).

(** [getFullYear()] and [getMonth()] of [date] in the iteration [i] of
    the loop of lines 32-42. *)
Definition monthOf (i : Z) : Z * Z := Clock.firstOfMonth nowYear (nowMonth - i).

(** The element pushed in iteration [i]. *)
Definition bucket (i : Z) : Bucket :=
  let '(y, m) := monthOf i in
  {| label := monthLabel y m;
     firstDay := Clock.isoDay tzOffset y m 1;
     lastDay := Clock.isoDay tzOffset y (m + 1) 0 |}.

(** [for (let i = 5; i >= 0; i--)] *)
Definition months : list Bucket := map bucket [5; 4; 3; 2; 1; 0].

(** The callback of [months.map] (lines 45-69), the fetch succeeding. *)
Definition monthResult (uid : string) (b : Bucket) : MonthlyData :=
  let data := Store.selectWindow table uid (firstDay b) (lastDay b) in
  let income := total Income data in
  let expenses := total Expense data in
  {| month := label b; income := income; expenses := expenses;
     net := (income - expenses)%float |}.

(** [loadMonthlyData] (lines 24-78): the value given to
    [setMonthlyData], or [None] without a user. *)
Definition loadMonthlyData (user : option string) : option (list MonthlyData) :=
  match user with
  | None => None
  | Some uid => Some (map (monthResult uid) months)
  end.

End Loaded.

End MonthlyTrends.

(** * The vocabulary of the properties *)

(** ** The order of binary64 numbers

    JavaScript's [<], [<=], [==] on numbers and the sign of a difference
    [b - a], related to the order of the integers [ord]: the exact value of
    a finite number in units of 2^-1074, the infinities beyond them. *)

Module FloatOrder.

Definition big : Z := 2 ^ 2200.

Definition SFord (x : spec_float) : Z :=
  match x with
  | S754_zero _ => 0
  | S754_infinity s => if s then - big else big
  | S754_nan => 0
  | S754_finite s m e =>
      if s then - (Z.pos m * 2 ^ (e + 1074)) else Z.pos m * 2 ^ (e + 1074)
  end.

Definition ord (x : float) : Z := SFord (Prim2SF x).

(** The magnitude of a finite number as a multiple of 2^-1074. *)
Definition mag (m : positive) (e : Z) : Z := Z.pos m * 2 ^ (e + 1074).

Definition not_nan (x : spec_float) : Prop := x <> S754_nan.

(** A sign and a non-zero magnitude: finite or infinite. *)
Definition signed_nonzero (s : bool) (x : spec_float) : Prop :=
  (exists m e, x = S754_finite s m e) \/ x = S754_infinity s.

(** A finite number: a zero or a non-zero finite value. *)
Definition SFfinite (x : spec_float) : Prop :=
  match x with
  | S754_zero _ | S754_finite _ _ _ => True
  | _ => False
  end.

End FloatOrder.

(** ** The normalizer, in the specification's terms *)

Module NormalizerSpec.

Import Normalizer.

(** ** The probe lists, as the specification words them *)

Definition dateKeys : list string :=
  [ "Date"; "date"; "DATE"; "Transaction Date"; "transaction_date" ].
Definition descKeys : list string :=
  [ "Description"; "description"; "DESCRIPTION"; "Narration"; "narration" ].
Definition amountKeys : list string := [ "Amount"; "amount"; "AMOUNT" ].
Definition debitKeys : list string := [ "Debit"; "debit"; "DEBIT" ].
Definition creditKeys : list string := [ "Credit"; "credit"; "CREDIT" ].

(** The value of the first key, in probe order, that the row contains. *)
Fixpoint firstPresent (keys : list string) (row : gmap string Cell)
    : option Cell :=
  match keys with
  | [] => None
  | k :: ks =>
      match row !! k with
      | Some c => Some c
      | None => firstPresent ks row
      end
  end.

(** The value of the first key, in probe order, whose value is truthy. *)
Fixpoint firstTruthy (keys : list string) (row : gmap string Cell)
    : option Cell :=
  match keys with
  | [] => None
  | k :: ks =>
      match asTruthy (row !! k) with
      | Some c => Some c
      | None => firstTruthy ks row
      end
  end.

(** The debit/credit rule on the resolved debit and credit values. *)
Definition debitCreditRule (debit credit : option Cell) : float * TxType :=
  match positiveValue debit with
  | Some x => (x, Expense)
  | None =>
      match positiveValue credit with
      | Some x => (x, Income)
      | None => (0%float, Expense)
      end
  end.

(** The single-amount rule as lines 64-65 compute it. *)
Definition singleAmount (a : Cell) : float * TxType :=
  (abs (parseFloat (strip_non_numeric (toString a))),
   if JSNumber.gt0 (parseFloat (toString a)) then Income else Expense).

(** No amount, debit or credit column at all. *)
Definition noAmountInfo (row : gmap string Cell) : Prop :=
  forall k, In k (amountKeys ++ debitKeys ++ creditKeys)%list -> row !! k = None.

(** The row passes both guards of lines 59 and 76. *)
Definition passesGuards (row : gmap string Cell) : bool :=
  truthy (dateValue row) && truthy (descValue row)
  && JSNumber.gt0 (fst (amountAndType row)).

Section Engine.

Variable Date_parse : string -> option Z.

(** The date value of the row is not a valid date. *)
Definition invalidDate (row : gmap string Cell) : bool :=
  match asTruthy (dateValue row) with
  | Some dv =>
      match newDate Date_parse dv with Some _ => false | None => true end
  | None => false
  end.

(** The transaction a row contributes, if any. *)
Definition transactionOf (row : gmap string Cell) : option ParsedTransaction :=
  match normalizeRow Date_parse row with
  | Push t => Some t
  | _ => None
  end.

Definition throws (row : gmap string Cell) : bool :=
  match normalizeRow Date_parse row with
  | Throw _ => true
  | _ => false
  end.

End Engine.

(** ** Sample rows *)

(** 2024-05-01T00:00:00Z and 2024-05-02T00:00:00Z as time values. *)
Definition may1 : Cell := CNum 1714521600000.
Definition may2 : Cell := CNum 1714608000000.

Definition coffee : gmap string Cell :=
  list_to_map [ ("Date", may1); ("Description", CStr "Coffee"); ("Debit", CStr "150") ].

Definition coffeeTx : ParsedTransaction :=
  {| date := "2024-05-01"; description := "Coffee"; amount := 150; type := Expense |}.

Definition salary : gmap string Cell :=
  list_to_map [ ("date", may2); ("description", CStr "Salary"); ("Credit", CStr "50000") ].

Definition salaryTx : ParsedTransaction :=
  {| date := "2024-05-02"; description := "Salary"; amount := 50000; type := Income |}.

(** A row with a date and a description and no amount column at all. *)
Definition blank : gmap string Cell :=
  list_to_map [ ("Date", may1); ("Description", CStr "Opening balance") ].

(** A date cell beyond the range of time values (8.64e15 ms). *)
Definition beyondTime : gmap string Cell :=
  list_to_map [ ("Date", CNum 10000000000000000); ("Description", CStr "Late fee");
                ("Amount", CStr "-25") ].

Definition notADate : gmap string Cell :=
  list_to_map [ ("Date", CStr "not a date"); ("Description", CStr "Late fee");
                ("Amount", CStr "-25") ].

(** An amount with a currency symbol. *)
Definition refund : gmap string Cell :=
  list_to_map [ ("Date", may1); ("Description", CStr "Refund"); ("Amount", CStr "$100") ].

(** An Amount column holding the number 0 beside a Debit column. *)
Definition zeroAmountWithDebit : gmap string Cell :=
  list_to_map [ ("Date", may1); ("Description", CStr "Card"); ("Amount", CNum 0);
                ("Debit", CStr "50") ].

(** Debit and credit both present and positive. *)
Definition debitAndCredit : gmap string Cell :=
  list_to_map [ ("Date", may1); ("Description", CStr "Transfer"); ("Debit", CStr "20");
                ("Credit", CStr "30") ].

(** Two date columns, the first in probe order holding the number 0. *)
Definition twoDates : gmap string Cell :=
  list_to_map [ ("Date", CNum 0); ("date", may2); ("Description", CStr "Lunch");
                ("Amount", CStr "-12.5") ].

End NormalizerSpec.

(** ** The expense breakdown, in the specification's terms *)

Module ExpenseChartSpec.

Import ExpenseChart.

(** ** The grouping, in the specification's terms *)

(** The distinct names of a list, in the order of their first occurrence. *)
Definition firstSeenOrder (names : list string) : list string :=
  fold_left
    (fun ks n => if existsb (String.eqb n) ks then ks else (ks ++ [n])%list)
    names [].

(** The transactions of the group named [n], in the order of [data]. *)
Definition groupOf (data : list Store.Transaction) (n : string)
    : list Store.Transaction :=
  List.filter (fun t => String.eqb (categoryName t) n) data.

Definition groupAmounts (data : list Store.Transaction) (n : string) : list float :=
  map Store.amount (groupOf data n).

(** The binary64 sum of a list, added from left to right from its first
    element. *)
Definition floatSum (l : list float) : float :=
  match l with
  | [] => 0%float
  | a :: r => fold_left (fun s x => (s + x)%float) r a
  end.

(** The colour of the first transaction of a group. *)
Definition groupColor (data : list Store.Transaction) (n : string) : string :=
  match groupOf data n with
  | t :: _ => categoryColor t
  | [] => ""
  end.

(** What an entry of the map holds after [data]. *)
Definition entry_ok (data : list Store.Transaction)
    (e : string * (float * string)) : Prop :=
  groupOf data (fst e) <> [] /\
  fst (snd e) = floatSum (groupAmounts data (fst e)) /\
  snd (snd e) = groupColor data (fst e).

Definition group_ok (data : list Store.Transaction) (g : ExpenseData) : Prop :=
  groupOf data (name g) <> [] /\
  value g = floatSum (groupAmounts data (name g)) /\
  color g = groupColor data (name g).

(** [addAmount] on a map without repeated keys. *)
Definition bump (k : string) (a : float) (e : string * (float * string))
    : string * (float * string) :=
  if String.eqb (fst e) k then (fst e, ((fst (snd e) + a)%float, snd (snd e))) else e.

Definition inv (data : list Store.Transaction) (m : CategoryMap) : Prop :=
  List.NoDup (map fst m) /\
  map fst m = firstSeenOrder (map categoryName data) /\
  Forall (entry_ok data) m.

(** The entry's total is a number (not NaN). *)
Definition numeric (g : ExpenseData) : Prop := is_nan (value g) = false.

(** [g] may stand before [h] in a descending list. *)
Definition descending (g h : ExpenseData) : Prop :=
  (value h <=? value g)%float = true.

(** The entries whose total equals [v]. *)
Definition tie (v : float) (g : ExpenseData) : bool := (value g =? v)%float.

(** ** Sample data *)

(** The JSON number of a DECIMAL(15,2) amount of [c] cents. *)
Definition cents (c : Z) : float := JSNumber.of_decimal false c (-2).

Definition spend (category : option Store.Category) (a : float)
    : Store.Transaction :=
  {| Store.user_id := "u1"; Store.type := Expense; Store.amount := a;
     Store.date := 19844; Store.categories := category |}.

Definition catA : option Store.Category :=
  Some {| Store.name := "A"; Store.color := "#ef4444" |}.
Definition catB : option Store.Category :=
  Some {| Store.name := "B"; Store.color := "#f97316" |}.

(** Expenses of 100, 200, 200 in the categories A, B, B. *)
Definition abb : list Store.Transaction :=
  [ spend catA 100; spend catB 200; spend catB 200 ].

(** Eight expenses of 9999999999999.99 and one of 0.01 in one category:
    their exact sum is 79999999999999.93, that is 7999999999999993 cents. *)
Definition largeRent : list Store.Transaction :=
  repeat (spend catA (cents 999999999999999)) 8 ++ [ spend catA (cents 1) ].

(** The exact sum of finite numbers, in units of 2^-1074. *)
Fixpoint exactSum (l : list float) : option Z :=
  match l with
  | [] => Some 0
  | a :: r =>
      match JSNumber.scaled a, exactSum r with
      | Some x, Some y => Some (x + y)
      | _, _ => None
      end
  end.

(** [|total - sum| >= 0.005] for the exact values of [total] and of the
    numbers of [l]. *)
Definition offByHalfCentOf (total : float) (l : list float) : bool :=
  match JSNumber.scaled total, exactSum l with
  | Some t, Some e => 2 ^ 1074 <=? 200 * Z.abs (t - e)
  | _, _ => true
  end.

(** [|total - exactCents / 100| >= 0.005], on the exact value of [total]. *)
Definition offByHalfCent (total : float) (exactCents : Z) : bool :=
  match JSNumber.scaled total with
  | Some t => 2 ^ 1073 <=? Z.abs (100 * t - exactCents * 2 ^ 1074)
  | None => true
  end.

End ExpenseChartSpec.

(** ** The monthly series, in the specification's terms *)

Module MonthlyTrendsSpec.

Import MonthlyTrends.

(** The months counted from year 0: a month is older when this is smaller. *)
Definition monthOrdinal (ym : Z * Z) : Z := 12 * fst ym + snd ym.

(** What the entry of the iteration [i] holds. *)
Definition entry_ok (tzOffset : Z -> Z) (table : list Store.Transaction)
    (nowYear nowMonth : Z) (uid : string) (i : Z) (e : MonthlyData) : Prop :=
  let '(y, m) := monthOf nowYear nowMonth i in
  let data :=
    Store.selectWindow table uid (Clock.isoDay tzOffset y m 1)
      (Clock.isoDay tzOffset y (m + 1) 0) in
  month e = monthLabel y m /\
  income e = total Income data /\
  expenses e = total Expense data /\
  net e = (income e - expenses e)%float /\
  (data = [] -> income e = 0%float /\ expenses e = 0%float /\ net e = 0%float).

End MonthlyTrendsSpec.

(** ** The columns the normalizer reads *)

Module NormalizerColumns.

(** The keys of the property reads of lines 53-57, in the order of the
    reads. *)
Definition probedKeys : list string :=
  [ "Date"; "date"; "DATE"; "Transaction Date"; "transaction_date";
    "Description"; "description"; "DESCRIPTION"; "Narration"; "narration";
    "Amount"; "amount"; "AMOUNT";
    "Debit"; "debit"; "DEBIT";
    "Credit"; "credit"; "CREDIT" ].

(** A coffee whose date cell holds the serial day number of 1 May 2024,
    and the transaction it gives. *)
Definition serialDated : gmap string Cell :=
  list_to_map [ ("Date", CNum 45413); ("Description", CStr "Coffee");
                ("Debit", CStr "150") ].

Definition serialDatedTx : ParsedTransaction :=
  {| date := "1970-01-01"; description := "Coffee"; amount := 150; type := Expense |}.

End NormalizerColumns.

(** * The components around the two views

    The handlers of the React components are modelled as functions on the
    component's state: a handler runs to its end before the next event is
    handled (the controls are disabled while [importing] or [loading] is
    set), and the answers of the store are arguments. *)

(** ** The import card: [BankStatementImport] *)

Module BankStatementImport.

(** [String.prototype.endsWith(searchString)]. *)
Definition endsWith (s searchString : string) : bool :=
  let len := String.length s in
  let searchLength := String.length searchString in
  Nat.leb searchLength len
  && String.eqb (substring (len - searchLength)%nat searchLength s) searchString.

(** An uploaded [File]: its name, and what [XLSX.read] makes of its bytes. *)
Record File : Type := {
  name : string;
  workbook : Workbook
}.

(** The state of the component between two events ([importing] is false
    again when a handler ends). *)
Record State : Type := {
  file : option File;
  parsedData : list ParsedTransaction
}.

Definition initial : State := {| file := None; parsedData := [] |}.

(** What a handler throws inside its [try]. *)
Inductive Failure : Type :=
  | Unsupported               (* 'Unsupported file format. ...' *)
  | Thrown (error : Error)    (* the rejection of parseExcelFile *)
  | NoAccount                 (* 'No account found. ...' *)
  | InsertError.              (* the error of the insert *)

Inductive Toast : Type :=
  | FileParsed (found : nat)           (* `Found ${n} transactions` *)
  | ErrorParsingFile (cause : Failure)
  | ImportSuccessful (imported : nat)  (* `Imported ${n} transactions` *)
  | ImportFailed (cause : Failure).

(** A row of the [insert] of lines 147-155. *)
Module Insert.
Record t : Type := {
  user_id : string;
  account_id : string;
  amount : float;
  type : TxType;
  description : string;
  date : string;
  notes : string
}.
End Insert.

(** What the store answers to the two requests of [importTransactions]:
    the ids of [select('id').eq('user_id', ...).limit(1)] ([None] for a
    null [data]), and whether the insert reports an error. *)
Record Responses : Type := {
  accounts : option (list string);
  insertError : bool
}.

(** [handleFileChange] (lines 30-36). *)
Definition handleFileChange (selectedFile : option File) (s : State) : State :=
  match selectedFile with
  | Some f => {| file := Some f; parsedData := [] |}
  | None => s
  end.

(** The test of line 103. *)
Definition supported (fileName : string) : bool :=
  endsWith fileName ".xlsx" || endsWith fileName ".xls" || endsWith fileName ".csv".

(** The callback of [parsedData.map] (lines 147-155). *)
Definition toInsert (uid accountId : string) (transaction : ParsedTransaction)
    : Insert.t :=
  {| Insert.user_id := uid;
     Insert.account_id := accountId;
     Insert.amount := amount transaction;
     Insert.type := type transaction;
     Insert.description := description transaction;
     Insert.date := date transaction;
     Insert.notes := "Imported from bank statement" |}.

(** [importTransactions] (lines 126-179): the next state, the toast, and
    the rows handed to [insert] when it is called. *)
Definition importTransactions (user : option string) (store : Responses)
    (s : State) : State * option Toast * option (list Insert.t) :=
  match user, parsedData s with
  | None, _ => (s, None, None)
  | Some _, [] => (s, None, None)
  | Some uid, _ :: _ =>
      match accounts store with
      | Some (accountId :: _) =>
          let transactionsToInsert := map (toInsert uid accountId) (parsedData s) in
          if insertError store
          then (s, Some (ImportFailed InsertError), Some transactionsToInsert)
          else ({| file := None; parsedData := [] |},
                Some (ImportSuccessful (length (parsedData s))),
                Some transactionsToInsert)
      | _ => (s, Some (ImportFailed NoAccount), None)
      end
  end.

Section Engine.

Variable Date_parse : string -> option Z.

(** [parseFile] (lines 96-124): the next state and the toast. *)
Definition parseFile (s : State) : State * option Toast :=
  match file s with
  | None => (s, None)
  | Some f =>
      if supported (name f) then
        match Normalizer.parseExcelFile Date_parse (workbook f) with
        | Resolved transactions =>
            ({| file := file s; parsedData := transactions |},
             Some (FileParsed (length transactions)))
        | Rejected error => (s, Some (ErrorParsingFile (Thrown error)))
        end
      else (s, Some (ErrorParsingFile Unsupported))
  end.

(** What the user does with the card. *)
Inductive Event : Type :=
  | ChooseFile (selectedFile : option File)
  | ClickParse
  | ClickImport (user : option string) (store : Responses).

Definition step (s : State) (e : Event) : State :=
  match e with
  | ChooseFile selectedFile => handleFileChange selectedFile s
  | ClickParse => fst (parseFile s)
  | ClickImport user store => fst (fst (importTransactions user store s))
  end.

(** The state after a sequence of events, from the mounting on. *)
Definition run (events : list Event) : State := fold_left step events initial.

(** The parsed data on display is that of the file on display. *)
Definition ofSelectedFile (s : State) : Prop :=
  parsedData s = [] \/
  exists f, file s = Some f /\ supported (name f) = true /\
            Normalizer.parseExcelFile Date_parse (workbook f) = Resolved (parsedData s).

End Engine.

(** A statement of one coffee, under a supported name. *)
Definition statement : File :=
  {| name := "may.xlsx"; workbook := FirstSheet [ NormalizerSpec.coffee ] |}.

End BankStatementImport.

(** ** The expense card: what [ExpenseChart] renders *)

Module ExpenseChartView.

(** Line 359. *)
Definition totalExpenses (expenseData : list ExpenseData) : float :=
  fold_left (fun sum item => (sum + value item)%float) expenseData 0%float.

(** [expenseData.slice(0, 5)] of line 397. *)
Definition legend (expenseData : list ExpenseData) : list ExpenseData :=
  firstn 5 expenseData.

Inductive View : Type :=
  | Spinner
  | NoExpensesThisMonth
  | Chart (total : float) (slices legendRows : list ExpenseData).

(** The three returns of lines 318-410. *)
Definition render (loading : bool) (expenseData : list ExpenseData) : View :=
  if loading then Spinner
  else
    match expenseData with
    | [] => NoExpensesThisMonth
    | _ :: _ => Chart (totalExpenses expenseData) expenseData (legend expenseData)
    end.

(** Seven categories with the totals 1 to 7. *)
Definition sevenGroups : list Store.Transaction :=
  map (fun k : Z =>
         ExpenseChartSpec.spend
           (Some {| Store.name := JSNumberToString.dec k; Store.color := "#ef4444" |})
           (JSNumber.of_decimal false k 0))
    [ 1; 2; 3; 4; 5; 6; 7 ].

(** Two expenses of the user: 30 April and 31 May 2024. *)
Definition aprilAndMay : list Store.Transaction :=
  [ {| Store.user_id := "u1"; Store.type := Expense; Store.amount := 200;
       Store.date := 19843; Store.categories := None |};
    {| Store.user_id := "u1"; Store.type := Expense; Store.amount := 150;
       Store.date := 19874; Store.categories := None |} ].

End ExpenseChartView.

(** ** The dashboard cards: [loadDashboardData] of Dashboard *)

Module Dashboard.

(** A row of [public.accounts], with the columns the query reads. *)
Record Account : Type := {
  user_id : string;
  balance : float;
  is_active : bool
}.

(** [interface DashboardStats]. *)
Record DashboardStats : Type := {
  totalBalance : float;
  monthlyIncome : float;
  monthlyExpenses : float;
  transactionCount : Z
}.

(** [x || 0] on a number: 0, -0 and NaN are falsy. *)
Definition orZero (x : float) : float :=
  if is_zero x || is_nan x then 0%float else x.

Section Loaded.

Variable tzOffset : Z -> Z.
Variable accountsTable : list Account.
Variable table : list Store.Transaction.
Variables (nowYear nowMonth : Z).

(** [loadDashboardData]: the value given to [setStats], or [None] without
    a user.  The two fetches succeed. *)
Definition loadDashboardData (user : option string) : option DashboardStats :=
  match user with
  | None => None
  | Some uid =>
      let accounts :=
        List.filter (fun a => String.eqb (user_id a) uid && Bool.eqb (is_active a) true)
          accountsTable in
      let totalBalance :=
        orZero (fold_left (fun sum account => (sum + balance account)%float)
                  accounts 0%float) in
      let firstDay := Clock.isoDay tzOffset nowYear nowMonth 1 in
      let lastDay := Clock.isoDay tzOffset nowYear (nowMonth + 1) 0 in
      let transactions := Store.selectWindow table uid firstDay lastDay in
      let monthlyIncome := orZero (MonthlyTrends.total Income transactions) in
      let monthlyExpenses := orZero (MonthlyTrends.total Expense transactions) in
      let transactionCount := Z.of_nat (length transactions) in
      Some {| totalBalance := totalBalance;
              monthlyIncome := monthlyIncome;
              monthlyExpenses := monthlyExpenses;
              transactionCount := transactionCount |}
  end.

End Loaded.

(** [const netIncome = stats.monthlyIncome - stats.monthlyExpenses]. *)
Definition netIncome (stats : DashboardStats) : float :=
  (monthlyIncome stats - monthlyExpenses stats)%float.

(** [netIncome >= 0]: the card is drawn as a gain, with a "+". *)
Definition gain (stats : DashboardStats) : bool := (0 <=? netIncome stats)%float.

(** Three transactions of the user, seen from May 2024. *)
Definition ledger : list Store.Transaction :=
  [ {| Store.user_id := "u1"; Store.type := Income; Store.amount := 50000;
       Store.date := 19845; Store.categories := None |};
    {| Store.user_id := "u1"; Store.type := Expense; Store.amount := 150;
       Store.date := 19844; Store.categories := None |};
    {| Store.user_id := "u1"; Store.type := Expense; Store.amount := 200;
       Store.date := 19724; Store.categories := None |} ].

End Dashboard.

(** ** The form: [AddTransactionDialog] *)

Module AddTransactionDialog.

Module Account.
Record t : Type := { id : string; name : string; type : string }.
End Account.

Module Category.
Record t : Type := { id : string; name : string; type : TxType; color : string }.
End Category.

(** The row of the [insert] of [handleSubmit]. *)
Module Insert.
Record t : Type := {
  user_id : string;
  type : TxType;
  amount : float;
  description : string;
  account_id : string;
  category_id : option string;
  date : string;
  notes : option string
}.
End Insert.

Record FormData : Type := {
  type : TxType;
  amount : string;
  description : string;
  accountId : string;
  categoryId : string;
  date : string;
  notes : string
}.

Record State : Type := {
  accounts : list Account.t;
  categories : list Category.t;
  formData : FormData
}.

(** [new Date().toISOString().split('T')[0]] at the time value [now]. *)
Definition today (now : Z) : string := JSDate.iso_date (now / JSDate.msPerDay).

(** The form as [useState] and the reset of [handleSubmit] make it. *)
Definition emptyForm (now : Z) : FormData :=
  {| type := Expense; amount := ""; description := ""; accountId := "";
     categoryId := ""; date := today now; notes := "" |}.

Definition initial (now : Z) : State :=
  {| accounts := []; categories := []; formData := emptyForm now |}.

Definition setFormData (s : State) (f : FormData) : State :=
  {| accounts := accounts s; categories := categories s; formData := f |}.

(** [loadAccountsAndCategories], signed in: each list is replaced when its
    answer holds data. *)
Definition loadAccountsAndCategories (accountsRes : option (list Account.t))
    (categoriesRes : option (list Category.t)) (s : State) : State :=
  {| accounts := match accountsRes with Some data => data | None => accounts s end;
     categories := match categoriesRes with Some data => data | None => categories s end;
     formData := formData s |}.

(** [s || null] on a string. *)
Definition orNull (s : string) : option string :=
  if String.eqb s "" then None else Some s.

(** The row [handleSubmit] inserts. *)
Definition submitted (uid : string) (f : FormData) : Insert.t :=
  {| Insert.user_id := uid;
     Insert.type := type f;
     Insert.amount := JSString.parseFloat (amount f);
     Insert.description := description f;
     Insert.account_id := accountId f;
     Insert.category_id := orNull (categoryId f);
     Insert.date := date f;
     Insert.notes := orNull (notes f) |}.

(** [handleSubmit]: the next state and the row inserted, if any; [error]
    is what the insert reports, [now] the time of the reset. *)
Definition handleSubmit (user : option string) (error : bool) (now : Z)
    (s : State) : State * option Insert.t :=
  match user with
  | None => (s, None)
  | Some uid =>
      (if error then s else setFormData s (emptyForm now),
       Some (submitted uid (formData s)))
  end.

(** Line 135. *)
Definition filteredCategories (s : State) : list Category.t :=
  List.filter (fun cat => Store.TxType_eqb (Category.type cat) (type (formData s)))
    (categories s).

(** The two type buttons: [{ ...formData, type, categoryId: '' }]. *)
Definition clickType (t : TxType) (s : State) : State :=
  let f := formData s in
  setFormData s
    {| type := t; amount := amount f; description := description f;
       accountId := accountId f; categoryId := ""; date := date f;
       notes := notes f |}.

(** [{ ...formData, categoryId: value }]. *)
Definition setCategoryId (value : string) (s : State) : State :=
  let f := formData s in
  setFormData s
    {| type := type f; amount := amount f; description := description f;
       accountId := accountId f; categoryId := value; date := date f;
       notes := notes f |}.

Definition setAccountId (value : string) (s : State) : State :=
  let f := formData s in
  setFormData s
    {| type := type f; amount := amount f; description := description f;
       accountId := value; categoryId := categoryId f; date := date f;
       notes := notes f |}.

(** The four text inputs. *)
Inductive Field : Type := AmountField | DateField | DescriptionField | NotesField.

Definition setField (field : Field) (value : string) (s : State) : State :=
  let f := formData s in
  setFormData s
    {| type := type f;
       amount := match field with AmountField => value | _ => amount f end;
       description := match field with DescriptionField => value | _ => description f end;
       accountId := accountId f;
       categoryId := categoryId f;
       date := match field with DateField => value | _ => date f end;
       notes := match field with NotesField => value | _ => notes f end |}.

(** What happens to the dialog.  The two selects offer the items of
    [accounts] and of [filteredCategories]: a choice is the index of an
    item on offer. *)
Inductive Event : Type :=
  | Loaded (accountsRes : option (list Account.t))
      (categoriesRes : option (list Category.t))
  | ClickType (t : TxType)
  | Change (field : Field) (value : string)
  | SelectAccount (index : nat)
  | SelectCategory (index : nat)
  | Submit (user : option string) (error : bool) (now : Z).

Definition step (s : State) (e : Event) : State :=
  match e with
  | Loaded accountsRes categoriesRes =>
      loadAccountsAndCategories accountsRes categoriesRes s
  | ClickType t => clickType t s
  | Change field value => setField field value s
  | SelectAccount index =>
      match nth_error (accounts s) index with
      | Some account => setAccountId (Account.id account) s
      | None => s
      end
  | SelectCategory index =>
      match nth_error (filteredCategories s) index with
      | Some category => setCategoryId (Category.id category) s
      | None => s
      end
  | Submit user error now => fst (handleSubmit user error now s)
  end.

Definition run (now : Z) (events : list Event) : State :=
  fold_left step events (initial now).

(** The categories an answer of the store holds are rows of its table. *)
Definition answers (known : Category.t -> Prop) (e : Event) : Prop :=
  match e with
  | Loaded _ (Some data) => List.Forall known data
  | _ => True
  end.

(** No category, or a category of the table of the form's type. *)
Definition categoryFits (known : Category.t -> Prop) (categoryId : option string)
    (t : TxType) : Prop :=
  categoryId = None \/
  exists c, known c /\ categoryId = Some (Category.id c) /\ Category.type c = t.

(** What every state of the form satisfies: the categories on offer are
    rows of the table, and the category chosen fits the type chosen. *)
Definition fits (known : Category.t -> Prop) (s : State) : Prop :=
  List.Forall known (categories s) /\
  categoryFits known (orNull (categoryId (formData s))) (type (formData s)).

(** The local time value of the time value [now], [offset] minutes ahead
    of UTC. *)
Definition localTime (offset now : Z) : Z := now + offset * 60000.

(** Two categories, and a session: the categories arrive, the user turns to
    income and picks the first category on offer. *)
Definition food : Category.t :=
  {| Category.id := "c1"; Category.name := "Food"; Category.type := Expense;
     Category.color := "#ef4444" |}.

Definition wages : Category.t :=
  {| Category.id := "c2"; Category.name := "Wages"; Category.type := Income;
     Category.color := "#22c55e" |}.

Definition session : list Event :=
  [ Loaded None (Some [ food; wages ]); SelectCategory 0; ClickType Income;
    SelectCategory 0 ].

End AddTransactionDialog.

(** ** The export: [exportTransactions] of ExcelExport *)

Module ExcelExport.

(** A row of the query of lines 22-30: [date] (DATE) arrives as
    YYYY-MM-DD and is kept as its day number, [created_at] as the time
    value of its instant; the two joins are null without a row. *)
Record Transaction : Type := {
  date : Z;
  description : string;
  categories : option string;            (* categories (name) *)
  accounts : option (string * string);   (* accounts (name, type) *)
  type : TxType;
  amount : float;
  notes : option string;
  created_at : Z
}.

Record Sheet : Type := {
  title : string;
  rows : list (list (string * Cell))
}.

Inductive Response : Type :=
  | Failed
  | Fetched (transactions : list Transaction).

Inductive Outcome : Type :=
  | NotSignedIn
  | ExportFailed
  | NoDataToExport
  | Written (filename : string) (sheets : list Sheet).

(** [o?.field || d]. *)
Definition optOr (o : option string) (d : string) : string :=
  match o with
  | Some s => ExpenseChart.strOr s d
  | None => d
  end.

(** The column [Amount], with the rupee sign in UTF-8. *)
Definition amountColumn : string :=
  "Amount (" ++ JSString.bytes [226; 130; 185] ++ ")".

(** The header of the sheet [Transactions]. *)
Definition columns : list string :=
  [ "Date"; "Description"; "Category"; "Account"; "Account Type"; "Type";
    amountColumn; "Notes"; "Created Date" ].

(** The year as date-fns prints it for [yyyy]: the year of the era. *)
Definition eraYear (y : Z) : Z := if 0 <? y then y else 1 - y.

(** date-fns [format(d, 'dd/MM/yyyy')], on the local time value. *)
Definition ddMMyyyy (local : Z) : string :=
  let '(y, m, d) := JSDate.civil_from_days (local / JSDate.msPerDay) in
  JSDate.pad 2 d ++ "/" ++ JSDate.pad 2 m ++ "/" ++ JSDate.pad 4 (eraYear y).

(** [format(d, 'yyyy-MM-dd')]. *)
Definition yyyyMMdd (local : Z) : string :=
  let '(y, m, d) := JSDate.civil_from_days (local / JSDate.msPerDay) in
  JSDate.pad 4 (eraYear y) ++ "-" ++ JSDate.pad 2 m ++ "-" ++ JSDate.pad 2 d.

(** [format(d, 'HH:mm:ss')]. *)
Definition HHmmss (local : Z) : string :=
  let s := (local mod JSDate.msPerDay) / 1000 in
  JSDate.pad 2 (s / 3600) ++ ":" ++ JSDate.pad 2 (s / 60 mod 60) ++ ":"
  ++ JSDate.pad 2 (s mod 60).

(** The number of a length. *)
Definition number (n : nat) : float := JSNumber.of_decimal false (Z.of_nat n) 0.

Section Zone.

(** Minutes by which local time is ahead of UTC at a time value. *)
Variable zone : Z -> Z.

Definition localTime (t : Z) : Z := t + zone t * 60000.

(** [new Date(transaction.date)]: a date-only form is UTC midnight. *)
Definition dateOnly (day : Z) : Z := day * JSDate.msPerDay.

(** The callback of [transactions.map] (lines 44-54). *)
Definition exportRow (transaction : Transaction) : list (string * Cell) :=
  [ ("Date", CStr (ddMMyyyy (localTime (dateOnly (date transaction)))));
    ("Description", CStr (description transaction));
    ("Category", CStr (optOr (categories transaction) "Uncategorized"));
    ("Account", CStr (optOr (option_map fst (accounts transaction)) "Unknown"));
    ("Account Type", CStr (optOr (option_map snd (accounts transaction)) "Unknown"));
    ("Type", CStr (match type transaction with
                   | Income => "Income" | Expense => "Expense" end));
    (amountColumn, CNum (amount transaction));
    ("Notes", CStr (optOr (notes transaction) ""));
    ("Created Date",
     CStr (ddMMyyyy (localTime (created_at transaction)) ++ " "
           ++ HHmmss (localTime (created_at transaction)))) ].

(** [t => t.type === k] then [reduce((sum, t) => sum + Number(t.amount), 0)]. *)
Definition total (k : TxType) (transactions : list Transaction) : float :=
  fold_left (fun sum t => (sum + amount t)%float)
    (List.filter (fun t => Store.TxType_eqb (type t) k) transactions) 0%float.

(** [summaryData] (lines 87-93). *)
Definition summaryData (transactions : list Transaction) (now : Z)
    : list (list (string * Cell)) :=
  let totalIncome := total Income transactions in
  let totalExpenses := total Expense transactions in
  [ [ ("Metric", CStr "Total Income"); (amountColumn, CNum totalIncome) ];
    [ ("Metric", CStr "Total Expenses"); (amountColumn, CNum totalExpenses) ];
    [ ("Metric", CStr "Net Balance");
      (amountColumn, CNum (totalIncome - totalExpenses)%float) ];
    [ ("Metric", CStr "Total Transactions");
      (amountColumn, CNum (number (length transactions))) ];
    [ ("Metric", CStr "Export Date");
      (amountColumn, CStr (ddMMyyyy (localTime now) ++ " " ++ HHmmss (localTime now))) ] ].

(** [exportTransactions] (lines 16-119), at the time value [now]. *)
Definition exportTransactions (user : option string) (response : Response)
    (now : Z) : Outcome :=
  match user with
  | None => NotSignedIn
  | Some _ =>
      match response with
      | Failed => ExportFailed
      | Fetched [] => NoDataToExport
      | Fetched transactions =>
          Written ("transactions_export_" ++ yyyyMMdd (localTime now) ++ ".xlsx")
            [ {| title := "Transactions"; rows := map exportRow transactions |};
              {| title := "Summary"; rows := summaryData transactions now |} ]
      end
  end.

End Zone.

(** What [sheet_to_json] may read from a written row: an object whose
    keys are among the row's columns. *)
Definition readFrom (written : list (string * Cell)) (row : gmap string Cell) : Prop :=
  forall k, is_Some (row !! k) -> In k (map fst written).

(** A lunch, exported at UTC+5:30. *)
Definition lunch : Transaction :=
  {| date := 19844; description := "Lunch"; categories := Some "Food";
     accounts := Some ("Wallet", "cash"); type := Expense; amount := 150;
     notes := None; created_at := 1714552200000 |}.

End ExcelExport.

(** * The runtime model on sample values *)

Module RuntimeExamples.

(** [parseFloat] reads the longest numeric prefix after leading blanks. *)
Example parseFloat_samples :
  map (fun s => JSNumberToString.toString (parseFloat s))
    [ "100"; " -12.5e1x"; "1,234.56"; ".5"; "5."; "1e400"; "-0"; "$100"; "(100)";
      "1.2.3"; "1-2"; "-"; "Infinityx"; "9007199254740993"; "0.1"; "" ]
  = [ "100"; "-125"; "1"; "0.5"; "5"; "Infinity"; "0"; "NaN"; "NaN";
      "1.2"; "1"; "NaN"; "Infinity"; "9007199254740992"; "0.1"; "NaN" ].
Proof. vm_compute. reflexivity. Qed.

(** The stripping of line 64 keeps digits, dots and minus signs. *)
Example strip_samples :
  map strip_non_numeric [ "$1,234.56"; "(100)"; "USD -25.00"; "1e+21"; "abc" ]
  = [ "1234.56"; "100"; "-25.00"; "121"; "" ].
Proof. reflexivity. Qed.

(** [Number.prototype.toString] gives the shortest digits that read back. *)
Example toString_samples :
  map JSNumberToString.toString
    [ 100; 0.5; 1e21; 123456789012345683968; 0x1.7e43c8800759cp+996; 45413; 8640000000000000;
      (0.5 + 0.25); (-1234.5); 0x1p-1074; 0x1.fffffffffffffp+1023 ]%float
  = [ "100"; "0.5"; "1e+21"; "123456789012345680000"; "1e+300"; "45413";
      "8640000000000000"; "0.75"; "-1234.5"; "5e-324"; "1.7976931348623157e+308" ].
Proof. vm_compute. reflexivity. Qed.

(** 0.1 + 0.2 in binary64. *)
Example tenth_plus_fifth :
  JSNumberToString.toString (parseFloat "0.1" + parseFloat "0.2")
  = "0.30000000000000004".
Proof. vm_compute. reflexivity. Qed.

(** The date part of [toISOString] for some time values. *)
Example iso_date_samples :
  map (fun x => JSDate.toISOString_date (JSDate.timeClip x))
    [ 0; 1714521600000; (-1); 45413; 8640000000000000; 8640000000000001;
      infinity; nan ]%float
  = [ Some "1970-01-01"; Some "2024-05-01"; Some "1969-12-31"; Some "1970-01-01";
      Some "+275760-09-13"; None; None; None ].
Proof. vm_compute. reflexivity. Qed.

(** The six buckets computed in February 2024, five and a half hours east
    of UTC: the ISO dates are those of the day before local midnight. *)
Example months_in_Kolkata :
  map (fun b => (MonthlyTrends.label b, JSDate.iso_date (MonthlyTrends.firstDay b),
                 JSDate.iso_date (MonthlyTrends.lastDay b)))
    (MonthlyTrends.months (fun _ => 330) 2024 1)
  = [ ("Sep 23", "2023-08-31", "2023-09-29"); ("Oct 23", "2023-09-30", "2023-10-30");
      ("Nov 23", "2023-10-31", "2023-11-29"); ("Dec 23", "2023-11-30", "2023-12-30");
      ("Jan 24", "2023-12-31", "2024-01-30"); ("Feb 24", "2024-01-31", "2024-02-28") ].
Proof. vm_compute. reflexivity. Qed.

End RuntimeExamples.

(** * Properties of the order of binary64 numbers

    The proofs read Rocq's specification of the primitive operations
    ([SpecFloat], [FloatAxioms]). *)

Module FloatOrderFacts.

Import FloatOrder.

Lemma digits2_bounds (m : positive) :
  2 ^ (Z.pos (digits2_pos m) - 1) <= Z.pos m < 2 ^ Z.pos (digits2_pos m).
Proof.
  induction m as [p IH | p IH | ]; simpl digits2_pos.
  - rewrite Pos2Z.inj_succ, Z.pow_succ_r by lia.
    replace (Z.succ (Z.pos (digits2_pos p)) - 1) with (Z.succ (Z.pos (digits2_pos p) - 1)) by lia.
    rewrite Z.pow_succ_r by lia. lia.
  - rewrite Pos2Z.inj_succ, Z.pow_succ_r by lia.
    replace (Z.succ (Z.pos (digits2_pos p)) - 1) with (Z.succ (Z.pos (digits2_pos p) - 1)) by lia.
    rewrite Z.pow_succ_r by lia. lia.
  - simpl. lia.
Qed.

Lemma valid_finite s m e :
  valid_binary (S754_finite s m e) = true ->
  -1074 <= e <= 971 /\ Z.pos (digits2_pos m) <= 53 /\
  (e = -1074 \/ Z.pos (digits2_pos m) = 53).
Proof.
  unfold valid_binary, SpecFloat.valid_binary, bounded, canonical_mantissa, fexp, SpecFloat.emin, prec, emax.
  intros H. apply andb_prop in H. destruct H as [H1 H2].
  apply Z.eqb_eq in H1. apply Z.leb_le in H2. lia.
Qed.

Lemma pow2_pos (k : Z) : 0 <= k -> 0 < 2 ^ k.
Proof. intros; apply Z.pow_pos_nonneg; lia. Qed.

Lemma pow2_step (a b : Z) : 0 <= a -> a < b -> 2 * 2 ^ a <= 2 ^ b.
Proof.
  intros Ha Hab. rewrite <- Z.pow_succ_r by lia.
  apply Z.pow_le_mono_r; lia.
Qed.

Lemma mag_pos m e : -1074 <= e -> 0 < mag m e.
Proof. intros; unfold mag. pose proof (pow2_pos (e + 1074)). nia. Qed.

Lemma mag_lt_big s m e :
  valid_binary (S754_finite s m e) = true -> mag m e < big.
Proof.
  intros H. apply valid_finite in H. destruct H as (He & Hd & _).
  pose proof (digits2_bounds m) as [_ Hm].
  assert (Z.pos m < 2 ^ 53).
  { eapply Z.lt_le_trans; [exact Hm|]. apply Z.pow_le_mono_r; lia. }
  assert (2 ^ (e + 1074) <= 2 ^ 2045) by (apply Z.pow_le_mono_r; lia).
  pose proof (pow2_pos (e + 1074)).
  unfold mag, big.
  replace (2 ^ 2200) with (2 ^ 53 * 2 ^ 2045 * 2 ^ 102)
    by (rewrite <- !Z.pow_add_r by lia; reflexivity).
  pose proof (pow2_pos 2045). pose proof (pow2_pos 102). pose proof (pow2_pos 53).
  assert (Z.pos m * 2 ^ (e + 1074) < 2 ^ 53 * 2 ^ 2045) by nia.
  nia.
Qed.

Lemma mag_lt_exp s1 m1 e1 s2 m2 e2 :
  valid_binary (S754_finite s1 m1 e1) = true ->
  valid_binary (S754_finite s2 m2 e2) = true ->
  e1 < e2 -> mag m1 e1 < mag m2 e2.
Proof.
  intros H1 H2 He.
  apply valid_finite in H1. destruct H1 as (He1 & Hd1 & _).
  apply valid_finite in H2. destruct H2 as (He2 & Hd2 & Hc2).
  assert (Hd : Z.pos (digits2_pos m2) = 53) by lia.
  pose proof (digits2_bounds m1) as [_ Hm1].
  pose proof (digits2_bounds m2) as [Hm2 _]. rewrite Hd in Hm2.
  assert (Z.pos m1 < 2 ^ 53).
  { eapply Z.lt_le_trans; [exact Hm1|]. apply Z.pow_le_mono_r; lia. }
  pose proof (pow2_pos (e1 + 1074)).
  pose proof (pow2_step (e1 + 1074) (e2 + 1074)).
  unfold mag.
  change (2 ^ 53) with 9007199254740992 in *.
  change (2 ^ (53 - 1)) with 4503599627370496 in *.
  nia.
Qed.

Lemma mag_compare m1 m2 e :
  -1074 <= e -> (mag m1 e ?= mag m2 e) = Pos.compare_cont Eq m1 m2.
Proof.
  intros He. unfold mag. pose proof (pow2_pos (e + 1074)).
  change (Pos.compare_cont Eq m1 m2) with (Z.pos m1 ?= Z.pos m2).
  destruct (Z.compare_spec (Z.pos m1) (Z.pos m2)) as [E | L | G].
  - rewrite E. apply Z.compare_refl.
  - apply Z.compare_lt_iff. nia.
  - apply Z.compare_gt_iff. nia.
Qed.

Lemma SFcompare_ord x y :
  valid_binary x = true -> valid_binary y = true ->
  not_nan x -> not_nan y ->
  SFcompare x y = Some (SFord x ?= SFord y).
Proof.
  intros Vx Vy Nx Ny.
  destruct x as [sx | sx | | sx mx ex]; [| | congruence |];
  destruct y as [sy | sy | | sy my ey]; try congruence; clear Nx Ny;
  try (pose proof (mag_lt_big _ _ _ Vx));
  try (pose proof (mag_lt_big _ _ _ Vy));
  try (pose proof (mag_pos mx ex ltac:(apply valid_finite in Vx; lia)));
  try (pose proof (mag_pos my ey ltac:(apply valid_finite in Vy; lia)));
  assert (0 < big) by (apply pow2_pos; lia);
  cbn [SFcompare SFord]; try fold (mag mx ex) in *; try fold (mag my ey) in *.
  all: try (destruct sx, sy; f_equal; symmetry;
            first [ apply Z.compare_refl | apply Z.compare_lt_iff; lia
                  | apply Z.compare_gt_iff; lia ]).
  all: try (destruct sx; f_equal; symmetry;
            first [ apply Z.compare_refl | apply Z.compare_lt_iff; lia
                  | apply Z.compare_gt_iff; lia ]).
  all: try (destruct sy; f_equal; symmetry;
            first [ apply Z.compare_refl | apply Z.compare_lt_iff; lia
                  | apply Z.compare_gt_iff; lia ]).
  (* finite, finite *)
  f_equal.
  destruct sx, sy.
  - destruct (Z.compare_spec ex ey) as [E | L | G].
    + subst ey. rewrite <- (mag_compare mx my ex) by (apply valid_finite in Vx; lia).
      rewrite Z.compare_opp. symmetry. apply Z.compare_antisym.
    + pose proof (mag_lt_exp _ _ _ _ _ _ Vx Vy L).
      symmetry; apply Z.compare_gt_iff; lia.
    + pose proof (mag_lt_exp _ _ _ _ _ _ Vy Vx G).
      symmetry; apply Z.compare_lt_iff; lia.
  - symmetry; apply Z.compare_lt_iff; lia.
  - symmetry; apply Z.compare_gt_iff; lia.
  - destruct (Z.compare_spec ex ey) as [E | L | G].
    + subst ey. rewrite <- (mag_compare mx my ex) by (apply valid_finite in Vx; lia). reflexivity.
    + pose proof (mag_lt_exp _ _ _ _ _ _ Vx Vy L).
      symmetry; apply Z.compare_lt_iff; lia.
    + pose proof (mag_lt_exp _ _ _ _ _ _ Vy Vx G).
      symmetry; apply Z.compare_gt_iff; lia.
Qed.

(** *** Rounding never turns a non-zero exact result into zero *)

Lemma shr_1_m mrs : 0 <= shr_m mrs -> shr_m (shr_1 mrs) = shr_m mrs / 2.
Proof.
  destruct mrs as [m r s]; cbn [shr_m]. intros Hm.
  destruct m as [ | [p | p | ] | p ]; cbn [shr_1 shr_m]; try lia; try reflexivity.
  - rewrite Pos2Z.inj_xI. apply Z.div_unique with (r := 1); lia.
  - rewrite Pos2Z.inj_xO. apply Z.div_unique with (r := 0); lia.
Qed.

Lemma shr_iter_m (p : positive) : forall mrs,
  0 <= shr_m mrs ->
  shr_m (SpecFloat.iter_pos shr_1 p mrs) = shr_m mrs / 2 ^ Z.pos p.
Proof.
  induction p as [p IH | p IH | ]; intros mrs Hm; simpl SpecFloat.iter_pos.
  - assert (H1 : 0 <= shr_m (shr_1 mrs)).
    { rewrite shr_1_m by exact Hm. apply Z.div_pos; lia. }
    assert (H2 : 0 <= shr_m (SpecFloat.iter_pos shr_1 p (shr_1 mrs))).
    { rewrite IH by exact H1. apply Z.div_pos; [exact H1 | apply pow2_pos; lia]. }
    rewrite IH by exact H2. rewrite IH by exact H1. rewrite shr_1_m by exact Hm.
    pose proof (pow2_pos (Z.pos p)).
    rewrite !Z.div_div by lia.
    f_equal.
    replace (Z.pos p~1) with (1 + Z.pos p + Z.pos p) by lia.
    rewrite !Z.pow_add_r by lia. change (2 ^ 1) with 2. ring.
  - assert (H1 : 0 <= shr_m (SpecFloat.iter_pos shr_1 p mrs)).
    { rewrite IH by exact Hm. apply Z.div_pos; [exact Hm | apply pow2_pos; lia]. }
    rewrite IH by exact H1. rewrite IH by exact Hm.
    pose proof (pow2_pos (Z.pos p)).
    rewrite !Z.div_div by lia.
    f_equal.
    replace (Z.pos p~0) with (Z.pos p + Z.pos p) by lia.
    rewrite !Z.pow_add_r by lia. reflexivity.
  - rewrite shr_1_m by exact Hm. reflexivity.
Qed.

Lemma shr_record_of_loc_m m l : shr_m (shr_record_of_loc m l) = m.
Proof. destruct l as [ | [ | | ] ]; reflexivity. Qed.

Lemma shr_fexp_pos (m : positive) (e : Z) (l : location) :
  -1074 <= e ->
  0 < shr_m (fst (shr_fexp prec emax (Z.pos m) e l)) /\
  -1074 <= snd (shr_fexp prec emax (Z.pos m) e l).
Proof.
  intros He. unfold shr_fexp, shr, fexp, SpecFloat.emin, prec, emax.
  cbn [Zdigits2].
  pose proof (digits2_bounds m) as [Hlo _].
  set (d := Z.pos (digits2_pos m)) in *.
  destruct (Z.max (d + e - 53) (3 - 1024 - 53) - e) as [ | n | n ] eqn:En;
    cbn [fst snd]; rewrite ?shr_record_of_loc_m; try lia.
  rewrite shr_iter_m by (rewrite shr_record_of_loc_m; lia).
  rewrite shr_record_of_loc_m.
  split; [ | lia ].
  assert (Z.pos n <= d - 1) by lia.
  assert (2 ^ Z.pos n <= 2 ^ (d - 1)) by (apply Z.pow_le_mono_r; lia).
  pose proof (pow2_pos (Z.pos n)).
  apply Z.div_str_pos. lia.
Qed.

Lemma round_nearest_even_ge m l : m <= round_nearest_even m l.
Proof.
  destruct l as [ | [ | | ] ]; simpl; try lia.
  destruct (Z.even m); lia.
Qed.

Lemma binary_round_aux_nonzero s (m : positive) e l :
  -1074 <= e ->
  signed_nonzero s (binary_round_aux prec emax s (Z.pos m) e l).
Proof.
  intros He. unfold binary_round_aux.
  pose proof (shr_fexp_pos m e l He) as [H1 H2].
  destruct (shr_fexp prec emax (Z.pos m) e l) as [mrs' e'].
  cbn [fst snd] in H1, H2.
  pose proof (round_nearest_even_ge (shr_m mrs') (loc_of_shr_record mrs')) as Hr.
  destruct (round_nearest_even (shr_m mrs') (loc_of_shr_record mrs'))
    as [ | m' | m' ] eqn:Em'; try lia.
  pose proof (shr_fexp_pos m' e' loc_Exact H2) as [H3 _].
  destruct (shr_fexp prec emax (Z.pos m') e' loc_Exact) as [mrs'' e''].
  cbn [fst] in H3.
  destruct (shr_m mrs'') as [ | m'' | m'' ]; try lia.
  destruct (e'' <=? emax - prec); [ left; eauto | right; reflexivity ].
Qed.

Lemma iter_xO_value (d : positive) : forall m,
  Z.pos (Pos.iter xO m d) = Z.pos m * 2 ^ Z.pos d.
Proof.
  induction d as [ | d IH ] using Pos.peano_ind; intros m.
  - simpl. lia.
  - rewrite Pos.iter_succ, Pos2Z.inj_xO, IH, Pos2Z.inj_succ, Z.pow_succ_r by lia.
    lia.
Qed.

Lemma shl_align_value mx ex ez :
  ez <= ex ->
  Z.pos (fst (shl_align mx ex ez)) = Z.pos mx * 2 ^ (ex - ez) /\
  snd (shl_align mx ex ez) = ez.
Proof.
  intros H. unfold shl_align.
  destruct (ez - ex) as [ | d | d ] eqn:Ed; cbn [fst snd]; try lia.
  - replace (ex - ez) with 0 by lia. simpl. lia.
  - rewrite iter_xO_value. replace (ex - ez) with (Z.pos d) by lia. lia.
Qed.

Lemma shl_align_exp mx ex ez :
  -1074 <= ex -> -1074 <= ez -> -1074 <= snd (shl_align mx ex ez).
Proof.
  intros. unfold shl_align. destruct (ez - ex); cbn [snd]; lia.
Qed.

Lemma binary_round_nonzero s m e :
  -1074 <= e -> signed_nonzero s (binary_round prec emax s m e).
Proof.
  intros He. unfold binary_round.
  pose proof (shl_align_exp m e (fexp prec emax (Z.pos (digits2_pos m) + e)) He) as H.
  destruct (shl_align m e (fexp prec emax (Z.pos (digits2_pos m) + e))) as [mz ez].
  apply binary_round_aux_nonzero. apply H.
  unfold fexp, SpecFloat.emin, prec, emax. lia.
Qed.

(** Is [x] above zero, for the comparison [0 < x]. *)
Lemma SFltb_zero_signed s x :
  signed_nonzero s x -> SFltb (S754_zero false) x = negb s.
Proof.
  intros [(m & e & ->) | ->]; destruct s; reflexivity.
Qed.

Lemma binary_normalize_sign (d e : Z) :
  -1074 <= e ->
  SFltb (S754_zero false) (binary_normalize prec emax d e false) = (0 <? d).
Proof.
  intros He. destruct d as [ | p | p ]; cbn [binary_normalize].
  - reflexivity.
  - rewrite (SFltb_zero_signed false) by (apply binary_round_nonzero; exact He).
    reflexivity.
  - rewrite (SFltb_zero_signed true) by (apply binary_round_nonzero; exact He).
    reflexivity.
Qed.

Lemma mag_split m e ez :
  -1074 <= ez -> ez <= e ->
  mag m e = Z.pos m * 2 ^ (e - ez) * 2 ^ (ez + 1074).
Proof.
  intros. unfold mag. rewrite <- Z.mul_assoc, <- Z.pow_add_r by lia.
  do 2 f_equal. lia.
Qed.

Lemma SFsub_sign x y :
  valid_binary x = true -> valid_binary y = true ->
  not_nan x -> not_nan y ->
  SFltb (S754_zero false) (SF64sub y x) = (SFord x <? SFord y).
Proof.
  intros Vx Vy Nx Ny.
  assert (Hbig : 0 < big) by (apply pow2_pos; lia).
  destruct x as [sx | sx | | sx mx ex]; [| | congruence |];
  destruct y as [sy | sy | | sy my ey]; try congruence; clear Nx Ny;
  try (pose proof (mag_lt_big _ _ _ Vx));
  try (pose proof (mag_lt_big _ _ _ Vy));
  try (pose proof (mag_pos mx ex ltac:(apply valid_finite in Vx; lia)));
  try (pose proof (mag_pos my ey ltac:(apply valid_finite in Vy; lia)));
  unfold SF64sub; cbn [SFsub SFord];
  try fold (mag mx ex) in *; try fold (mag my ey) in *.
  all: try (destruct sx, sy; cbn [SFltb SFcompare negb]; symmetry;
            first [ apply Z.ltb_lt; lia | apply Z.ltb_ge; lia ]).
  all: try (destruct sx; cbn [SFltb SFcompare negb]; symmetry;
            first [ apply Z.ltb_lt; lia | apply Z.ltb_ge; lia ]).
  all: try (destruct sy; cbn [SFltb SFcompare negb]; symmetry;
            first [ apply Z.ltb_lt; lia | apply Z.ltb_ge; lia ]).
  (* finite - finite *)
  apply valid_finite in Vx, Vy.
  rewrite binary_normalize_sign by lia.
  destruct (shl_align_value my ey (Z.min ey ex) ltac:(lia)) as [-> _].
  destruct (shl_align_value mx ex (Z.min ey ex) ltac:(lia)) as [-> _].
  rewrite (mag_split mx ex (Z.min ey ex)) in * by lia.
  rewrite (mag_split my ey (Z.min ey ex)) in * by lia.
  pose proof (pow2_pos (Z.min ey ex + 1074) ltac:(lia)) as HK.
  set (K := 2 ^ (Z.min ey ex + 1074)) in *.
  set (a := Z.pos mx * 2 ^ (ex - Z.min ey ex)) in *.
  set (b := Z.pos my * 2 ^ (ey - Z.min ey ex)) in *.
  unfold cond_Zopp.
  destruct sx, sy; symmetry;
    match goal with
    | |- _ = (0 <? ?d) =>
        destruct (Z.ltb_spec 0 d); [ apply Z.ltb_lt | apply Z.ltb_ge ]; nia
    end.
Qed.

(** *** Primitive floats *)

Lemma is_nan_false x : is_nan x = false -> not_nan (Prim2SF x).
Proof.
  unfold is_nan, not_nan. rewrite FloatAxioms.eqb_spec. intros H E. rewrite E in H.
  discriminate.
Qed.

Section Order.

Variables a b : float.
Hypothesis Ha : is_nan a = false.
Hypothesis Hb : is_nan b = false.

Lemma compare_ord :
  SFcompare (Prim2SF a) (Prim2SF b) = Some (ord a ?= ord b).
Proof.
  apply SFcompare_ord; auto using Prim2SF_valid, is_nan_false.
Qed.

Lemma ltb_ord : (a <? b)%float = (ord a <? ord b).
Proof.
  rewrite FloatAxioms.ltb_spec. unfold SFltb, Z.ltb. rewrite compare_ord.
  destruct (ord a ?= ord b); reflexivity.
Qed.

Lemma leb_ord : (a <=? b)%float = (ord a <=? ord b).
Proof.
  rewrite FloatAxioms.leb_spec. unfold SFleb, Z.leb. rewrite compare_ord.
  destruct (ord a ?= ord b); reflexivity.
Qed.

Lemma eqb_ord : (a =? b)%float = (ord a =? ord b).
Proof.
  rewrite FloatAxioms.eqb_spec. unfold SFeqb. rewrite compare_ord, Z.eqb_compare.
  destruct (ord a ?= ord b); reflexivity.
Qed.

(** The sign of the comparator [b - a] is that of comparing [a] with [b]. *)
Lemma sub_pos_ord : (0 <? b - a)%float = (ord a <? ord b).
Proof.
  rewrite FloatAxioms.ltb_spec, FloatAxioms.sub_spec.
  change (Prim2SF 0) with (S754_zero false).
  apply SFsub_sign; auto using Prim2SF_valid, is_nan_false.
Qed.

End Order.

Lemma not_nan_is_nan x : not_nan (Prim2SF x) -> is_nan x = false.
Proof.
  intros H. unfold is_nan. rewrite FloatAxioms.eqb_spec. unfold SFeqb.
  rewrite SFcompare_ord by auto using Prim2SF_valid.
  rewrite Z.compare_refl. reflexivity.
Qed.

Lemma eqb_true_not_nan a b :
  (a =? b)%float = true -> is_nan a = false /\ is_nan b = false.
Proof.
  rewrite FloatAxioms.eqb_spec. unfold SFeqb. intros H.
  split; apply not_nan_is_nan; intros E; rewrite E in H;
    [ | destruct (Prim2SF a) ]; discriminate.
Qed.

Lemma is_finite_SF x : is_finite x = true -> SFfinite (Prim2SF x).
Proof.
  unfold is_finite. intros H. apply negb_true_iff, orb_false_iff in H.
  destruct H as [Hn Hi]. apply is_nan_false in Hn.
  unfold is_infinity in Hi. rewrite FloatAxioms.eqb_spec, abs_spec in Hi.
  destruct (Prim2SF x) as [ | s | | ]; cbn; auto.
  cbn in Hi. discriminate.
Qed.

Lemma is_finite_not_nan x : is_finite x = true -> is_nan x = false.
Proof.
  unfold is_finite. intros H. apply negb_true_iff, orb_false_iff in H. tauto.
Qed.

Lemma signed_nonzero_not_nan s x : signed_nonzero s x -> not_nan x.
Proof. intros [(m & e & ->) | ->]; discriminate. Qed.

Lemma binary_normalize_not_nan d e :
  -1074 <= e -> not_nan (binary_normalize prec emax d e false).
Proof.
  intros He. destruct d as [ | p | p ]; cbn [binary_normalize].
  - discriminate.
  - eapply signed_nonzero_not_nan, binary_round_nonzero, He.
  - eapply signed_nonzero_not_nan, binary_round_nonzero, He.
Qed.

Lemma SFadd_not_nan x y :
  valid_binary x = true -> valid_binary y = true ->
  not_nan x -> SFfinite y -> not_nan (SF64add x y).
Proof.
  intros Vx Vy Nx Fy. unfold SF64add.
  destruct x as [sx | sx | | sx mx ex]; [ | | congruence | ];
  destruct y as [sy | sy | | sy my ey]; try contradiction; cbn [SFadd];
    try discriminate.
  - destruct sx, sy; discriminate.
  - apply valid_finite in Vx, Vy. apply binary_normalize_not_nan. lia.
Qed.

(** Adding a finite number to a number gives a number. *)
Lemma add_not_nan x y :
  is_nan x = false -> is_finite y = true -> is_nan (x + y) = false.
Proof.
  intros Hx Hy. apply not_nan_is_nan. rewrite add_spec.
  apply SFadd_not_nan; auto using Prim2SF_valid, is_nan_false, is_finite_SF.
Qed.

End FloatOrderFacts.

(** * Properties of the normalizer *)

Module NormalizerFacts.

Import Normalizer NormalizerSpec.

(** ** Truthiness and the [||] chains *)

Lemma asTruthy_Some v c : asTruthy v = Some c -> v = Some c /\ truthy v = true.
Proof.
  unfold asTruthy. destruct (truthy v) eqn:E; intros H; [ auto | discriminate ].
Qed.

Lemma asTruthy_None v : asTruthy v = None -> truthy v = false.
Proof.
  unfold asTruthy. destruct (truthy v) eqn:E; intros H; [ | reflexivity ].
  subst v. discriminate.
Qed.

Lemma truthy_asTruthy v :
  truthy v = match asTruthy v with Some _ => true | None => false end.
Proof.
  unfold asTruthy. destruct (truthy v) eqn:E; [ | reflexivity ].
  destruct v; [ reflexivity | discriminate ].
Qed.

Lemma asTruthy_or a b :
  asTruthy (a ||| b) =
  match asTruthy a with Some c => Some c | None => asTruthy b end.
Proof.
  unfold orElse, asTruthy at 2. destruct (truthy a) eqn:E.
  - unfold asTruthy. rewrite E. destruct a; [ reflexivity | discriminate ].
  - reflexivity.
Qed.

Lemma asTruthy_idem v :
  asTruthy (match asTruthy v with Some c => Some c | None => None end) = asTruthy v.
Proof.
  unfold asTruthy. destruct (truthy v) eqn:E; [ | reflexivity ].
  destruct v; [ rewrite E; reflexivity | discriminate ].
Qed.

Ltac chain := unfold dateValue, descValue, amountValue, debitValue, creditValue;
  unfold dateKeys, descKeys, amountKeys, debitKeys, creditKeys;
  rewrite !asTruthy_or; cbn [firstTruthy];
  repeat match goal with
  | |- context [asTruthy (?r !! ?k)] => destruct (asTruthy (r !! k))
  end; reflexivity.

Lemma dateValue_firstTruthy row : asTruthy (dateValue row) = firstTruthy dateKeys row.
Proof. chain. Qed.

Lemma descValue_firstTruthy row : asTruthy (descValue row) = firstTruthy descKeys row.
Proof. chain. Qed.

Lemma amountValue_firstTruthy row : asTruthy (amountValue row) = firstTruthy amountKeys row.
Proof. chain. Qed.

Lemma debitValue_firstTruthy row : asTruthy (debitValue row) = firstTruthy debitKeys row.
Proof. chain. Qed.

Lemma creditValue_firstTruthy row : asTruthy (creditValue row) = firstTruthy creditKeys row.
Proof. chain. Qed.

Lemma positiveValue_asTruthy v : positiveValue (asTruthy v) = positiveValue v.
Proof.
  unfold positiveValue. destruct (asTruthy v) as [c | ] eqn:E.
  - apply asTruthy_Some in E. destruct E as [-> E]. unfold asTruthy. rewrite E.
    reflexivity.
  - reflexivity.
Qed.

Lemma positiveValue_None v : asTruthy v = None -> positiveValue v = None.
Proof. unfold positiveValue. intros ->. reflexivity. Qed.

(** The pair [(amount, type)] by the two rules on the resolved values. *)
Lemma amountAndType_rules row :
  amountAndType row =
  match firstTruthy amountKeys row with
  | Some a => singleAmount a
  | None =>
      debitCreditRule (firstTruthy debitKeys row) (firstTruthy creditKeys row)
  end.
Proof.
  unfold amountAndType, debitCreditRule.
  rewrite <- amountValue_firstTruthy, <- debitValue_firstTruthy,
    <- creditValue_firstTruthy, !positiveValue_asTruthy.
  destruct (asTruthy (amountValue row)) as [a | ]; [ reflexivity | ].
  destruct (truthy (debitValue row ||| creditValue row)) eqn:E; [ reflexivity | ].
  rewrite truthy_asTruthy, asTruthy_or in E.
  destruct (asTruthy (debitValue row)) eqn:Ed; [ discriminate | ].
  destruct (asTruthy (creditValue row)) eqn:Ec; [ discriminate | ].
  rewrite !positiveValue_None by assumption. reflexivity.
Qed.

(** ** One row *)

Section Rows.

Variable Date_parse : string -> option Z.

Lemma toISOString_date_None tv :
  JSDate.toISOString_date tv = None <-> tv = None.
Proof. destruct tv; simpl; split; intros; congruence. Qed.

(** The callback throws exactly on a row that passes the guards and whose
    date is invalid; the error is then the RangeError. *)
Lemma throws_iff row :
  throws Date_parse row = passesGuards row && invalidDate Date_parse row.
Proof.
  unfold throws, normalizeRow, passesGuards, invalidDate.
  rewrite !truthy_asTruthy.
  destruct (asTruthy (dateValue row)) as [dv | ]; [ | reflexivity ].
  destruct (asTruthy (descValue row)) as [desc | ]; [ | reflexivity ].
  destruct (amountAndType row) as [amt ty]. cbn [fst andb].
  destruct (JSNumber.gt0 amt); [ | reflexivity ].
  destruct (newDate Date_parse dv); reflexivity.
Qed.

Lemma normalizeRow_Throw row e :
  normalizeRow Date_parse row = Throw e -> e = RangeError.
Proof.
  unfold normalizeRow.
  destruct (asTruthy (dateValue row)); [ | discriminate ].
  destruct (asTruthy (descValue row)); [ | discriminate ].
  destruct (amountAndType row) as [amt ty].
  destruct (JSNumber.gt0 amt); [ | discriminate ].
  destruct (JSDate.toISOString_date _); [ discriminate | congruence ].
Qed.

(** A row that fails a guard is skipped. *)
Lemma normalizeRow_guard row :
  passesGuards row = false -> normalizeRow Date_parse row = Skip.
Proof.
  unfold normalizeRow, passesGuards. rewrite !truthy_asTruthy.
  destruct (asTruthy (dateValue row)); [ | reflexivity ].
  destruct (asTruthy (descValue row)); [ | reflexivity ].
  destruct (amountAndType row) as [amt ty]. cbn [fst andb].
  intros ->. reflexivity.
Qed.

(** What a pushed transaction holds. *)
Lemma normalizeRow_Push row t :
  normalizeRow Date_parse row = Push t ->
  passesGuards row = true /\
  amount t = fst (amountAndType row) /\ type t = snd (amountAndType row) /\
  exists dv desc,
    asTruthy (dateValue row) = Some dv /\ asTruthy (descValue row) = Some desc /\
    JSDate.toISOString_date (newDate Date_parse dv) = Some (date t) /\
    description t = toString desc.
Proof.
  unfold normalizeRow, passesGuards. rewrite !truthy_asTruthy.
  destruct (asTruthy (dateValue row)) as [dv | ]; [ | discriminate ].
  destruct (asTruthy (descValue row)) as [desc | ]; [ | discriminate ].
  destruct (amountAndType row) as [amt ty]. cbn [fst snd andb].
  destruct (JSNumber.gt0 amt); [ | discriminate ].
  destruct (JSDate.toISOString_date _) as [d | ] eqn:Ed; [ | discriminate ].
  intros H. injection H as <-. cbn. repeat split. exists dv, desc. auto.
Qed.

(** ** The loop *)

Lemma existsb_pointwise {A} (f g : A -> bool) (l : list A) :
  (forall x, f x = g x) -> existsb f l = existsb g l.
Proof.
  intros H. induction l as [ | x l IH ]; cbn; [ reflexivity | ].
  rewrite H, IH. reflexivity.
Qed.

Lemma omap_cons {A B} (f : A -> option B) (x : A) (l : list A) :
  omap f (x :: l) =
  match f x with Some y => y :: omap f l | None => omap f l end.
Proof. reflexivity. Qed.

Lemma forEach_spec rows : forall acc,
  forEach Date_parse rows acc =
  if existsb (throws Date_parse) rows then Rejected RangeError
  else Resolved (acc ++ omap (transactionOf Date_parse) rows).
Proof.
  induction rows as [ | row rows IH ]; intros acc; cbn [forEach existsb].
  - change (omap (transactionOf Date_parse) []) with (@nil ParsedTransaction).
    rewrite app_nil_r. reflexivity.
  - rewrite omap_cons. unfold throws at 1, transactionOf at 1.
    destruct (normalizeRow Date_parse row) as [ | t | e ] eqn:E; cbn [orb].
    + apply IH.
    + rewrite IH. destruct (existsb _ rows); [ reflexivity | ].
      rewrite <- app_assoc. reflexivity.
    + apply normalizeRow_Throw in E. subst e. reflexivity.
Qed.

Lemma parseExcelFile_spec rows :
  parseExcelFile Date_parse (FirstSheet rows) =
  if existsb (fun row => passesGuards row && invalidDate Date_parse row) rows
  then Rejected RangeError
  else Resolved (omap (transactionOf Date_parse) rows).
Proof.
  cbn [parseExcelFile]. rewrite forEach_spec.
  rewrite (existsb_pointwise _ _ rows throws_iff). reflexivity.
Qed.

Lemma parseExcelFile_Resolved rows txs :
  parseExcelFile Date_parse (FirstSheet rows) = Resolved txs ->
  txs = omap (transactionOf Date_parse) rows.
Proof.
  rewrite parseExcelFile_spec. destruct (existsb _ rows); congruence.
Qed.

End Rows.

Lemma firstTruthy_absent keys row :
  (forall k, In k keys -> row !! k = None) -> firstTruthy keys row = None.
Proof.
  induction keys as [ | k keys IH ]; intros H; cbn [firstTruthy]; [ reflexivity | ].
  rewrite (H k (or_introl eq_refl)). cbn.
  apply IH. intros k' Hk'. apply H. right. exact Hk'.
Qed.

Lemma noAmountInfo_zero row :
  noAmountInfo row -> amountAndType row = (0%float, Expense).
Proof.
  intros H. rewrite amountAndType_rules.
  rewrite !firstTruthy_absent; [ reflexivity | | | ];
    intros k Hk; apply H; rewrite !in_app_iff; auto.
Qed.

Lemma omap_filter {A B} (f : A -> option B) (p : A -> bool) (l : list A) :
  (forall x, p x = false -> f x = None) ->
  omap f (List.filter p l) = omap f l.
Proof.
  intros H. induction l as [ | x l IH ]; [ reflexivity | ].
  cbn [List.filter]. destruct (p x) eqn:E.
  - rewrite !omap_cons, IH. reflexivity.
  - rewrite omap_cons, (H x E). exact IH.
Qed.

Lemma omap_length {A B} (f : A -> option B) (l : list A) :
  (length (omap f l) <= length l)%nat.
Proof.
  induction l as [ | x l IH ]; [ apply Nat.le_refl | ].
  rewrite omap_cons. destruct (f x); cbn [length]; lia.
Qed.

Lemma transactionOf_positive dp row t :
  transactionOf dp row = Some t -> JSNumber.gt0 (amount t) = true.
Proof.
  unfold transactionOf. destruct (normalizeRow dp row) as [ | t' | ] eqn:E;
    try discriminate.
  intros H. injection H as ->.
  apply normalizeRow_Push in E. destruct E as (G & -> & _).
  unfold passesGuards in G. apply andb_prop in G. apply G.
Qed.

Lemma transactionOf_guard dp row :
  JSNumber.gt0 (fst (amountAndType row)) = false -> transactionOf dp row = None.
Proof.
  intros H. unfold transactionOf. rewrite normalizeRow_guard; [ reflexivity | ].
  unfold passesGuards. rewrite H. apply andb_false_r.
Qed.

(** ** The claims about the normalizer *)

(** C1, as the specification states it, fails: a row that passes the guards
    and whose date is not a valid date is not discarded.  [toISOString]
    throws, the [catch] rejects the promise, and the well-formed row of the
    same input is not emitted either, although alone it is. *)
Lemma bad_date_rejects_whole_input :
  (forall dp, parseExcelFile dp (FirstSheet [beyondTime; coffee]) = Rejected RangeError) /\
  (forall dp, dp "not a date" = None ->
     parseExcelFile dp (FirstSheet [notADate; coffee]) = Rejected RangeError) /\
  (forall dp, parseExcelFile dp (FirstSheet [coffee]) = Resolved [coffeeTx]).
Proof.
  split; [ | split ].
  - intros dp. reflexivity.
  - intros dp H. rewrite parseExcelFile_spec.
    cbn [existsb]. replace (invalidDate dp notADate) with true.
    + reflexivity.
    + unfold invalidDate. change (asTruthy (dateValue notADate))
        with (Some (CStr "not a date")). cbn [newDate]. rewrite H. reflexivity.
  - intros dp. reflexivity.
Qed.

(** C1, amended: [parseExcelFile] is rejected when the workbook cannot be
    decoded and when some row passes the guards (truthy date, truthy
    description, positive amount) with a date that is not a valid date;
    otherwise it resolves, each row being emitted or skipped on its own. *)
Theorem parseExcelFile_settles (Date_parse : string -> option Z) (workbook : Workbook) :
  parseExcelFile Date_parse workbook =
  match workbook with
  | Unreadable => Rejected XlsxError
  | FirstSheet rows =>
      if existsb (fun row => passesGuards row && invalidDate Date_parse row) rows
      then Rejected RangeError
      else Resolved (omap (transactionOf Date_parse) rows)
  end.
Proof.
  destruct workbook as [ | rows ]; [ reflexivity | apply parseExcelFile_spec ].
Qed.

(** C2 at the failing input: the amount "$100" gives the magnitude 100, and
    the kind [Expense], although the number parsed after stripping is
    positive: line 65 parses the unstripped text, which is NaN. *)
Theorem currency_amount_is_expense (Date_parse : string -> option Z) :
  normalizeRow Date_parse refund
  = Push {| date := "2024-05-01"; description := "Refund"; amount := 100;
            type := Expense |}
  /\ JSNumber.gt0 (parseFloat (strip_non_numeric "$100")) = true
  /\ is_nan (parseFloat "$100") = true.
Proof. repeat split; reflexivity. Qed.

(** C3, as the specification states it, fails: with an Amount column in the
    row (holding 0) the debit/credit path is still taken. *)
Lemma zero_amount_takes_debit_path :
  zeroAmountWithDebit !! "Amount" = Some (CNum 0) /\
  firstPresent amountKeys zeroAmountWithDebit = Some (CNum 0) /\
  amountAndType zeroAmountWithDebit = (50%float, Expense) /\
  (forall dp, normalizeRow dp zeroAmountWithDebit
     = Push {| date := "2024-05-01"; description := "Card"; amount := 50;
               type := Expense |}).
Proof. repeat split; reflexivity. Qed.

(** C3, amended: the debit/credit path is taken exactly when no Amount
    variant holds a truthy value; on it a truthy debit that parses to a
    positive number gives (debit, expense), whatever the credit; else a
    truthy credit that parses to a positive number gives (credit, income);
    else the amount stays 0. *)
Theorem debit_credit_path (row : gmap string Cell) :
  (forall a, firstTruthy amountKeys row = Some a ->
     amountAndType row = singleAmount a) /\
  (firstTruthy amountKeys row = None ->
     (forall x, positiveValue (firstTruthy debitKeys row) = Some x ->
        amountAndType row = (x, Expense)) /\
     (forall x, positiveValue (firstTruthy debitKeys row) = None ->
        positiveValue (firstTruthy creditKeys row) = Some x ->
        amountAndType row = (x, Income)) /\
     (positiveValue (firstTruthy debitKeys row) = None ->
      positiveValue (firstTruthy creditKeys row) = None ->
      amountAndType row = (0%float, Expense))).
Proof.
  rewrite amountAndType_rules. split.
  - intros a ->. reflexivity.
  - intros ->. unfold debitCreditRule. repeat split.
    + intros x ->. reflexivity.
    + intros x -> ->. reflexivity.
    + intros -> ->. reflexivity.
Qed.

(** The three outcomes of the debit/credit path on sample rows: debit
    before credit, credit alone, neither. *)
Lemma debit_credit_path_witness :
  amountAndType debitAndCredit = (20%float, Expense) /\
  amountAndType salary = (50000%float, Income) /\
  amountAndType blank = (0%float, Expense).
Proof.
  pose proof (debit_credit_path debitAndCredit) as [_ H1].
  pose proof (debit_credit_path salary) as [_ H2].
  pose proof (debit_credit_path blank) as [_ H3].
  split; [ | split ].
  - apply (H1 eq_refl). reflexivity.
  - apply (H2 eq_refl); reflexivity.
  - apply (H3 eq_refl); reflexivity.
Defined.

(** C4: every emitted transaction has [amount > 0]; the rows whose derived
    magnitude is not positive contribute nothing (the output is the same
    without them), and a row with no amount, debit or credit column is one
    of them. *)
Theorem emitted_amount_positive (Date_parse : string -> option Z)
    (rows : list (gmap string Cell)) (txs : list ParsedTransaction) :
  parseExcelFile Date_parse (FirstSheet rows) = Resolved txs ->
  Forall (fun t => JSNumber.gt0 (amount t) = true) txs /\
  txs = omap (transactionOf Date_parse)
          (List.filter (fun row => JSNumber.gt0 (fst (amountAndType row))) rows) /\
  (forall row, noAmountInfo row -> normalizeRow Date_parse row = Skip).
Proof.
  intros H. apply parseExcelFile_Resolved in H. subst txs. repeat split.
  - apply Forall_forall. intros t Ht.
    apply list_elem_of_omap in Ht. destruct Ht as (row & _ & Hrow).
    eapply transactionOf_positive; eassumption.
  - symmetry. apply omap_filter. intros row. apply transactionOf_guard.
  - intros row Hrow. apply normalizeRow_guard. unfold passesGuards.
    rewrite (noAmountInfo_zero row Hrow). apply andb_false_r.
Qed.

(** A statement of three rows, the second without any amount. *)
Lemma emitted_amount_positive_witness :
  Forall (fun t => JSNumber.gt0 (amount t) = true) [coffeeTx; salaryTx] /\
  [coffeeTx; salaryTx]
  = omap (transactionOf (fun _ => None))
      (List.filter (fun row => JSNumber.gt0 (fst (amountAndType row)))
         [coffee; blank; salary]) /\
  (forall row, noAmountInfo row -> normalizeRow (fun _ => None) row = Skip).
Proof.
  apply (emitted_amount_positive (fun _ => None) [coffee; blank; salary]).
  reflexivity.
Defined.

(** C9, as the specification states it, fails: the first date key present
    in the row is [Date], holding the number 0, and the value used is that
    of [date]. *)
Lemma falsy_first_key_is_passed_over :
  firstPresent dateKeys twoDates = Some (CNum 0) /\
  dateValue twoDates = Some may2 /\
  (forall dp, normalizeRow dp twoDates
     = Push {| date := "2024-05-02"; description := "Lunch"; amount := 12.5;
               type := Expense |}).
Proof. repeat split; reflexivity. Qed.

(** C9, amended: for the date and for the description the value used is
    that of the first key, in the fixed probe order, whose value is truthy
    (the keys are literal, case variants apart); the row is skipped when no
    date variant or no description variant holds a truthy value. *)
Theorem probe_order_first_truthy (row : gmap string Cell) :
  asTruthy (dateValue row) = firstTruthy dateKeys row /\
  asTruthy (descValue row) = firstTruthy descKeys row /\
  (forall dp,
     firstTruthy dateKeys row = None \/ firstTruthy descKeys row = None ->
     normalizeRow dp row = Skip) /\
  (forall dp t, normalizeRow dp row = Push t ->
     exists dv desc,
       firstTruthy dateKeys row = Some dv /\ firstTruthy descKeys row = Some desc /\
       JSDate.toISOString_date (newDate dp dv) = Some (date t) /\
       description t = toString desc).
Proof.
  repeat split.
  - apply dateValue_firstTruthy.
  - apply descValue_firstTruthy.
  - intros dp H. apply normalizeRow_guard. unfold passesGuards.
    rewrite !truthy_asTruthy, dateValue_firstTruthy, descValue_firstTruthy.
    destruct H as [-> | ->]; [ reflexivity | ].
    destruct (firstTruthy dateKeys row); reflexivity.
  - intros dp t H. apply normalizeRow_Push in H.
    destruct H as (_ & _ & _ & dv & desc & H1 & H2 & H3 & H4).
    exists dv, desc. rewrite <- dateValue_firstTruthy, <- descValue_firstTruthy. auto.
Qed.



(** The output is never longer than the number of rows that hold both a
    truthy date and a truthy description. *)
Theorem output_length_bound (Date_parse : string -> option Z)
    (rows : list (gmap string Cell)) (txs : list ParsedTransaction) :
  parseExcelFile Date_parse (FirstSheet rows) = Resolved txs ->
  (length txs <=
   length (List.filter (fun row => truthy (dateValue row) && truthy (descValue row))
             rows))%nat.
Proof.
  intros H. apply parseExcelFile_Resolved in H. subst txs.
  rewrite <- (omap_filter (transactionOf Date_parse)
                (fun row => truthy (dateValue row) && truthy (descValue row)) rows).
  - apply omap_length.
  - intros row Hrow. unfold transactionOf. rewrite normalizeRow_guard; [ reflexivity | ].
    unfold passesGuards. rewrite Hrow. reflexivity.
Qed.

(** Three rows with a date and a description, two transactions. *)
Lemma output_length_bound_witness :
  (length [coffeeTx; salaryTx] <=
   length (List.filter (fun row => truthy (dateValue row) && truthy (descValue row))
             [coffee; blank; salary]))%nat.
Proof.
  apply (output_length_bound (fun _ => None) [coffee; blank; salary]). reflexivity.
Defined.

(** C10: when it resolves, [parseExcelFile] is a filter-map of the rows:
    the output is, in order, the transaction of each row that has one. *)
Theorem normalize_is_filter_map (Date_parse : string -> option Z)
    (rows : list (gmap string Cell)) (txs : list ParsedTransaction) :
  parseExcelFile Date_parse (FirstSheet rows) = Resolved txs ->
  txs = omap (transactionOf Date_parse) rows /\ (length txs <= length rows)%nat.
Proof.
  intros H. apply parseExcelFile_Resolved in H. subst txs.
  split; [ reflexivity | apply omap_length ].
Qed.

(** Three rows give two transactions, in the order of their rows. *)
Lemma normalize_is_filter_map_witness :
  [coffeeTx; salaryTx] = omap (transactionOf (fun _ => None)) [coffee; blank; salary]
  /\ (length [coffeeTx; salaryTx] <= length [coffee; blank; salary])%nat.
Proof.
  apply (normalize_is_filter_map (fun _ => None) [coffee; blank; salary]).
  reflexivity.
Defined.

End NormalizerFacts.

(** * Properties of the expense breakdown *)

Module ExpenseChartFacts.

Import ExpenseChart ExpenseChartSpec.

Lemma has_In m k : has m k = true <-> In k (map fst m).
Proof.
  unfold has. rewrite existsb_exists, in_map_iff. split.
  - intros (e & He & Hk). apply String.eqb_eq in Hk. exists e. auto.
  - intros (e & Hk & He). exists e. split; [ exact He | ]. apply String.eqb_eq. exact Hk.
Qed.

Lemma existsb_eqb_In n ks : existsb (String.eqb n) ks = true <-> In n ks.
Proof.
  rewrite existsb_exists. split.
  - intros (k & Hk & E). apply String.eqb_eq in E. subst. exact Hk.
  - intros H. exists n. split; [ exact H | apply String.eqb_refl ].
Qed.

Lemma bump_other k a m : ~ In k (map fst m) -> map (bump k a) m = m.
Proof.
  induction m as [ | e m IH ]; intros H; [ reflexivity | ].
  cbn [map] in *.
  rewrite IH by (intros X; apply H; right; exact X). f_equal.
  unfold bump. destruct (String.eqb_spec (fst e) k) as [E | E]; [ | reflexivity ].
  exfalso. apply H. left. exact E.
Qed.

Lemma addAmount_bump k a m :
  List.NoDup (map fst m) -> addAmount m k a = map (bump k a) m.
Proof.
  induction m as [ | [k' [amt col]] m IH ]; intros H; [ reflexivity | ].
  cbn [map fst] in H. apply List.NoDup_cons_iff in H. destruct H as [H1 H2].
  cbn [addAmount map]. unfold bump at 1. cbn [fst snd].
  destruct (String.eqb_spec k' k) as [E | E].
  - subst k'. rewrite bump_other by exact H1. reflexivity.
  - rewrite IH by exact H2. reflexivity.
Qed.

Lemma map_fst_bump k a m : map fst (map (bump k a) m) = map fst m.
Proof.
  rewrite map_map. apply map_ext. intros e. unfold bump.
  destruct (String.eqb (fst e) k); reflexivity.
Qed.

Lemma firstSeenOrder_snoc l n :
  firstSeenOrder (l ++ [n]) =
  if existsb (String.eqb n) (firstSeenOrder l) then firstSeenOrder l
  else (firstSeenOrder l ++ [n])%list.
Proof. unfold firstSeenOrder. rewrite fold_left_app. reflexivity. Qed.

Lemma firstSeenOrder_complete l n : In n l -> In n (firstSeenOrder l).
Proof.
  induction l as [ | x l IH ] using rev_ind; intros H; [ destruct H | ].
  rewrite firstSeenOrder_snoc. apply in_app_or in H.
  destruct (existsb (String.eqb x) (firstSeenOrder l)) eqn:E.
  - destruct H as [H | [<- | []]]; [ auto | ]. apply existsb_eqb_In. exact E.
  - apply in_or_app. destruct H as [H | H]; [ left; auto | right; exact H ].
Qed.

Lemma groupOf_snoc data t n :
  groupOf (data ++ [t]) n =
  (groupOf data n ++ (if String.eqb (categoryName t) n then [t] else []))%list.
Proof. unfold groupOf. rewrite List.filter_app. reflexivity. Qed.

Lemma floatSum_snoc l a : l <> [] -> floatSum (l ++ [a]) = (floatSum l + a)%float.
Proof.
  destruct l as [ | x l ]; intros H; [ congruence | ].
  cbn [floatSum app]. rewrite fold_left_app. reflexivity.
Qed.

Lemma groupOf_absent data n :
  ~ In n (map categoryName data) -> groupOf data n = [].
Proof.
  intros H. unfold groupOf. induction data as [ | t data IH ]; [ reflexivity | ].
  cbn [List.filter map] in *.
  destruct (String.eqb_spec (categoryName t) n) as [E | E].
  - exfalso. apply H. left. exact E.
  - apply IH. intros X. apply H. right. exact X.
Qed.

(** ** The invariant of the grouping loop *)

Lemma entry_ok_other data t e :
  fst e <> categoryName t -> entry_ok data e -> entry_ok (data ++ [t]) e.
Proof.
  intros Hn (H1 & H2 & H3). unfold entry_ok, groupAmounts, groupColor.
  rewrite groupOf_snoc.
  destruct (String.eqb_spec (categoryName t) (fst e)) as [E | E]; [ congruence | ].
  rewrite app_nil_r. auto.
Qed.

Lemma entry_ok_same data t e :
  fst e = categoryName t -> entry_ok data e ->
  entry_ok (data ++ [t])
    (fst e, ((fst (snd e) + Store.amount t)%float, snd (snd e))).
Proof.
  intros Hn (H1 & H2 & H3). unfold entry_ok, groupAmounts, groupColor.
  cbn [fst snd]. rewrite groupOf_snoc, Hn, String.eqb_refl, <- Hn.
  split; [ | split ].
  - destruct (groupOf data (fst e)); discriminate.
  - rewrite map_app. cbn [map]. rewrite floatSum_snoc.
    + rewrite H2. reflexivity.
    + unfold groupAmounts. destruct (groupOf data (fst e)); [ congruence | discriminate ].
  - rewrite H3. unfold groupColor.
    destruct (groupOf data (fst e)); [ congruence | reflexivity ].
Qed.

Lemma entry_ok_new data t :
  groupOf data (categoryName t) = [] ->
  entry_ok (data ++ [t]) (categoryName t, (Store.amount t, categoryColor t)).
Proof.
  intros H. unfold entry_ok, groupAmounts, groupColor. cbn [fst snd].
  rewrite groupOf_snoc, H, String.eqb_refl. cbn. repeat split. discriminate.
Qed.

Lemma NoDup_snoc {A} (l : list A) (x : A) :
  List.NoDup l -> ~ In x l -> List.NoDup (l ++ [x]).
Proof.
  induction l as [ | y l IH ]; intros H Hx; cbn [app].
  - constructor; [ intros [] | constructor ].
  - apply List.NoDup_cons_iff in H. destruct H as [H1 H2].
    apply List.NoDup_cons_iff. split.
    + intros X. apply in_app_or in X. destruct X as [X | [X | []]]; [ tauto | ].
      apply Hx. left. symmetry. exact X.
    + apply IH; [ exact H2 | ]. intros X. apply Hx. right. exact X.
Qed.

Lemma inv_step data m t : inv data m -> inv (data ++ [t]) (addTransaction m t).
Proof.
  intros (ND & K & F). unfold addTransaction, inv.
  rewrite map_app. cbn [map]. rewrite firstSeenOrder_snoc, <- K.
  destruct (has m (categoryName t)) eqn:E.
  - apply has_In in E. rewrite (proj2 (existsb_eqb_In _ _) E).
    rewrite addAmount_bump by exact ND. rewrite map_fst_bump.
    split; [ exact ND | split; [ reflexivity | ] ].
    apply List.Forall_map. eapply List.Forall_impl; [ | exact F ].
    intros e He. unfold bump.
    destruct (String.eqb_spec (fst e) (categoryName t)) as [En | En].
    + apply entry_ok_same; assumption.
    + apply entry_ok_other; assumption.
  - assert (Hn : ~ In (categoryName t) (map fst m)).
    { intros X. apply has_In in X. congruence. }
    replace (existsb (String.eqb (categoryName t)) (map fst m)) with false.
    2:{ symmetry. apply not_true_is_false. intros X. apply existsb_eqb_In in X. tauto. }
    rewrite map_app. cbn [map fst].
    split; [ apply NoDup_snoc; assumption | split; [ reflexivity | ] ].
    apply List.Forall_app. split.
    + apply List.Forall_forall. intros e He.
      apply entry_ok_other.
      * intros X. apply Hn. rewrite <- X. apply in_map. exact He.
      * revert e He. apply List.Forall_forall. exact F.
    + constructor; [ | constructor ].
      apply entry_ok_new. apply groupOf_absent. intros X.
      apply Hn. rewrite K. apply firstSeenOrder_complete. exact X.
Qed.

Lemma groupByCategory_snoc data t :
  groupByCategory (data ++ [t]) = addTransaction (groupByCategory data) t.
Proof. unfold groupByCategory. rewrite fold_left_app. reflexivity. Qed.

Lemma groupByCategory_inv data : inv data (groupByCategory data).
Proof.
  induction data as [ | t data IH ] using rev_ind.
  - repeat split; constructor.
  - rewrite groupByCategory_snoc. apply inv_step. exact IH.
Qed.

(** ** The chart entries *)

Lemma strOr_nonempty s d : d <> "" -> strOr s d <> "".
Proof.
  intros Hd. unfold strOr. destruct (String.eqb_spec s ""); congruence.
Qed.

Lemma categoryColor_nonempty t : categoryColor t <> "".
Proof.
  unfold categoryColor. destruct (Store.categories t).
  - apply strOr_nonempty. discriminate.
  - discriminate.
Qed.

(** The stored colour of an entry is never empty, so the fallback palette
    of [toChart] is never consulted. *)
Lemma toChart_spec data m : forall index,
  Forall (entry_ok data) m ->
  map name (toChart index m) = map fst m /\
  Forall (group_ok data) (toChart index m).
Proof.
  induction m as [ | [n [amt col]] m IH ]; intros index H; cbn [toChart map].
  - split; [ reflexivity | constructor ].
  - apply List.Forall_cons_iff in H. destruct H as [(H1 & H2 & H3) H].
    destruct (IH (S index) H) as [IH1 IH2]. cbn [fst snd] in *.
    split; [ cbn [name]; rewrite IH1; reflexivity | ].
    constructor; [ | exact IH2 ]. unfold group_ok. cbn [name value color].
    repeat split; try assumption.
    unfold strOr. destruct (String.eqb_spec col "") as [E | E]; [ | exact H3 ].
    exfalso. rewrite H3 in E. unfold groupColor in E.
    destruct (groupOf data n) as [ | t ? ]; [ congruence | ].
    exact (categoryColor_nonempty t E).
Qed.

(** ** The sort *)

Lemma gt0_compareFn x y :
  numeric x -> numeric y ->
  JSNumber.gt0 (compareFn x y)
  = (FloatOrder.ord (value x) <? FloatOrder.ord (value y)).
Proof. intros Hx Hy. apply FloatOrderFacts.sub_pos_ord; assumption. Qed.

Lemma descending_ord g h :
  numeric g -> numeric h ->
  descending g h <-> FloatOrder.ord (value h) <= FloatOrder.ord (value g).
Proof.
  intros Hg Hh. unfold descending. rewrite FloatOrderFacts.leb_ord by assumption.
  apply Z.leb_le.
Qed.

Lemma insert_perm x l : Permutation (insert x l) (x :: l).
Proof.
  induction l as [ | y l IH ]; cbn [insert]; [ reflexivity | ].
  destruct (JSNumber.gt0 (compareFn x y)); [ | reflexivity ].
  rewrite IH. apply perm_swap.
Qed.

Lemma sort_perm l : Permutation (sort l) l.
Proof.
  induction l as [ | x l IH ]; cbn [sort]; [ reflexivity | ].
  rewrite insert_perm, IH. reflexivity.
Qed.

Lemma insert_sorted x l :
  numeric x -> List.Forall numeric l ->
  StronglySorted descending l -> StronglySorted descending (insert x l).
Proof.
  intros Hx. induction l as [ | y l IH ]; intros Hl Hs; cbn [insert].
  - constructor; constructor.
  - apply List.Forall_cons_iff in Hl. destruct Hl as [Hy Hl].
    apply StronglySorted_inv in Hs. destruct Hs as [Hs Hyl].
    rewrite gt0_compareFn by assumption.
    destruct (Z.ltb_spec (FloatOrder.ord (value x)) (FloatOrder.ord (value y))) as [L | G].
    + constructor; [ apply IH; assumption | ].
      eapply Permutation_Forall; [ symmetry; apply insert_perm | ].
      constructor; [ | exact Hyl ].
      apply descending_ord; [ assumption | assumption | lia ].
    + constructor; [ constructor; assumption | ].
      constructor; [ apply descending_ord; assumption | ].
      apply List.Forall_forall. intros z Hz.
      pose proof (proj1 (List.Forall_forall _ _) Hl z Hz) as Nz.
      pose proof (proj1 (List.Forall_forall _ _) Hyl z Hz) as Dz.
      apply descending_ord in Dz; [ | assumption | assumption ].
      apply descending_ord; [ assumption | assumption | lia ].
Qed.

Lemma sort_sorted l :
  List.Forall numeric l -> StronglySorted descending (sort l).
Proof.
  induction l as [ | x l IH ]; intros H; cbn [sort]; [ constructor | ].
  apply List.Forall_cons_iff in H. destruct H as [Hx Hl].
  apply insert_sorted; [ exact Hx | | apply IH; exact Hl ].
  eapply Permutation_Forall; [ symmetry; apply sort_perm | exact Hl ].
Qed.

(** An element passes only elements with a strictly larger total, so the
    elements of one total keep their order. *)
Lemma insert_stable v x l :
  numeric x -> List.Forall numeric l ->
  List.filter (tie v) (insert x l) = List.filter (tie v) (x :: l).
Proof.
  intros Hx. induction l as [ | y l IH ]; intros Hl; cbn [insert]; [ reflexivity | ].
  apply List.Forall_cons_iff in Hl. destruct Hl as [Hy Hl].
  rewrite gt0_compareFn by assumption.
  destruct (Z.ltb_spec (FloatOrder.ord (value x)) (FloatOrder.ord (value y))) as [L | G];
    [ | reflexivity ].
  cbn [List.filter]. rewrite (IH Hl). cbn [List.filter].
  destruct (tie v x) eqn:Tx, (tie v y) eqn:Ty; try reflexivity.
  exfalso. unfold tie in Tx, Ty.
  destruct (FloatOrderFacts.eqb_true_not_nan _ _ Tx) as [_ Hv].
  rewrite FloatOrderFacts.eqb_ord in Tx, Ty by assumption.
  apply Z.eqb_eq in Tx, Ty. lia.
Qed.

Lemma sort_stable v l :
  List.Forall numeric l -> List.filter (tie v) (sort l) = List.filter (tie v) l.
Proof.
  induction l as [ | x l IH ]; intros H; cbn [sort]; [ reflexivity | ].
  apply List.Forall_cons_iff in H. destruct H as [Hx Hl].
  rewrite insert_stable.
  - cbn [List.filter]. rewrite (IH Hl). reflexivity.
  - exact Hx.
  - eapply Permutation_Forall; [ symmetry; apply sort_perm | exact Hl ].
Qed.

(** ** Totals are numbers when the amounts are finite *)

Lemma fold_add_numeric l : forall acc,
  is_nan acc = false ->
  List.Forall (fun a => is_finite a = true) l ->
  is_nan (fold_left (fun s x => (s + x)%float) l acc) = false.
Proof.
  induction l as [ | a l IH ]; intros acc Hacc Hl; cbn [fold_left]; [ exact Hacc | ].
  apply List.Forall_cons_iff in Hl. destruct Hl as [Ha Hl].
  apply IH; [ | exact Hl ]. apply FloatOrderFacts.add_not_nan; assumption.
Qed.

Lemma floatSum_numeric l :
  List.Forall (fun a => is_finite a = true) l -> is_nan (floatSum l) = false.
Proof.
  destruct l as [ | a l ]; intros H; cbn [floatSum]; [ reflexivity | ].
  apply List.Forall_cons_iff in H. destruct H as [Ha Hl].
  apply fold_add_numeric; [ apply FloatOrderFacts.is_finite_not_nan; exact Ha | exact Hl ].
Qed.

Lemma groupAmounts_finite data n :
  List.Forall (fun t => is_finite (Store.amount t) = true) data ->
  List.Forall (fun a => is_finite a = true) (groupAmounts data n).
Proof.
  intros H. unfold groupAmounts, groupOf. apply List.Forall_map.
  apply List.Forall_forall. intros t Ht. apply List.filter_In in Ht.
  revert t Ht. intros t [Ht _]. revert t Ht. apply List.Forall_forall. exact H.
Qed.

Lemma groups_spec data :
  map name (toChart 0 (groupByCategory data))
  = firstSeenOrder (map categoryName data) /\
  List.Forall (group_ok data) (toChart 0 (groupByCategory data)).
Proof.
  destruct (groupByCategory_inv data) as (_ & K & F).
  destruct (toChart_spec data (groupByCategory data) 0%nat F) as [H1 H2].
  rewrite H1, K. auto.
Qed.

Lemma groups_numeric data :
  List.Forall (fun t => is_finite (Store.amount t) = true) data ->
  List.Forall numeric (toChart 0 (groupByCategory data)).
Proof.
  intros H. destruct (groups_spec data) as [_ G].
  eapply List.Forall_impl; [ | exact G ].
  intros g (_ & Hv & _). unfold numeric. rewrite Hv.
  apply floatSum_numeric, groupAmounts_finite, H.
Qed.

Lemma chart_groups data : Permutation (chartData data) (toChart 0 (groupByCategory data)).
Proof. apply sort_perm. Qed.

Lemma chart_group_ok data : List.Forall (group_ok data) (chartData data).
Proof.
  eapply Permutation_Forall; [ symmetry; apply chart_groups | ].
  apply groups_spec.
Qed.

Lemma chart_names data :
  Permutation (map name (chartData data)) (firstSeenOrder (map categoryName data)).
Proof.
  rewrite (Permutation_map name (chart_groups data)).
  rewrite (proj1 (groups_spec data)). reflexivity.
Qed.

Lemma firstSeenOrder_NoDup l : List.NoDup (firstSeenOrder l).
Proof.
  induction l as [ | x l IH ] using rev_ind; [ constructor | ].
  rewrite firstSeenOrder_snoc.
  destruct (existsb (String.eqb x) (firstSeenOrder l)) eqn:E; [ exact IH | ].
  apply NoDup_snoc; [ exact IH | ]. intros X. apply existsb_eqb_In in X. congruence.
Qed.

(** ** The claims about the expense breakdown *)

(** C6, as the specification states it, fails: the total of a group is a
    binary64 sum, and with amounts the column admits it is a cent away from
    the exact sum 79999999999999.93: half a cent or more away from the sum
    of the decimal amounts, and from the exact sum of the numbers received. *)
Lemma large_group_total_off_by_a_cent :
  map (fun g => JSNumberToString.toString (value g)) (chartData largeRent)
  = [ "79999999999999.94" ] /\
  map (fun g => offByHalfCent (value g) 7999999999999993) (chartData largeRent)
  = [ true ] /\
  map (fun g => offByHalfCentOf (value g) (groupAmounts largeRent (name g)))
    (chartData largeRent)
  = [ true ] /\
  map (fun t => JSNumberToString.toString (Store.amount t)) largeRent
  = (repeat "9999999999999.99" 8 ++ [ "0.01" ])%list.
Proof. repeat split; vm_compute; reflexivity. Qed.

(** C6, amended: without a transaction the breakdown is empty; the rows
    fetched are the user's expenses; every group of the breakdown has
    transactions, and its total is the binary64 sum of their amounts, added
    in the order of the fetched rows from the first one (the exact sum up
    to the rounding of each addition); the groups are those of the names
    [categoryName], with "Uncategorized" for a missing category, one group a name. *)
Theorem group_totals (tzOffset : Z -> Z) (table : list Store.Transaction)
    (nowYear nowMonth : Z) (uid : string) :
  let data :=
    Store.selectExpenses table uid (Clock.isoDay tzOffset nowYear nowMonth 1)
      (Clock.isoDay tzOffset nowYear (nowMonth + 1) 0) in
  loadExpenseData tzOffset table nowYear nowMonth (Some uid) = Some (chartData data) /\
  chartData [] = [] /\
  List.Forall (fun t => Store.type t = Expense /\ Store.user_id t = uid) data /\
  List.Forall
    (fun g => groupOf data (name g) <> [] /\
              value g = floatSum (groupAmounts data (name g)))
    (chartData data) /\
  (forall t, In t data -> In (categoryName t) (map name (chartData data))) /\
  (forall t, Store.categories t = None -> categoryName t = "Uncategorized") /\
  List.NoDup (map name (chartData data)).
Proof.
  intros data. repeat split.
  - apply List.Forall_forall. intros t Ht. subst data.
    apply List.filter_In in Ht. destruct Ht as [_ Ht].
    apply andb_prop in Ht. destruct Ht as [Ht _].
    apply andb_prop in Ht. destruct Ht as [Ht _].
    apply andb_prop in Ht. destruct Ht as [Hu Hty].
    apply String.eqb_eq in Hu. destruct (Store.type t); [ discriminate | auto ].
  - eapply List.Forall_impl; [ | apply chart_group_ok ].
    intros g (H1 & H2 & _). auto.
  - intros t Ht. eapply Permutation_in; [ symmetry; apply chart_names | ].
    apply firstSeenOrder_complete, in_map, Ht.
  - intros t Ht. unfold categoryName. rewrite Ht. reflexivity.
  - eapply Permutation_NoDup; [ symmetry; apply chart_names | ].
    apply firstSeenOrder_NoDup.
Qed.

(** C7: when the amounts are finite numbers, the breakdown is the list of
    groups in first-seen order, rearranged so that the totals descend, the
    groups of equal total keeping their first-seen order. *)
Theorem chart_sorted_descending_stable (data : list Store.Transaction) :
  List.Forall (fun t => is_finite (Store.amount t) = true) data ->
  let groups := toChart 0 (groupByCategory data) in
  map name groups = firstSeenOrder (map categoryName data) /\
  Permutation (chartData data) groups /\
  StronglySorted (fun g h => (value h <=? value g)%float = true) (chartData data) /\
  (forall v, List.filter (fun g => (value g =? v)%float) (chartData data)
             = List.filter (fun g => (value g =? v)%float) groups).
Proof.
  intros H groups. pose proof (groups_numeric data H) as N.
  split; [ apply groups_spec | ].
  split; [ apply chart_groups | ].
  split; [ apply sort_sorted; exact N | ].
  intros v. apply (sort_stable v). exact N.
Qed.

(** The scenario of C7: 100, 200, 200 in A, B, B give B with 400, then A
    with 100. *)
Lemma chart_sorted_descending_stable_witness :
  chartData abb
  = [ {| name := "B"; value := 400; color := "#f97316" |};
      {| name := "A"; value := 100; color := "#ef4444" |} ] /\
  map name (toChart 0 (groupByCategory abb)) = [ "A"; "B" ] /\
  StronglySorted (fun g h => (value h <=? value g)%float = true) (chartData abb).
Proof.
  assert (H : List.Forall (fun t => is_finite (Store.amount t) = true) abb).
  { repeat constructor. }
  destruct (chart_sorted_descending_stable abb H) as (H1 & _ & H3 & _).
  split; [ reflexivity | split; [ exact H1 | exact H3 ] ].
Defined.

(** C8 at the failing input: one expense without a category.  Its group
    gets the colour "#6b7280" of line 291, not the first colour of
    [FALLBACK_COLORS]. *)
Theorem uncategorized_group_is_gray :
  chartData [ spend None 100 ]
  = [ {| name := "Uncategorized"; value := 100; color := "#6b7280" |} ] /\
  nth (0 mod length FALLBACK_COLORS) FALLBACK_COLORS "" = "#8884d8".
Proof. split; reflexivity. Qed.

(** The colour of every group is the one line 291 gave its first
    transaction: the stored colour, or "#6b7280" without one.  The palette
    of line 306 is never used. *)
Theorem palette_never_used (data : list Store.Transaction) :
  List.Forall
    (fun g => exists t rest,
       groupOf data (name g) = t :: rest /\ color g = categoryColor t /\
       color g = match Store.categories t with
                 | Some c => strOr (Store.color c) "#6b7280"
                 | None => "#6b7280"
                 end)
    (chartData data).
Proof.
  eapply List.Forall_impl; [ | apply chart_group_ok ].
  intros g (H1 & _ & H3). unfold groupColor in H3.
  destruct (groupOf data (name g)) as [ | t rest ]; [ congruence | ].
  exists t, rest. rewrite H3. repeat split.
Qed.

End ExpenseChartFacts.

(** * Properties of the monthly series *)

Module MonthlyTrendsFacts.

Import MonthlyTrends MonthlyTrendsSpec.

Lemma monthOf_ordinal nowYear nowMonth i :
  monthOrdinal (monthOf nowYear nowMonth i)
  = 12 * (if (0 <=? nowYear) && (nowYear <=? 99) then 1900 + nowYear else nowYear)
    + nowMonth - i.
Proof.
  unfold monthOrdinal, monthOf, Clock.firstOfMonth. cbn [fst snd].
  pose proof (Z.div_mod (nowMonth - i) 12 ltac:(lia)).
  lia.
Qed.

Lemma monthResult_ok tzOffset table nowYear nowMonth uid i :
  entry_ok tzOffset table nowYear nowMonth uid i
    (monthResult table uid (bucket tzOffset nowYear nowMonth i)).
Proof.
  unfold entry_ok, bucket, monthResult.
  destruct (monthOf nowYear nowMonth i) as [y m].
  cbn [label firstDay lastDay month income expenses net].
  repeat split; try reflexivity.
  all: match goal with H : _ = [] |- _ => rewrite H; reflexivity end.
Qed.

(** C5: [loadMonthlyData] gives exactly six entries, one a month, the
    months consecutive from the fifth before the current one up to the
    current one; each entry holds the sums of the incomes and of the
    expenses fetched for its month and their difference as [net]; an entry
    whose month has no transaction is there with three zeros. *)
Theorem monthly_series_six (tzOffset : Z -> Z) (table : list Store.Transaction)
    (nowYear nowMonth : Z) (uid : string) :
  exists series,
    loadMonthlyData tzOffset table nowYear nowMonth (Some uid) = Some series /\
    length series = 6%nat /\
    map (fun i => monthOrdinal (monthOf nowYear nowMonth i)) [5; 4; 3; 2; 1; 0]
    = map (fun k => monthOrdinal (monthOf nowYear nowMonth 0) - 5 + k)
        [0; 1; 2; 3; 4; 5] /\
    List.Forall2 (entry_ok tzOffset table nowYear nowMonth uid)
      [5; 4; 3; 2; 1; 0] series.
Proof.
  eexists. split; [ reflexivity | ]. split; [ reflexivity | ]. split.
  - cbn [map]. rewrite !monthOf_ordinal.
    repeat (apply (f_equal2 cons); [ lia | ]). reflexivity.
  - unfold months. cbn [map].
    repeat (constructor; [ apply monthResult_ok | ]). constructor.
Qed.

(** ** The month windows and the time zone *)

(** West of UTC (and on it) the ISO date of a local midnight is the local
    date. *)
Lemma utcDay_west tzOffset day :
  -1440 < tzOffset day <= 0 -> Clock.utcDay tzOffset day = day.
Proof.
  intros H. unfold Clock.utcDay.
  symmetry. apply Z.div_unique with (r := - tzOffset day); lia.
Qed.

(** East of UTC it is the date of the day before. *)
Lemma utcDay_east tzOffset day :
  0 < tzOffset day <= 1440 -> Clock.utcDay tzOffset day = day - 1.
Proof.
  intros H. unfold Clock.utcDay.
  symmetry. apply Z.div_unique with (r := 1440 - tzOffset day); lia.
Qed.

(** East of UTC the window fetched for a month runs from the last day of
    the month before to the day before the month's last day. *)
Theorem window_east_of_utc (tzOffset : Z -> Z) (nowYear nowMonth i : Z) :
  (forall day, 0 < tzOffset day <= 1440) ->
  let '(y, m) := monthOf nowYear nowMonth i in
  firstDay (bucket tzOffset nowYear nowMonth i) = Clock.localDay y m 1 - 1 /\
  lastDay (bucket tzOffset nowYear nowMonth i) = Clock.localDay y (m + 1) 0 - 1.
Proof.
  intros H. unfold bucket. destruct (monthOf nowYear nowMonth i) as [y m].
  cbn [firstDay lastDay]. unfold Clock.isoDay.
  rewrite !utcDay_east by apply H. split; reflexivity.
Qed.

(** In February 2024 at UTC+5:30 the window of the current month is
    2024-01-31 .. 2024-02-28, the local month being 2024-02-01 .. 2024-02-29. *)
Lemma window_east_of_utc_witness :
  firstDay (bucket (fun _ => 330) 2024 1 0) = Clock.localDay 2024 1 1 - 1 /\
  lastDay (bucket (fun _ => 330) 2024 1 0) = Clock.localDay 2024 2 0 - 1.
Proof.
  apply (window_east_of_utc (fun _ => 330) 2024 1 0). intros day. lia.
Defined.

(** A table of three transactions seen from May 2024, on UTC. *)
Example monthly_series_sample :
  loadMonthlyData (fun _ => 0)
    [ {| Store.user_id := "u1"; Store.type := Income; Store.amount := 50000;
         Store.date := 19845; Store.categories := None |};
      {| Store.user_id := "u1"; Store.type := Expense; Store.amount := 150;
         Store.date := 19844; Store.categories := None |};
      {| Store.user_id := "u1"; Store.type := Expense; Store.amount := 200;
         Store.date := 19724; Store.categories := None |} ]
    2024 4 (Some "u1")
  = Some
      [ {| month := "Dec 23"; income := 0; expenses := 0; net := 0 |};
        {| month := "Jan 24"; income := 0; expenses := 200; net := -200 |};
        {| month := "Feb 24"; income := 0; expenses := 0; net := 0 |};
        {| month := "Mar 24"; income := 0; expenses := 0; net := 0 |};
        {| month := "Apr 24"; income := 0; expenses := 0; net := 0 |};
        {| month := "May 24"; income := 50000; expenses := 150; net := 49850 |} ].
Proof. vm_compute. reflexivity. Qed.

End MonthlyTrendsFacts.

(** * Properties of the import card *)

Module BankStatementImportFacts.

Import BankStatementImport.

(** ** [endsWith] and concatenation *)

Lemma append_cons (c : ascii) (s t : string) : String c s ++ t = String c (s ++ t).
Proof. reflexivity. Qed.

Lemma length_append (s t : string) :
  String.length (s ++ t) = (String.length s + String.length t)%nat.
Proof.
  induction s as [ | c s IH ]; [ reflexivity | ].
  rewrite append_cons. cbn [String.length]. rewrite IH. reflexivity.
Qed.

Lemma substring_whole (s : string) : substring 0 (String.length s) s = s.
Proof.
  induction s as [ | c s IH ]; [ reflexivity | ].
  cbn [String.length substring]. rewrite IH. reflexivity.
Qed.

Lemma substring_after (stem s : string) (m : nat) :
  substring (String.length stem) m (stem ++ s) = substring 0 m s.
Proof.
  induction stem as [ | c stem IH ]; [ reflexivity | ].
  rewrite append_cons. cbn [String.length substring]. exact IH.
Qed.

Lemma substring_split (s : string) : forall n,
  (n <= String.length s)%nat ->
  s = substring 0 n s ++ substring n (String.length s - n) s.
Proof.
  induction s as [ | c s IH ]; intros n Hn.
  - destruct n; reflexivity.
  - destruct n as [ | n ].
    + rewrite Nat.sub_0_r, substring_whole. reflexivity.
    + cbn [String.length] in Hn. cbn [substring String.length Nat.sub].
      rewrite append_cons. f_equal. apply IH. lia.
Qed.

(** A string ends with [p] exactly when it is some stem followed by [p]. *)
Lemma endsWith_iff (s p : string) :
  endsWith s p = true <-> exists stem, s = stem ++ p.
Proof.
  unfold endsWith. split.
  - intros H. apply andb_prop in H. destruct H as [Hl He].
    apply Nat.leb_le in Hl. apply String.eqb_eq in He.
    exists (substring 0 (String.length s - String.length p) s).
    pose proof (substring_split s (String.length s - String.length p) ltac:(lia)) as E.
    replace (String.length s - (String.length s - String.length p))%nat
      with (String.length p) in E by lia.
    rewrite He in E. exact E.
  - intros [stem ->]. rewrite length_append. apply andb_true_intro. split.
    + apply Nat.leb_le. lia.
    + replace (String.length stem + String.length p - String.length p)%nat
        with (String.length stem) by lia.
      rewrite substring_after, substring_whole. apply String.eqb_refl.
Qed.

Lemma supported_iff (fileName : string) :
  supported fileName = true <->
  exists stem, In fileName [ stem ++ ".xlsx"; stem ++ ".xls"; stem ++ ".csv" ].
Proof.
  unfold supported. rewrite !orb_true_iff, !endsWith_iff. cbn [In]. split.
  - intros [[[stem ->] | [stem ->]] | [stem ->]]; exists stem; auto.
  - intros [stem [<- | [<- | [<- | []]]]]; eauto.
Qed.

(** ** The state on display *)

Section Card.

Variable Date_parse : string -> option Z.

Lemma step_ofSelectedFile (s : State) (e : Event) :
  ofSelectedFile Date_parse s -> ofSelectedFile Date_parse (step Date_parse s e).
Proof.
  intros H. destruct e as [ [f | ] | | user store ]; cbn [step handleFileChange].
  - left. reflexivity.
  - exact H.
  - unfold parseFile. destruct (file s) as [f | ] eqn:Ef; [ | exact H ].
    destruct (supported (name f)) eqn:Es; [ | exact H ].
    destruct (Normalizer.parseExcelFile Date_parse (workbook f)) as [txs | err] eqn:Ep;
      [ | exact H ].
    right. exists f. cbn [fst file parsedData]. auto.
  - unfold importTransactions. destruct user as [uid | ]; [ | exact H ].
    destruct (parsedData s) as [ | t txs ] eqn:Ed; [ exact H | ].
    destruct (accounts store) as [ [ | accountId others ] | ]; try exact H.
    destruct (insertError store); [ exact H | ]. left. reflexivity.
Qed.

Lemma fold_ofSelectedFile (events : list Event) : forall s,
  ofSelectedFile Date_parse s ->
  ofSelectedFile Date_parse (fold_left (step Date_parse) events s).
Proof.
  induction events as [ | e events IH ]; intros s H; cbn [fold_left]; [ exact H | ].
  apply IH, step_ofSelectedFile, H.
Qed.

(** What a call of [insert] was given. *)
Lemma importTransactions_sent user store s sent :
  snd (importTransactions user store s) = Some sent ->
  parsedData s <> [] /\
  exists uid accountId others,
    user = Some uid /\ accounts store = Some (accountId :: others) /\
    sent = map (toInsert uid accountId) (parsedData s).
Proof.
  unfold importTransactions. destruct user as [uid | ]; [ | discriminate ].
  destruct (parsedData s) as [ | t txs ]; [ discriminate | ].
  destruct (accounts store) as [ [ | accountId others ] | ]; try discriminate.
  intros H. split; [ discriminate | ]. exists uid, accountId, others.
  destruct (insertError store); cbn [snd] in H; injection H as <-; auto.
Qed.

Lemma resolved_positive (w : Workbook) (txs : list ParsedTransaction) :
  Normalizer.parseExcelFile Date_parse w = Resolved txs ->
  List.Forall (fun t => JSNumber.gt0 (amount t) = true) txs.
Proof.
  destruct w as [ | jsonData ]; [ discriminate | ]. intros H.
  apply NormalizerFacts.parseExcelFile_Resolved in H. subst txs.
  apply Forall_forall. intros t Ht.
  apply list_elem_of_omap in Ht. destruct Ht as (row & _ & Hrow).
  eapply NormalizerFacts.transactionOf_positive; eassumption.
Qed.

End Card.

(** ** The properties of the card *)

(** [parseFile] hands the file to the parser exactly when its name is a
    stem followed by ".xlsx", ".xls" or ".csv", in lower case; the parsed
    data then become the transactions parsed, or stay as they are when the
    parser rejects.  With any other name the state stays as it is and the
    toast is that of the unsupported format. *)
Theorem parseFile_extension_test (Date_parse : string -> option Z)
    (f : File) (shown : list ParsedTransaction) :
  let s := {| file := Some f; parsedData := shown |} in
  (supported (name f) = true <->
   exists stem, In (name f) [ stem ++ ".xlsx"; stem ++ ".xls"; stem ++ ".csv" ]) /\
  (supported (name f) = false ->
   parseFile Date_parse s = (s, Some (ErrorParsingFile Unsupported))) /\
  (supported (name f) = true ->
   parseFile Date_parse s =
   match Normalizer.parseExcelFile Date_parse (workbook f) with
   | Resolved transactions =>
       ({| file := Some f; parsedData := transactions |},
        Some (FileParsed (length transactions)))
   | Rejected error => (s, Some (ErrorParsingFile (Thrown error)))
   end).
Proof.
  intros s. split; [ apply supported_iff | ].
  split; intros H; unfold parseFile; cbn [file s]; rewrite H; reflexivity.
Qed.

(** Whatever the user does with the card, the parsed data on display are
    empty or are what [parseExcelFile] resolves with on the file on
    display, whose name is supported. *)
Theorem parsedData_belongs_to_selected_file (Date_parse : string -> option Z)
    (events : list Event) :
  let s := run Date_parse events in
  parsedData s = [] \/
  exists f, file s = Some f /\ supported (name f) = true /\
            Normalizer.parseExcelFile Date_parse (workbook f) = Resolved (parsedData s).
Proof.
  intros s. subst s. unfold run.
  apply (fold_ofSelectedFile Date_parse events initial).
  left. reflexivity.
Qed.

(** Whatever the user did before, when [importTransactions] calls
    [insert] there is a user and an account, and the rows are, in order,
    the transactions parsed from the file on display, each with the user,
    the first account of the answer, the note of the import and an amount
    above zero. *)
Theorem import_sends_selected_file (Date_parse : string -> option Z)
    (events : list Event) (user : option string) (store : Responses)
    (sent : list Insert.t) :
  snd (importTransactions user store (run Date_parse events)) = Some sent ->
  exists uid accountId others f transactions,
    user = Some uid /\ accounts store = Some (accountId :: others) /\
    file (run Date_parse events) = Some f /\
    Normalizer.parseExcelFile Date_parse (workbook f) = Resolved transactions /\
    sent = map (toInsert uid accountId) transactions /\
    map Insert.date sent = map date transactions /\
    map Insert.description sent = map description transactions /\
    List.Forall
      (fun r => Insert.user_id r = uid /\ Insert.account_id r = accountId /\
                Insert.notes r = "Imported from bank statement" /\
                JSNumber.gt0 (Insert.amount r) = true)
      sent.
Proof.
  intros H. apply importTransactions_sent in H.
  destruct H as (Hne & uid & accountId & others & -> & Ha & ->).
  destruct (fold_ofSelectedFile Date_parse events initial (or_introl eq_refl))
    as [E | (f & Hf & _ & Hp)]; [ contradiction | ].
  exists uid, accountId, others, f, (parsedData (run Date_parse events)).
  repeat split; try assumption.
  - rewrite map_map. reflexivity.
  - rewrite map_map. reflexivity.
  - apply List.Forall_map. eapply List.Forall_impl; [ | exact (resolved_positive _ _ _ Hp) ].
    intros t Ht. cbn. auto.
Qed.

(** A statement of one coffee is chosen, parsed and imported. *)
Lemma import_sends_selected_file_witness :
  exists uid accountId others f transactions,
    Some "u1" = Some uid /\ Some [ "a1" ] = Some (accountId :: others) /\
    file (run (fun _ => None) [ ChooseFile (Some statement); ClickParse ]) = Some f /\
    Normalizer.parseExcelFile (fun _ => None) (workbook f) = Resolved transactions /\
    [ toInsert "u1" "a1" NormalizerSpec.coffeeTx ] = map (toInsert uid accountId) transactions /\
    map Insert.date [ toInsert "u1" "a1" NormalizerSpec.coffeeTx ] = map date transactions /\
    map Insert.description [ toInsert "u1" "a1" NormalizerSpec.coffeeTx ]
    = map description transactions /\
    List.Forall
      (fun r => Insert.user_id r = uid /\ Insert.account_id r = accountId /\
                Insert.notes r = "Imported from bank statement" /\
                JSNumber.gt0 (Insert.amount r) = true)
      [ toInsert "u1" "a1" NormalizerSpec.coffeeTx ].
Proof.
  apply (import_sends_selected_file (fun _ => None)
           [ ChooseFile (Some statement); ClickParse ] (Some "u1")
           {| accounts := Some [ "a1" ]; insertError := false |}).
  reflexivity.
Defined.

End BankStatementImportFacts.

(** * Properties of the expense card *)

Module ExpenseChartViewFacts.

Import ExpenseChart ExpenseChartSpec ExpenseChartView.

(** In a sorted list every element of a front part is before every element
    of the rest. *)
Lemma StronglySorted_app {A} (R : A -> A -> Prop) (l1 l2 : list A) :
  StronglySorted R (l1 ++ l2)%list ->
  forall x y, In x l1 -> In y l2 -> R x y.
Proof.
  induction l1 as [ | a l1 IH ]; intros H x y Hx Hy; [ contradiction | ].
  cbn [app] in H. apply StronglySorted_inv in H. destruct H as [Hs Ha].
  destruct Hx as [<- | Hx].
  - apply (proj1 (List.Forall_forall _ _) Ha). apply in_or_app. right. exact Hy.
  - apply IH; assumption.
Qed.

Lemma chartData_nil (data : list Store.Transaction) :
  chartData data = [] <-> data = [].
Proof.
  split; [ | intros ->; reflexivity ].
  destruct data as [ | t data ]; [ reflexivity | ]. intros H. exfalso.
  assert (In (categoryName t) (map name (chartData (t :: data)))) as Hin.
  { eapply Permutation_in; [ symmetry; apply ExpenseChartFacts.chart_names | ].
    apply ExpenseChartFacts.firstSeenOrder_complete. left. reflexivity. }
  rewrite H in Hin. exact Hin.
Qed.

(** When the amounts are finite numbers, the legend of the card lists the
    first five groups of the breakdown, and no group left out of it has a
    larger total than a group listed. *)
Theorem legend_top_five (data : list Store.Transaction) :
  List.Forall (fun t => is_finite (Store.amount t) = true) data ->
  let chart := chartData data in
  (legend chart ++ skipn 5 chart)%list = chart /\
  length (legend chart) = Nat.min 5 (length chart) /\
  forall g h, In g (legend chart) -> In h (skipn 5 chart) ->
              (value h <=? value g)%float = true.
Proof.
  intros H chart. unfold legend.
  split; [ apply firstn_skipn | ]. split; [ apply length_firstn | ].
  apply StronglySorted_app. rewrite firstn_skipn.
  apply ExpenseChartFacts.sort_sorted, ExpenseChartFacts.groups_numeric, H.
Qed.

(** Seven groups of totals 1 to 7: the legend holds 7, 6, 5, 4, 3. *)
Lemma legend_top_five_witness :
  (legend (chartData sevenGroups) ++ skipn 5 (chartData sevenGroups))%list
  = chartData sevenGroups /\
  length (legend (chartData sevenGroups)) = Nat.min 5 (length (chartData sevenGroups)) /\
  forall g h, In g (legend (chartData sevenGroups)) ->
              In h (skipn 5 (chartData sevenGroups)) ->
              (value h <=? value g)%float = true.
Proof.
  apply (legend_top_five sevenGroups). repeat constructor.
Defined.

(** For a signed-in user the card shows "No expenses this month" exactly
    when the window fetched holds no expense of the user. *)
Theorem empty_state_iff_no_expense (tzOffset : Z -> Z)
    (table : list Store.Transaction) (nowYear nowMonth : Z) (uid : string) :
  exists expenseData,
    loadExpenseData tzOffset table nowYear nowMonth (Some uid) = Some expenseData /\
    (render false expenseData = NoExpensesThisMonth <->
     Store.selectExpenses table uid (Clock.isoDay tzOffset nowYear nowMonth 1)
       (Clock.isoDay tzOffset nowYear (nowMonth + 1) 0) = []).
Proof.
  eexists. split; [ reflexivity | ]. rewrite <- chartData_nil.
  unfold render. destruct (chartData _); split; congruence.
Qed.

(** East of UTC the card's month is shifted one day back: the rows charted
    are the user's expenses dated from the last day of the month before to
    the day before the last day of the current month, so that an expense
    of the last day of the month is never charted in its month. *)
Theorem chart_month_east_of_utc (tzOffset : Z -> Z)
    (table : list Store.Transaction) (nowYear nowMonth : Z) (uid : string) :
  (forall day, 0 < tzOffset day <= 1440) ->
  let first := Clock.localDay nowYear nowMonth 1 in
  let last := Clock.localDay nowYear (nowMonth + 1) 0 in
  loadExpenseData tzOffset table nowYear nowMonth (Some uid)
  = Some (chartData (Store.selectExpenses table uid (first - 1) (last - 1))) /\
  forall t, In t (Store.selectExpenses table uid (first - 1) (last - 1)) ->
            first - 1 <= Store.date t < last.
Proof.
  intros H first last. cbn [loadExpenseData]. unfold Clock.isoDay.
  rewrite !MonthlyTrendsFacts.utcDay_east by apply H. split; [ reflexivity | ].
  intros t Ht. apply List.filter_In in Ht. destruct Ht as [_ Ht].
  apply andb_prop in Ht. destruct Ht as [Ht H2].
  apply andb_prop in Ht. destruct Ht as [_ H1].
  apply Z.leb_le in H1, H2. lia.
Qed.

(** May 2024 at UTC+5:30: an expense of 30 April is charted, one of 31 May
    is not. *)
Lemma chart_month_east_of_utc_witness :
  map Store.date aprilAndMay = [ 19843; 19874 ] /\
  map JSDate.iso_date [ 19843; 19874 ] = [ "2024-04-30"; "2024-05-31" ] /\
  map Store.date
    (Store.selectExpenses aprilAndMay "u1"
       (Clock.localDay 2024 4 1 - 1) (Clock.localDay 2024 5 0 - 1)) = [ 19843 ] /\
  loadExpenseData (fun _ => 330) aprilAndMay 2024 4 (Some "u1")
  = Some (chartData
            (Store.selectExpenses aprilAndMay "u1"
               (Clock.localDay 2024 4 1 - 1) (Clock.localDay 2024 5 0 - 1))) /\
  forall t, In t (Store.selectExpenses aprilAndMay "u1"
                    (Clock.localDay 2024 4 1 - 1) (Clock.localDay 2024 5 0 - 1)) ->
            Clock.localDay 2024 4 1 - 1 <= Store.date t < Clock.localDay 2024 5 0.
Proof.
  split; [ reflexivity | ]. split; [ reflexivity | ]. split; [ reflexivity | ].
  apply (chart_month_east_of_utc (fun _ => 330) aprilAndMay 2024 4 "u1").
  intros day. lia.
Defined.

End ExpenseChartViewFacts.

(** * Properties of the dashboard cards *)

Module DashboardFacts.

Import FloatOrder Dashboard.

(** ** Sums that start from 0 *)






Lemma orZero_not_nan (x : float) : is_nan (orZero x) = false.
Proof.
  unfold orZero. destruct (is_zero x); [ reflexivity | ].
  destruct (is_nan x) eqn:E; [ reflexivity | exact E ].
Qed.

(** ** The window of the current month *)



(** ** The sign of the net income *)

Lemma SFleb_zero_signed s x :
  signed_nonzero s x -> SFleb (S754_zero false) x = negb s.
Proof. intros [(m & e & ->) | ->]; destruct s; reflexivity. Qed.

Lemma binary_normalize_sign_le (d e : Z) :
  -1074 <= e ->
  SFleb (S754_zero false) (binary_normalize prec emax d e false) = (0 <=? d).
Proof.
  intros He. destruct d as [ | p | p ]; cbn [binary_normalize].
  - reflexivity.
  - rewrite (SFleb_zero_signed false)
      by (apply FloatOrderFacts.binary_round_nonzero; exact He).
    reflexivity.
  - rewrite (SFleb_zero_signed true)
      by (apply FloatOrderFacts.binary_round_nonzero; exact He).
    reflexivity.
Qed.

Lemma SFsub_sign_le x y :
  valid_binary x = true -> valid_binary y = true ->
  not_nan x -> not_nan y -> SFfinite x \/ SFfinite y ->
  SFleb (S754_zero false) (SF64sub y x) = (SFord x <=? SFord y).
Proof.
  intros Vx Vy Nx Ny F.
  assert (Hbig : 0 < big) by (apply FloatOrderFacts.pow2_pos; lia).
  destruct x as [sx | sx | | sx mx ex]; [| | congruence |];
  destruct y as [sy | sy | | sy my ey]; try congruence; clear Nx Ny;
  try (pose proof (FloatOrderFacts.mag_lt_big _ _ _ Vx));
  try (pose proof (FloatOrderFacts.mag_lt_big _ _ _ Vy));
  try (pose proof (FloatOrderFacts.mag_pos mx ex
                     ltac:(apply FloatOrderFacts.valid_finite in Vx; lia)));
  try (pose proof (FloatOrderFacts.mag_pos my ey
                     ltac:(apply FloatOrderFacts.valid_finite in Vy; lia)));
  unfold SF64sub; cbn [SFsub SFord];
  try fold (mag mx ex) in *; try fold (mag my ey) in *.
  all: try (destruct F as [[] | []]; fail).
  all: try (destruct sx, sy; cbn [SFleb SFcompare negb]; symmetry;
            first [ apply Z.leb_le; lia | apply Z.leb_gt; lia ]).
  all: try (destruct sx; cbn [SFleb SFcompare negb]; symmetry;
            first [ apply Z.leb_le; lia | apply Z.leb_gt; lia ]).
  all: try (destruct sy; cbn [SFleb SFcompare negb]; symmetry;
            first [ apply Z.leb_le; lia | apply Z.leb_gt; lia ]).
  (* finite - finite *)
  apply FloatOrderFacts.valid_finite in Vx, Vy.
  rewrite binary_normalize_sign_le by lia.
  destruct (FloatOrderFacts.shl_align_value my ey (Z.min ey ex) ltac:(lia)) as [-> _].
  destruct (FloatOrderFacts.shl_align_value mx ex (Z.min ey ex) ltac:(lia)) as [-> _].
  rewrite (FloatOrderFacts.mag_split mx ex (Z.min ey ex)) in * by lia.
  rewrite (FloatOrderFacts.mag_split my ey (Z.min ey ex)) in * by lia.
  pose proof (FloatOrderFacts.pow2_pos (Z.min ey ex + 1074) ltac:(lia)) as HK.
  set (K := 2 ^ (Z.min ey ex + 1074)) in *.
  set (a := Z.pos mx * 2 ^ (ex - Z.min ey ex)) in *.
  set (b := Z.pos my * 2 ^ (ey - Z.min ey ex)) in *.
  unfold cond_Zopp.
  destruct sx, sy; symmetry;
    match goal with
    | |- _ = (0 <=? ?d) =>
        destruct (Z.leb_spec 0 d); [ apply Z.leb_le | apply Z.leb_gt ]; nia
    end.
Qed.

(** The difference [b - a] is at least zero exactly when [a <= b], one of
    the two being finite. *)
Lemma sub_nonneg (a b : float) :
  is_nan a = false -> is_nan b = false ->
  is_finite a = true \/ is_finite b = true ->
  (0 <=? b - a)%float = (a <=? b)%float.
Proof.
  intros Ha Hb F. rewrite (FloatOrderFacts.leb_ord a b Ha Hb).
  rewrite FloatAxioms.leb_spec, FloatAxioms.sub_spec.
  change (Prim2SF 0) with (S754_zero false).
  apply SFsub_sign_le; auto using Prim2SF_valid, FloatOrderFacts.is_nan_false.
  destruct F as [F | F]; [ left | right ]; apply FloatOrderFacts.is_finite_SF, F.
Qed.

(** ** The properties of the cards *)



(** The net income card is drawn as a gain exactly when the income is at
    least the expenses, one of the two being finite. *)
Theorem net_income_sign (tzOffset : Z -> Z)
    (accountsTable : list Account) (table : list Store.Transaction)
    (nowYear nowMonth : Z) (user : option string) (stats : DashboardStats) :
  loadDashboardData tzOffset accountsTable table nowYear nowMonth user = Some stats ->
  is_finite (monthlyIncome stats) = true \/ is_finite (monthlyExpenses stats) = true ->
  gain stats = (monthlyExpenses stats <=? monthlyIncome stats)%float.
Proof.
  intros H F. destruct user as [uid | ]; [ | discriminate ].
  cbn [loadDashboardData] in H. injection H as <-.
  unfold gain, netIncome. cbn [monthlyIncome monthlyExpenses] in *.
  apply sub_nonneg; [ apply orZero_not_nan | apply orZero_not_nan | tauto ].
Qed.

Lemma net_income_sign_witness :
  gain {| totalBalance := 0; monthlyIncome := 50000; monthlyExpenses := 150;
          transactionCount := 2 |}
  = (150 <=? 50000)%float.
Proof.
  apply (net_income_sign (fun _ => 0) [] ledger 2024 4 (Some "u1")).
  - reflexivity.
  - left. reflexivity.
Defined.

End DashboardFacts.

(** * Properties of the transaction form *)

Module AddTransactionDialogFacts.

Import AddTransactionDialog.

(** ** The category chosen and the type chosen *)

Lemma orNull_Some (s v : string) : orNull s = Some v -> s = v /\ s <> "".
Proof.
  unfold orNull. destruct (String.eqb_spec s ""); [ discriminate | ].
  intros H. injection H as <-. auto.
Qed.

Lemma orNull_empty : orNull "" = None.
Proof. reflexivity. Qed.

Section Table.

(** The rows that the table of categories holds. *)
Variable known : Category.t -> Prop.

Lemma step_fits (s : State) (e : Event) :
  answers known e -> fits known s -> fits known (step s e).
Proof.
  intros He [Hk Hc].
  destruct e as [ accountsRes categoriesRes | t | field value | index | index
                | user error now ]; cbn [step].
  - split; [ | exact Hc ]. cbn [loadAccountsAndCategories categories].
    destruct categoriesRes as [ data | ]; [ exact He | exact Hk ].
  - split; [ exact Hk | ]. left. reflexivity.
  - split; [ exact Hk | ]. destruct field; exact Hc.
  - destruct (nth_error (accounts s) index); split; assumption.
  - destruct (nth_error (filteredCategories s) index) as [ c | ] eqn:E;
      [ | split; assumption ].
    split; [ exact Hk | ].
    apply nth_error_In, List.filter_In in E. destruct E as [Hin Hty].
    cbn [setCategoryId setFormData formData categoryId type].
    unfold orNull. destruct (String.eqb (Category.id c) ""); [ left; reflexivity | ].
    right. exists c. split; [ | split; [ reflexivity | ] ].
    + exact (proj1 (List.Forall_forall _ _) Hk c Hin).
    + destruct (Category.type c), (type (formData s)); try discriminate; reflexivity.
  - unfold handleSubmit. destruct user as [ uid | ]; [ | split; assumption ].
    destruct error; [ split; assumption | ].
    split; [ exact Hk | ]. left. reflexivity.
Qed.

Lemma fold_fits (events : list Event) : forall s,
  List.Forall (answers known) events -> fits known s ->
  fits known (fold_left step events s).
Proof.
  induction events as [ | e events IH ]; intros s He H; cbn [fold_left]; [ exact H | ].
  apply List.Forall_cons_iff in He. destruct He as [He Hes].
  apply IH; [ exact Hes | ]. apply step_fits; assumption.
Qed.

Lemma run_fits (now : Z) (events : list Event) :
  List.Forall (answers known) events -> fits known (run now events).
Proof.
  intros H. apply fold_fits; [ exact H | ].
  split; [ constructor | left; reflexivity ].
Qed.

End Table.

(** ** The properties of the form *)

(** Whatever the user did with the form before, the row that
    [handleSubmit] inserts has no category, or the category of a row of the
    table of categories whose type is the type of the transaction: a
    category chosen under one type does not survive the change of type. *)
Theorem submitted_category_matches_type (known : Category.t -> Prop)
    (now : Z) (events : list Event) (user : option string) (error : bool)
    (later : Z) (row : Insert.t) :
  List.Forall (answers known) events ->
  snd (handleSubmit user error later (run now events)) = Some row ->
  Insert.category_id row = None \/
  exists c, known c /\ Insert.category_id row = Some (Category.id c) /\
            Category.type c = Insert.type row.
Proof.
  intros He H. destruct (run_fits known now events He) as [_ Hc].
  unfold handleSubmit in H. destruct user as [ uid | ]; [ | discriminate ].
  cbn [snd] in H. injection H as <-. exact Hc.
Qed.

(** The categories arrive; the user picks Food, turns to income and picks
    the category then on offer: the row carries Wages, of type income. *)
Lemma submitted_category_matches_type_witness :
  snd (handleSubmit (Some "u1") false 0 (run 0 session))
  = Some (submitted "u1" (formData (run 0 session))) /\
  Insert.category_id (submitted "u1" (formData (run 0 session))) = Some "c2" /\
  (Insert.category_id (submitted "u1" (formData (run 0 session))) = None \/
   exists c, (c = food \/ c = wages) /\
             Insert.category_id (submitted "u1" (formData (run 0 session)))
             = Some (Category.id c) /\
             Category.type c = Insert.type (submitted "u1" (formData (run 0 session)))).
Proof.
  split; [ reflexivity | ]. split; [ reflexivity | ].
  apply (submitted_category_matches_type (fun c => c = food \/ c = wages) 0 session
           (Some "u1") false 0).
  - apply List.Forall_cons;
      [ | repeat (apply List.Forall_cons; [ exact I | ]); apply List.Forall_nil ].
    cbn [answers]. apply List.Forall_cons; [ left; reflexivity | ].
    apply List.Forall_cons; [ right; reflexivity | apply List.Forall_nil ].
  - reflexivity.
Defined.

(** ** The date the form proposes *)

(** The date the form proposes is the UTC date of the moment.  Seen from a
    zone [offset] minutes ahead of UTC it is the day before the local date
    for the first [offset] minutes of the local day; seen from a zone
    behind UTC it is the day after the local date for the last minutes of
    the local day; otherwise it is the local date. *)
Theorem proposed_date_is_utc_date (offset now : Z) :
  -1440 <= offset <= 1440 ->
  let localDay := localTime offset now / JSDate.msPerDay in
  let timeOfDay := localTime offset now mod JSDate.msPerDay in
  date (emptyForm now)
  = JSDate.iso_date
      (if timeOfDay <? offset * 60000 then localDay - 1
       else if JSDate.msPerDay + offset * 60000 <=? timeOfDay then localDay + 1
       else localDay).
Proof.
  intros H localDay timeOfDay. cbn [date emptyForm]. unfold today. f_equal.
  subst localDay timeOfDay. unfold localTime, JSDate.msPerDay in *.
  pose proof (Z.div_mod (now + offset * 60000) 86400000 ltac:(lia)) as E.
  pose proof (Z.mod_pos_bound (now + offset * 60000) 86400000 ltac:(lia)) as B.
  set (q := (now + offset * 60000) / 86400000) in *.
  set (r := (now + offset * 60000) mod 86400000) in *.
  destruct (Z.ltb_spec r (offset * 60000)).
  - symmetry. apply Z.div_unique with (r := r - offset * 60000 + 86400000); lia.
  - destruct (Z.leb_spec (86400000 + offset * 60000) r).
    + symmetry. apply Z.div_unique with (r := r - offset * 60000 - 86400000); lia.
    + symmetry. apply Z.div_unique with (r := r - offset * 60000); lia.
Qed.

(** At 02:00 of 2 May 2024 in a zone at UTC+5:30 the form proposes 1 May. *)
Lemma proposed_date_is_utc_date_witness :
  JSDate.iso_date (localTime 330 1714595400000 / JSDate.msPerDay) = "2024-05-02" /\
  localTime 330 1714595400000 mod JSDate.msPerDay = 2 * 3600000 /\
  date (emptyForm 1714595400000) = "2024-05-01".
Proof.
  split; [ reflexivity | ]. split; [ reflexivity | ].
  rewrite (proposed_date_is_utc_date 330 1714595400000); [ reflexivity | lia ].
Defined.

End AddTransactionDialogFacts.

(** * Properties of the export *)

Module ExcelExportFacts.

Import ExcelExport.

(** Every row of the sheet [Transactions] has the columns of the header. *)
Lemma exportRow_columns (zone : Z -> Z) (transaction : Transaction) :
  map fst (exportRow zone transaction) = columns.
Proof. reflexivity. Qed.

(** No column of the export is a column the import reads an amount from. *)
Lemma columns_hold_no_amount (k : string) :
  In k (NormalizerSpec.amountKeys ++ NormalizerSpec.debitKeys
        ++ NormalizerSpec.creditKeys)%list ->
  ~ In k columns.
Proof.
  intros Hk Hc. cbn in Hk.
  repeat (destruct Hk as [<- | Hk];
          [ revert Hc; vm_compute; intuition discriminate | ]).
  exact Hk.
Qed.

Lemma readFrom_noAmountInfo (zone : Z -> Z) (transaction : Transaction)
    (row : gmap string Cell) :
  readFrom (exportRow zone transaction) row -> NormalizerSpec.noAmountInfo row.
Proof.
  intros H k Hk. destruct (row !! k) as [ c | ] eqn:E; [ | reflexivity ].
  exfalso. apply (columns_hold_no_amount k Hk).
  rewrite <- (exportRow_columns zone transaction). apply H. rewrite E. eauto.
Qed.

Lemma list_to_map_keys (l : list (string * Cell)) (k : string) :
  is_Some ((list_to_map l : gmap string Cell) !! k) -> In k (map fst l).
Proof.
  induction l as [ | [k' c] l IH ]; cbn [list_to_map map fst foldr].
  - rewrite lookup_empty. intros [? ?]. discriminate.
  - destruct (decide (k' = k)) as [-> | N]; [ left; reflexivity | ].
    rewrite lookup_insert_ne by exact N. right. apply IH. assumption.
Qed.

(** Rows read from the rows written for transactions give no transaction. *)
Lemma read_back_is_empty (Date_parse : string -> option Z) (zone : Z -> Z)
    (transactions : list Transaction) (jsonData : list (gmap string Cell)) :
  List.Forall2 readFrom (map (exportRow zone) transactions) jsonData ->
  Normalizer.parseExcelFile Date_parse (FirstSheet jsonData) = Resolved [].
Proof.
  intros H. rewrite NormalizerFacts.parseExcelFile_spec.
  assert (S : List.Forall (fun row => NormalizerSpec.passesGuards row = false) jsonData).
  { revert jsonData H.
    induction transactions as [ | t ts IH ]; intros jsonData H; inversion H; subst;
      constructor; [ | apply IH; assumption ].
    unfold NormalizerSpec.passesGuards.
    rewrite (NormalizerFacts.noAmountInfo_zero _
               (readFrom_noAmountInfo zone t _ ltac:(eassumption))).
    apply andb_false_r. }
  clear H. induction S as [ | row rows Hrow _ IH ]; [ reflexivity | ].
  cbn [existsb]. rewrite Hrow. cbn [andb orb].
  rewrite NormalizerFacts.omap_cons.
  unfold NormalizerSpec.transactionOf at 1.
  rewrite (NormalizerFacts.normalizeRow_guard Date_parse row Hrow).
  exact IH.
Qed.

(** The date printed depends on the local day only. *)
Lemma ddMMyyyy_day (local1 local2 : Z) :
  local1 / JSDate.msPerDay = local2 / JSDate.msPerDay ->
  ddMMyyyy local1 = ddMMyyyy local2.
Proof. intros H. unfold ddMMyyyy. rewrite H. reflexivity. Qed.

(** ** The properties of the export *)

(** The file that [exportTransactions] writes cannot be read back by the
    import card.  Its name passes the test of [parseFile]; whatever cells
    [sheet_to_json] keeps of the rows of its first sheet, [parseFile]
    reports no error and finds no transaction at all: the amount is
    written under "Amount (₹)", which is none of the columns the import
    reads an amount from. *)
Theorem exported_sheet_is_not_importable (Date_parse : string -> option Z)
    (zone : Z -> Z) (user : option string) (transactions : list Transaction)
    (now : Z) (filename : string) (sheet : Sheet) (others : list Sheet)
    (jsonData : list (gmap string Cell)) (shown : list ParsedTransaction) :
  exportTransactions zone user (Fetched transactions) now
  = Written filename (sheet :: others) ->
  List.Forall2 readFrom (rows sheet) jsonData ->
  let f := {| BankStatementImport.name := filename;
              BankStatementImport.workbook := FirstSheet jsonData |} in
  BankStatementImport.parseFile Date_parse
    {| BankStatementImport.file := Some f; BankStatementImport.parsedData := shown |}
  = ({| BankStatementImport.file := Some f; BankStatementImport.parsedData := [] |},
     Some (BankStatementImport.FileParsed 0)).
Proof.
  intros H R f. unfold exportTransactions in H.
  destruct user as [ uid | ]; [ | discriminate ].
  destruct transactions as [ | t ts ]; [ discriminate | ].
  injection H as <- <- _. cbn [rows] in R.
  unfold BankStatementImport.parseFile.
  cbn [BankStatementImport.file BankStatementImport.name BankStatementImport.workbook f].
  replace (BankStatementImport.supported _) with true.
  2:{ symmetry. apply BankStatementImportFacts.supported_iff.
      exists ("transactions_export_" ++ yyyyMMdd (localTime zone now)).
      left. reflexivity. }
  rewrite (read_back_is_empty Date_parse zone (t :: ts) jsonData R). reflexivity.
Qed.

(** The lunch, written and read back with every cell kept. *)
Lemma exported_sheet_is_not_importable_witness :
  let f := {| BankStatementImport.name := "transactions_export_2024-05-02.xlsx";
              BankStatementImport.workbook :=
                FirstSheet [ list_to_map (exportRow (fun _ => 330) lunch) ] |} in
  BankStatementImport.parseFile (fun _ => None)
    {| BankStatementImport.file := Some f; BankStatementImport.parsedData := [] |}
  = ({| BankStatementImport.file := Some f; BankStatementImport.parsedData := [] |},
     Some (BankStatementImport.FileParsed 0)).
Proof.
  apply (exported_sheet_is_not_importable (fun _ => None) (fun _ => 330) (Some "u1")
           [ lunch ] 1714595400000 _
           {| title := "Transactions"; rows := [ exportRow (fun _ => 330) lunch ] |}
           [ {| title := "Summary";
                rows := summaryData (fun _ => 330) [ lunch ] 1714595400000 |} ]).
  - reflexivity.
  - constructor; [ | constructor ]. intros k. apply list_to_map_keys.
Defined.

(** The cell [Date] of an exported row holds the local date of UTC
    midnight of the stored date: in a zone behind UTC it is the day before
    the stored date, otherwise the stored date. *)
Theorem exported_date_west_of_utc (zone : Z -> Z) (transaction : Transaction) :
  -1440 <= zone (dateOnly (date transaction)) < 1440 ->
  (list_to_map (exportRow zone transaction) : gmap string Cell) !! "Date"
  = Some (CStr (ddMMyyyy
                  (dateOnly (if zone (dateOnly (date transaction)) <? 0
                             then date transaction - 1 else date transaction)))).
Proof.
  intros H. unfold exportRow. cbn [list_to_map foldr uncurry fst snd].
  rewrite lookup_insert. do 2 f_equal. apply ddMMyyyy_day.
  unfold localTime, dateOnly, JSDate.msPerDay in *.
  set (d := date transaction) in *. set (z := zone (d * 86400000)) in *.
  destruct (Z.ltb_spec z 0); rewrite Z.div_mul by lia.
  - symmetry. apply Z.div_unique with (r := 86400000 + z * 60000); lia.
  - symmetry. apply Z.div_unique with (r := z * 60000); lia.
Qed.

(** The lunch of 1 May 2024 is exported as 30 April from New York and as
    1 May from Kolkata. *)
Lemma exported_date_west_of_utc_witness :
  (list_to_map (exportRow (fun _ => -240) lunch) : gmap string Cell) !! "Date"
  = Some (CStr "30/04/2024") /\
  (list_to_map (exportRow (fun _ => 330) lunch) : gmap string Cell) !! "Date"
  = Some (CStr "01/05/2024").
Proof.
  split.
  - rewrite (exported_date_west_of_utc (fun _ => -240) lunch); [ reflexivity | lia ].
  - rewrite (exported_date_west_of_utc (fun _ => 330) lunch); [ reflexivity | lia ].
Defined.

End ExcelExportFacts.

(** * The six windows of the monthly series *)

Module MonthlyWindowsFacts.

Import MonthlyTrends.

Ltac split_tests :=
  repeat match goal with
         | |- context [ ?a <=? ?b ] => destruct (Z.leb_spec a b)
         | |- context [ ?a <? ?b ] => destruct (Z.ltb_spec a b)
         end.

Lemma next_month_same_year (y m : Z) :
  1 <= m <= 11 ->
  JSDate.days_from_civil y m 1 < JSDate.days_from_civil y (m + 1) 1.
Proof.
  intros H. unfold JSDate.days_from_civil. cbv zeta.
  split_tests; try (exfalso; lia); Z.div_mod_to_equations; lia.
Qed.

Lemma next_month_next_year (y : Z) :
  JSDate.days_from_civil y 12 1 < JSDate.days_from_civil (y + 1) 1 1.
Proof.
  unfold JSDate.days_from_civil. cbv zeta.
  split_tests; try (exfalso; lia); Z.div_mod_to_equations; lia.
Qed.

(** The first day of a month is before the first day of the next month. *)
Lemma month_has_days (y m : Z) :
  0 <= m <= 11 ->
  Clock.localDay y m 1 < Clock.localDay y (m + 1) 1.
Proof.
  intros H. unfold Clock.localDay, Clock.firstOfMonth. cbv zeta.
  set (y' := if (0 <=? y) && (y <=? 99) then 1900 + y else y). clearbody y'.
  rewrite (Z.div_small m 12), (Z.mod_small m 12), Z.add_0_r by lia.
  destruct (Z.eq_dec m 11) as [-> | N].
  - change ((11 + 1) / 12) with 1. change ((11 + 1) mod 12 + 1) with 1.
    pose proof (next_month_next_year y'). change (11 + 1) with 12. lia.
  - rewrite (Z.div_small (m + 1) 12), (Z.mod_small (m + 1) 12), Z.add_0_r by lia.
    pose proof (next_month_same_year y' (m + 1) ltac:(lia)). lia.
Qed.

Section Windows.

Variable tzOffset : Z -> Z.
Variables (nowYear nowMonth : Z).

Hypothesis year : 1970 <= nowYear.
Hypothesis month : 0 <= nowMonth <= 11.

(** The zone stays on one side of UTC: the ISO date of every local
    midnight is the local date less [shift] days. *)
Variable shift : Z.
Hypothesis zone : forall day, Clock.utcDay tzOffset day = day - shift.

Lemma monthOf_plain (i : Z) :
  0 <= i <= 5 ->
  monthOf nowYear nowMonth i = (nowYear + (nowMonth - i) / 12, (nowMonth - i) mod 12).
Proof.
  intros Hi. unfold monthOf, Clock.firstOfMonth. cbv zeta.
  destruct (Z.leb_spec 0 nowYear), (Z.leb_spec nowYear 99); cbn [andb];
    first [ reflexivity | exfalso; lia ].
Qed.

Lemma plain_year (y m : Z) :
  100 <= y -> Clock.firstOfMonth y m = (y + m / 12, m mod 12).
Proof.
  intros H. unfold Clock.firstOfMonth. cbv zeta.
  destruct (Z.leb_spec 0 y), (Z.leb_spec y 99); cbn [andb];
    first [ reflexivity | exfalso; lia ].
Qed.

(** The window of the iteration [i], by the month it is meant for. *)
Lemma bucket_window (i : Z) :
  0 <= i <= 5 ->
  let '(y, m) := monthOf nowYear nowMonth i in
  100 <= y /\ 0 <= m <= 11 /\
  firstDay (bucket tzOffset nowYear nowMonth i) = Clock.localDay y m 1 - shift /\
  lastDay (bucket tzOffset nowYear nowMonth i) = Clock.localDay y (m + 1) 1 - 1 - shift.
Proof.
  intros Hi. unfold bucket. rewrite (monthOf_plain i Hi).
  cbn [firstDay lastDay]. unfold Clock.isoDay. rewrite !zone.
  pose proof (Z.mod_pos_bound (nowMonth - i) 12 ltac:(lia)).
  assert (-1 <= (nowMonth - i) / 12) by (Z.div_mod_to_equations; lia).
  repeat split; try lia.
  unfold Clock.localDay. destruct (Clock.firstOfMonth _ _). lia.
Qed.

(** The month after that of the iteration [i] is that of the iteration
    [i - 1]. *)
Lemma next_month (i : Z) :
  1 <= i <= 5 ->
  let '(y, m) := monthOf nowYear nowMonth i in
  let '(y', m') := monthOf nowYear nowMonth (i - 1) in
  Clock.localDay y (m + 1) 1 = Clock.localDay y' m' 1.
Proof.
  intros Hi. rewrite (monthOf_plain i), (monthOf_plain (i - 1)) by lia.
  unfold Clock.localDay.
  assert (-1 <= (nowMonth - i) / 12) by (Z.div_mod_to_equations; lia).
  assert (-1 <= (nowMonth - (i - 1)) / 12) by (Z.div_mod_to_equations; lia).
  rewrite !plain_year by lia.
  replace (nowYear + (nowMonth - i) / 12 + ((nowMonth - i) mod 12 + 1) / 12)
    with (nowYear + (nowMonth - (i - 1)) / 12 + ((nowMonth - (i - 1)) mod 12) / 12)
    by (Z.div_mod_to_equations; lia).
  replace (((nowMonth - i) mod 12 + 1) mod 12)
    with (((nowMonth - (i - 1)) mod 12) mod 12)
    by (Z.div_mod_to_equations; lia).
  reflexivity.
Qed.

Lemma window_not_empty (i : Z) :
  0 <= i <= 5 ->
  firstDay (bucket tzOffset nowYear nowMonth i)
  <= lastDay (bucket tzOffset nowYear nowMonth i).
Proof.
  intros Hi. pose proof (bucket_window i Hi) as B.
  destruct (monthOf nowYear nowMonth i) as [y m].
  destruct B as (_ & Hm & -> & ->).
  pose proof (month_has_days y m Hm). lia.
Qed.

Lemma window_then_window (i : Z) :
  1 <= i <= 5 ->
  lastDay (bucket tzOffset nowYear nowMonth i) + 1
  = firstDay (bucket tzOffset nowYear nowMonth (i - 1)).
Proof.
  intros Hi. pose proof (bucket_window i ltac:(lia)) as B.
  pose proof (bucket_window (i - 1) ltac:(lia)) as B'.
  pose proof (next_month i Hi) as N.
  destruct (monthOf nowYear nowMonth i) as [y m].
  destruct (monthOf nowYear nowMonth (i - 1)) as [y' m'].
  destruct B as (_ & _ & _ & ->). destruct B' as (_ & _ & -> & _). lia.
Qed.

(** The windows come one after the other, the older first. *)
Lemma window_before (i j : Z) :
  0 <= j -> j < i -> i <= 5 ->
  lastDay (bucket tzOffset nowYear nowMonth i)
  < firstDay (bucket tzOffset nowYear nowMonth j).
Proof.
  intros Hj Hji Hi.
  assert (C : i = 1 \/ i = 2 \/ i = 3 \/ i = 4 \/ i = 5) by lia.
  pose proof (window_then_window 1 ltac:(lia)) as T1. change (1 - 1) with 0 in T1.
  pose proof (window_then_window 2 ltac:(lia)) as T2. change (2 - 1) with 1 in T2.
  pose proof (window_then_window 3 ltac:(lia)) as T3. change (3 - 1) with 2 in T3.
  pose proof (window_then_window 4 ltac:(lia)) as T4. change (4 - 1) with 3 in T4.
  pose proof (window_then_window 5 ltac:(lia)) as T5. change (5 - 1) with 4 in T5.
  pose proof (window_not_empty 0 ltac:(lia)).
  pose proof (window_not_empty 1 ltac:(lia)).
  pose proof (window_not_empty 2 ltac:(lia)).
  pose proof (window_not_empty 3 ltac:(lia)).
  pose proof (window_not_empty 4 ltac:(lia)).
  assert (D : j = 0 \/ j = 1 \/ j = 2 \/ j = 3 \/ j = 4) by lia.
  repeat (destruct C as [-> | C]); [ .. | subst i ];
    repeat (destruct D as [-> | D]); [ .. | subst j ]; lia.
Qed.

End Windows.

(** From the year 1970 on, in a zone that stays on one side of UTC, the six
    windows of [loadMonthlyData] follow one another without a gap and
    without a common day: each has a first day not after its last day, the
    day after the last day of a window is the first day of the next one,
    and no transaction is selected by two windows. *)
Theorem monthly_windows_tile (tzOffset : Z -> Z) (nowYear nowMonth : Z) :
  1970 <= nowYear -> 0 <= nowMonth <= 11 ->
  (forall day, -1440 < tzOffset day <= 0) \/ (forall day, 0 < tzOffset day <= 1440) ->
  let window i := bucket tzOffset nowYear nowMonth i in
  (forall i, 0 <= i <= 5 -> firstDay (window i) <= lastDay (window i)) /\
  (forall i, 1 <= i <= 5 -> lastDay (window i) + 1 = firstDay (window (i - 1))) /\
  (forall uid t i j, 0 <= i <= 5 -> 0 <= j <= 5 ->
     Store.inWindow uid (firstDay (window i)) (lastDay (window i)) t = true ->
     Store.inWindow uid (firstDay (window j)) (lastDay (window j)) t = true ->
     i = j).
Proof.
  intros Hy Hm Hz window.
  assert (exists shift, forall day, Clock.utcDay tzOffset day = day - shift) as [shift Hs].
  { destruct Hz as [W | E].
    - exists 0. intros day. rewrite MonthlyTrendsFacts.utcDay_west by apply W. lia.
    - exists 1. intros day. apply MonthlyTrendsFacts.utcDay_east, E. }
  split; [ | split ].
  - intros i Hi. apply (window_not_empty tzOffset nowYear nowMonth Hy Hm shift Hs i Hi).
  - intros i Hi. apply (window_then_window tzOffset nowYear nowMonth Hy Hm shift Hs i Hi).
  - intros uid t i j Hi Hj Wi Wj. unfold Store.inWindow in Wi, Wj.
    apply andb_prop in Wi, Wj. destruct Wi as [Wi Li], Wj as [Wj Lj].
    apply andb_prop in Wi, Wj. destruct Wi as [_ Fi], Wj as [_ Fj].
    apply Z.leb_le in Li, Lj, Fi, Fj.
    destruct (Z.lt_trichotomy i j) as [L | [E | G]]; [ exfalso | exact E | exfalso ].
    + pose proof (window_before tzOffset nowYear nowMonth Hy Hm shift Hs j i
                    ltac:(lia) L ltac:(lia)). subst window. cbv beta in *. lia.
    + pose proof (window_before tzOffset nowYear nowMonth Hy Hm shift Hs i j
                    ltac:(lia) G ltac:(lia)). subst window. cbv beta in *. lia.
Qed.

(** The windows seen from May 2024 at UTC+5:30: 30 November to 30 December,
    ..., 30 April to 30 May. *)
Lemma monthly_windows_tile_witness :
  map (fun i => (JSDate.iso_date (firstDay (bucket (fun _ => 330) 2024 4 i)),
                 JSDate.iso_date (lastDay (bucket (fun _ => 330) 2024 4 i))))
    [ 5; 4; 3; 2; 1; 0 ]
  = [ ("2023-11-30", "2023-12-30"); ("2023-12-31", "2024-01-30");
      ("2024-01-31", "2024-02-28"); ("2024-02-29", "2024-03-30");
      ("2024-03-31", "2024-04-29"); ("2024-04-30", "2024-05-30") ] /\
  (forall i, 1 <= i <= 5 ->
     lastDay (bucket (fun _ => 330) 2024 4 i) + 1
     = firstDay (bucket (fun _ => 330) 2024 4 (i - 1))).
Proof.
  split; [ reflexivity | ].
  apply (monthly_windows_tile (fun _ => 330) 2024 4); [ lia | lia | ].
  right. intros day. lia.
Defined.

End MonthlyWindowsFacts.

(** * More properties of the normalizer *)

Module NormalizerRowFacts.

Import Normalizer NormalizerSpec NormalizerColumns.

(** ** The description of an emitted transaction *)

Lemma append_not_empty_l (s t : string) : s <> "" -> (s ++ t) <> "".
Proof. destruct s as [ | c s ]; [ congruence | discriminate ]. Qed.

Lemma append_not_empty_r (s t : string) : t <> "" -> (s ++ t) <> "".
Proof.
  intros H E. apply (f_equal String.length) in E.
  rewrite BankStatementImportFacts.length_append in E.
  destruct t as [ | c t ]; [ congruence | ]. cbn [String.length] in E. lia.
Qed.

Lemma dec_fuel_not_empty (fuel : nat) : forall n acc,
  acc <> "" -> JSNumberToString.dec_fuel fuel n acc <> "".
Proof.
  induction fuel as [ | fuel IH ]; intros n acc H; cbn [JSNumberToString.dec_fuel];
    [ exact H | ].
  destruct (n / 10 =? 0); [ discriminate | apply IH; discriminate ].
Qed.

Lemma dec_not_empty (n : Z) : JSNumberToString.dec n <> "".
Proof.
  unfold JSNumberToString.dec. cbn [JSNumberToString.dec_fuel].
  destruct (n / 10 =? 0); [ discriminate | apply dec_fuel_not_empty; discriminate ].
Qed.

Lemma positive_to_string_not_empty (x : float) (m : positive) (e : Z) :
  JSNumberToString.positive_to_string x m e <> "".
Proof.
  unfold JSNumberToString.positive_to_string.
  destruct (JSNumberToString.shortest _ _ _ _ _) as [[s k] n].
  destruct ((k <=? n) && (n <=? 21)).
  { apply append_not_empty_l, dec_not_empty. }
  destruct ((0 <? n) && (n <=? 21)).
  { destruct (JSNumberToString.split_at n _) as [a b].
    apply append_not_empty_r, append_not_empty_l. discriminate. }
  destruct ((-6 <? n) && (n <=? 0)).
  { apply append_not_empty_l. discriminate. }
  destruct (k =? 1).
  { apply append_not_empty_l, dec_not_empty. }
  destruct (JSNumberToString.split_at 1 _) as [a b].
  apply append_not_empty_r, append_not_empty_l. discriminate.
Qed.

Lemma number_toString_not_empty (x : float) : JSNumberToString.toString x <> "".
Proof.
  unfold JSNumberToString.toString.
  destruct (Prim2SF x) as [ s | s | | s m e ]; try discriminate.
  - destruct s; discriminate.
  - apply append_not_empty_r, positive_to_string_not_empty.
Qed.

(** The text of a truthy value is not empty. *)
Lemma truthy_toString_not_empty (v : JSValue) (c : Cell) :
  asTruthy v = Some c -> toString c <> "".
Proof.
  intros H. apply NormalizerFacts.asTruthy_Some in H. destruct H as [-> H].
  destruct c as [ s | x | b ]; cbn [toString truthy] in *.
  - intros ->. discriminate.
  - apply number_toString_not_empty.
  - destruct b; discriminate.
Qed.

(** ** The columns that are read *)

Lemma orElse_agree (a a' b b' : JSValue) : a = a' -> b = b' -> a ||| b = a' ||| b'.
Proof. intros -> ->. reflexivity. Qed.

Section Agree.

Variables row row' : gmap string Cell.

Hypothesis agree : forall k, In k probedKeys -> row !! k = row' !! k.

Ltac probed := apply agree; vm_compute; tauto.

Lemma dateValue_agree : dateValue row = dateValue row'.
Proof. unfold dateValue. repeat apply orElse_agree; probed. Qed.

Lemma descValue_agree : descValue row = descValue row'.
Proof. unfold descValue. repeat apply orElse_agree; probed. Qed.

Lemma amountValue_agree : amountValue row = amountValue row'.
Proof. unfold amountValue. repeat apply orElse_agree; probed. Qed.

Lemma debitValue_agree : debitValue row = debitValue row'.
Proof. unfold debitValue. repeat apply orElse_agree; probed. Qed.

Lemma creditValue_agree : creditValue row = creditValue row'.
Proof. unfold creditValue. repeat apply orElse_agree; probed. Qed.

End Agree.

(** ** The properties *)

(** When [parseExcelFile] resolves, no transaction it returns has an empty
    description: the description is the text of a truthy cell. *)
Theorem emitted_description_not_empty (Date_parse : string -> option Z)
    (rows : list (gmap string Cell)) (txs : list ParsedTransaction) :
  parseExcelFile Date_parse (FirstSheet rows) = Resolved txs ->
  List.Forall (fun t => description t <> "") txs.
Proof.
  intros H. apply NormalizerFacts.parseExcelFile_Resolved in H. subst txs.
  apply Forall_forall. intros t Ht.
  apply list_elem_of_omap in Ht. destruct Ht as (row & _ & Hrow).
  unfold transactionOf in Hrow.
  destruct (normalizeRow Date_parse row) as [ | t' | ] eqn:E; try discriminate.
  injection Hrow as ->.
  apply NormalizerFacts.normalizeRow_Push in E.
  destruct E as (_ & _ & _ & dv & desc & _ & Hd & _ & ->).
  eapply truthy_toString_not_empty, Hd.
Qed.

(** A statement of three rows: the descriptions are Coffee and Salary. *)
Lemma emitted_description_not_empty_witness :
  List.Forall (fun t => description t <> "") [ coffeeTx; salaryTx ].
Proof.
  apply (emitted_description_not_empty (fun _ => None) [ coffee; blank; salary ]).
  reflexivity.
Defined.

(** A date cell that holds a number is read as a time value in
    milliseconds: the date of the transaction is the UTC date of that
    instant.  A number from 0 up to 86399999, as the serial day numbers of a
    spreadsheet are, gives 1970-01-01 whatever the day it stands for. *)
Theorem numeric_date_is_milliseconds (Date_parse : string -> option Z)
    (row : gmap string Cell) (x : float) (t : Z) (tx : ParsedTransaction) :
  asTruthy (dateValue row) = Some (CNum x) ->
  JSNumber.trunc x = Some t ->
  normalizeRow Date_parse row = Push tx ->
  date tx = JSDate.iso_date (t / JSDate.msPerDay) /\
  (0 <= t < JSDate.msPerDay -> date tx = "1970-01-01").
Proof.
  intros Hd Ht H. apply NormalizerFacts.normalizeRow_Push in H.
  destruct H as (_ & _ & _ & dv & desc & Hdv & _ & Hiso & _).
  rewrite Hd in Hdv. injection Hdv as <-.
  cbn [newDate] in Hiso. unfold JSDate.timeClip in Hiso. rewrite Ht in Hiso.
  destruct (Z.abs t <=? 8640000000000000); [ | discriminate ].
  cbn [JSDate.toISOString_date] in Hiso. injection Hiso as <-.
  split; [ reflexivity | ]. intros B. unfold JSDate.msPerDay in *.
  rewrite Z.div_small by lia. reflexivity.
Qed.

(** The coffee of 1 May 2024, its date written as the serial number 45413. *)
Lemma numeric_date_is_milliseconds_witness :
  date serialDatedTx = JSDate.iso_date (45413 / JSDate.msPerDay) /\
  (0 <= 45413 < JSDate.msPerDay -> date serialDatedTx = "1970-01-01").
Proof.
  apply (numeric_date_is_milliseconds (fun _ => None) serialDated 45413 45413);
    reflexivity.
Defined.

(** The outcome of a row depends on the nineteen probed columns only: two
    rows that agree on them are skipped both, or give the same transaction,
    or throw both.  A column of any other name (a balance, a reference, an
    "Amount" followed by a blank) changes nothing. *)
Theorem unprobed_columns_are_ignored (Date_parse : string -> option Z)
    (row row' : gmap string Cell) :
  (forall k, In k probedKeys -> row !! k = row' !! k) ->
  normalizeRow Date_parse row = normalizeRow Date_parse row'.
Proof.
  intros H. unfold normalizeRow, amountAndType.
  rewrite (dateValue_agree row row' H), (descValue_agree row row' H),
    (amountValue_agree row row' H), (debitValue_agree row row' H),
    (creditValue_agree row row' H).
  reflexivity.
Qed.

(** The coffee with a balance column is the coffee. *)
Lemma unprobed_columns_are_ignored_witness :
  normalizeRow (fun _ => None) (<[ "Balance" := CStr "1200.50" ]> coffee)
  = normalizeRow (fun _ => None) coffee.
Proof.
  apply (unprobed_columns_are_ignored (fun _ => None)).
  intros k Hk. apply lookup_insert_ne. intros <-. revert Hk. vm_compute. intuition discriminate.
Defined.

End NormalizerRowFacts.

(** * The sign of the totals of the breakdown *)

Module ExpenseTotalsFacts.

Import FloatOrder ExpenseChart ExpenseChartSpec.

Lemma SFadd_not_negative x y :
  valid_binary x = true -> valid_binary y = true ->
  SFleb (S754_zero false) x = true -> SFleb (S754_zero false) y = true ->
  SFfinite y ->
  SFleb (S754_zero false) (SF64add x y) = true.
Proof.
  intros Vx Vy Hx Hy Fy. unfold SF64add.
  destruct x as [sx | sx | | sx mx ex], y as [sy | sy | | sy my ey];
    try contradiction; try discriminate; cbn [SFadd]; try assumption.
  - destruct sx, sy; reflexivity.
  - apply FloatOrderFacts.valid_finite in Vx, Vy.
    destruct sx; [ discriminate | ]. destruct sy; [ discriminate | ].
    cbn [cond_Zopp]. rewrite DashboardFacts.binary_normalize_sign_le by lia.
    apply Z.leb_le. lia.
Qed.

(** The sum of a number that is at least zero and of a finite number that
    is at least zero is at least zero. *)
Lemma add_not_negative (x y : float) :
  (0 <=? x)%float = true -> (0 <=? y)%float = true -> is_finite y = true ->
  (0 <=? x + y)%float = true.
Proof.
  rewrite !FloatAxioms.leb_spec, add_spec. change (Prim2SF 0) with (S754_zero false).
  intros Hx Hy Fy.
  apply SFadd_not_negative; auto using Prim2SF_valid, FloatOrderFacts.is_finite_SF.
Qed.

Lemma fold_add_not_negative (l : list float) : forall acc,
  (0 <=? acc)%float = true ->
  List.Forall (fun a => is_finite a = true /\ (0 <=? a)%float = true) l ->
  (0 <=? fold_left (fun s x => (s + x)%float) l acc)%float = true.
Proof.
  induction l as [ | a l IH ]; intros acc Hacc Hl; cbn [fold_left]; [ exact Hacc | ].
  apply List.Forall_cons_iff in Hl. destruct Hl as [[Fa Ha] Hl].
  apply IH; [ | exact Hl ]. apply add_not_negative; assumption.
Qed.

Lemma floatSum_not_negative (l : list float) :
  List.Forall (fun a => is_finite a = true /\ (0 <=? a)%float = true) l ->
  (0 <=? floatSum l)%float = true.
Proof.
  destruct l as [ | a l ]; intros H; cbn [floatSum]; [ reflexivity | ].
  apply List.Forall_cons_iff in H. destruct H as [[_ Ha] Hl].
  apply fold_add_not_negative; assumption.
Qed.

(** When every amount fetched is a finite number that is at least zero,
    every total of the breakdown is at least zero: no slice of the pie is
    negative, and none is NaN. *)
Theorem breakdown_totals_not_negative (data : list Store.Transaction) :
  List.Forall
    (fun t => is_finite (Store.amount t) = true /\ (0 <=? Store.amount t)%float = true)
    data ->
  List.Forall (fun g => (0 <=? value g)%float = true /\ is_nan (value g) = false)
    (chartData data).
Proof.
  intros H. eapply List.Forall_impl; [ | apply ExpenseChartFacts.chart_group_ok ].
  intros g (_ & Hv & _). rewrite Hv.
  assert (A : List.Forall (fun a => is_finite a = true /\ (0 <=? a)%float = true)
                (groupAmounts data (name g))).
  { unfold groupAmounts, groupOf. apply List.Forall_map.
    apply List.Forall_forall. intros t Ht. apply List.filter_In in Ht.
    apply (proj1 (List.Forall_forall _ _) H). apply Ht. }
  split; [ apply floatSum_not_negative, A | ].
  apply ExpenseChartFacts.floatSum_numeric.
  eapply List.Forall_impl; [ | exact A ]. intros a [Fa _]. exact Fa.
Qed.

(** The expenses 100, 200, 200 of A, B, B. *)
Lemma breakdown_totals_not_negative_witness :
  List.Forall (fun g => (0 <=? value g)%float = true /\ is_nan (value g) = false)
    (chartData abb).
Proof.
  apply (breakdown_totals_not_negative abb).
  repeat (constructor; [ split; reflexivity | ]). constructor.
Defined.

End ExpenseTotalsFacts.
